(** * Resilience layer of the agent SDK: circuit breaker, goroutine
    supervisor, health monitor and reconnection manager (package [network]).

    The Go code is embedded shallowly.  Every method becomes a function on
    an explicit record of the receiver's fields; the mutex-protected body
    of a method is one atomic step.  Reading the clock ([time.Now],
    [time.Since]) becomes an extra argument [now].  Go's [int], [int64]
    and [time.Duration] are 64-bit two's-complement integers, modelled as
    [Z] with the wrap-around written out. *)

From Stdlib Require Import ZArith List String Bool Lia.
From Stdlib Require Import Floats Uint63 QArith Qminmax Qpower.
Import ListNotations.
Open Scope bool_scope.
Open Scope Z_scope.

(** ** Machine integers and time *)

Module GoInt.

Definition min_int : Z := - 2 ^ 63.
Definition max_int : Z := 2 ^ 63 - 1.

Definition in_range (z : Z) : Prop := min_int <= z <= max_int.

(** Two's-complement reduction of a mathematical integer to 64 bits. *)
Definition wrap (z : Z) : Z := (z + 2 ^ 63) mod 2 ^ 64 - 2 ^ 63.

Definition add (x y : Z) : Z := wrap (x + y).
Definition sub (x y : Z) : Z := wrap (x - y).

(** [x++] *)
Definition incr (x : Z) : Z := add x 1.

(** Go's [/] on integers truncates toward zero; [None] is the run-time
    panic on a zero divisor.  [min_int / -1] wraps. *)
Definition div (x y : Z) : option Z :=
  if y =? 0 then None else Some (wrap (Z.quot x y)).

End GoInt.

Module Time.

(** An instant, in nanoseconds on the process clock. *)
Abbreviation Time := Z (only parsing).
(** [time.Duration]: an [int64] count of nanoseconds. *)
Abbreviation Duration := Z (only parsing).

(** [t.Sub(u)]: the difference, saturated to the range of [Duration]. *)
Definition Sub (t u : Time) : Duration :=
  Z.max GoInt.min_int (Z.min GoInt.max_int (t - u)).

(** [time.Since(t)] evaluated when the clock reads [now]. *)
Definition Since (now t : Time) : Duration := Sub now t.

(** [t.Add(d)] *)
Definition Add (t : Time) (d : Duration) : Time := t + d.

End Time.

Definition error := string.

(** ** CircuitBreaker *)

Module Breaker.

Inductive CircuitState : Type :=
| CircuitClosed
| CircuitOpen
| CircuitHalfOpen.

Definition CircuitState_eqb (a b : CircuitState) : bool :=
  match a, b with
  | CircuitClosed, CircuitClosed => true
  | CircuitOpen, CircuitOpen => true
  | CircuitHalfOpen, CircuitHalfOpen => true
  | _, _ => false
  end.

Definition CircuitState_String (s : CircuitState) : string :=
  match s with
  | CircuitClosed => "closed"
  | CircuitOpen => "open"
  | CircuitHalfOpen => "half-open"
  end.

(** The receiver.  [onStateChange] records whether a handler is installed;
    [notified] is the log of handler invocations the breaker has spawned
    ([go cb.onStateChange(old, new)]), oldest first. *)
Record CircuitBreaker : Type := mkCircuitBreaker {
  maxFailures : Z;
  resetTimeout : Time.Duration;
  halfOpenRequests : Z;
  state : CircuitState;
  failures : Z;
  successCount : Z;
  lastFailTime : Time.Time;
  halfOpenAttempts : Z;
  onStateChange : bool;
  notified : list (CircuitState * CircuitState)
}.

(** The zero [time.Time] (January 1 of year 1) lies so far before any
    reading of the clock that [time.Since] of it saturates. *)
Definition zeroTime : Time.Time := - 2 ^ 70.

Definition NewCircuitBreaker (maxFailures : Z) (resetTimeout : Time.Duration)
  : CircuitBreaker :=
  {| maxFailures := maxFailures;
     resetTimeout := resetTimeout;
     halfOpenRequests := 1;
     state := CircuitClosed;
     failures := 0;
     successCount := 0;
     lastFailTime := zeroTime;
     halfOpenAttempts := 0;
     onStateChange := false;
     notified := [] |}.

Definition SetStateChangeHandler (cb : CircuitBreaker) : CircuitBreaker :=
  {| maxFailures := maxFailures cb;
     resetTimeout := resetTimeout cb;
     halfOpenRequests := halfOpenRequests cb;
     state := state cb;
     failures := failures cb;
     successCount := successCount cb;
     lastFailTime := lastFailTime cb;
     halfOpenAttempts := halfOpenAttempts cb;
     onStateChange := true;
     notified := notified cb |}.

Definition set_state (s : CircuitState) (cb : CircuitBreaker) : CircuitBreaker :=
  {| maxFailures := maxFailures cb;
     resetTimeout := resetTimeout cb;
     halfOpenRequests := halfOpenRequests cb;
     state := s;
     failures := failures cb;
     successCount := successCount cb;
     lastFailTime := lastFailTime cb;
     halfOpenAttempts := halfOpenAttempts cb;
     onStateChange := onStateChange cb;
     notified := notified cb |}.

Definition set_failures (n : Z) (cb : CircuitBreaker) : CircuitBreaker :=
  {| maxFailures := maxFailures cb;
     resetTimeout := resetTimeout cb;
     halfOpenRequests := halfOpenRequests cb;
     state := state cb;
     failures := n;
     successCount := successCount cb;
     lastFailTime := lastFailTime cb;
     halfOpenAttempts := halfOpenAttempts cb;
     onStateChange := onStateChange cb;
     notified := notified cb |}.

Definition set_successCount (n : Z) (cb : CircuitBreaker) : CircuitBreaker :=
  {| maxFailures := maxFailures cb;
     resetTimeout := resetTimeout cb;
     halfOpenRequests := halfOpenRequests cb;
     state := state cb;
     failures := failures cb;
     successCount := n;
     lastFailTime := lastFailTime cb;
     halfOpenAttempts := halfOpenAttempts cb;
     onStateChange := onStateChange cb;
     notified := notified cb |}.

Definition set_lastFailTime (t : Time.Time) (cb : CircuitBreaker) : CircuitBreaker :=
  {| maxFailures := maxFailures cb;
     resetTimeout := resetTimeout cb;
     halfOpenRequests := halfOpenRequests cb;
     state := state cb;
     failures := failures cb;
     successCount := successCount cb;
     lastFailTime := t;
     halfOpenAttempts := halfOpenAttempts cb;
     onStateChange := onStateChange cb;
     notified := notified cb |}.

Definition set_halfOpenAttempts (n : Z) (cb : CircuitBreaker) : CircuitBreaker :=
  {| maxFailures := maxFailures cb;
     resetTimeout := resetTimeout cb;
     halfOpenRequests := halfOpenRequests cb;
     state := state cb;
     failures := failures cb;
     successCount := successCount cb;
     lastFailTime := lastFailTime cb;
     halfOpenAttempts := n;
     onStateChange := onStateChange cb;
     notified := notified cb |}.

Definition notify (old new : CircuitState) (cb : CircuitBreaker) : CircuitBreaker :=
  {| maxFailures := maxFailures cb;
     resetTimeout := resetTimeout cb;
     halfOpenRequests := halfOpenRequests cb;
     state := state cb;
     failures := failures cb;
     successCount := successCount cb;
     lastFailTime := lastFailTime cb;
     halfOpenAttempts := halfOpenAttempts cb;
     onStateChange := onStateChange cb;
     notified := notified cb ++ [(old, new)] |}.

(** [transitionToLocked]: nothing happens when the state is already
    [newState]; otherwise the state is stored, the trial and success
    counters are zeroed when entering half-open, and the handler (if any)
    is spawned. *)
Definition transitionToLocked (newState : CircuitState) (cb : CircuitBreaker)
  : CircuitBreaker :=
  let oldState := state cb in
  if CircuitState_eqb oldState newState then cb
  else
    let cb1 := set_state newState cb in
    let cb2 :=
      match newState with
      | CircuitHalfOpen => set_successCount 0 (set_halfOpenAttempts 0 cb1)
      | _ => cb1
      end in
    if onStateChange cb2 then notify oldState newState cb2 else cb2.

Definition transitionTo (newState : CircuitState) (cb : CircuitBreaker)
  : CircuitBreaker :=
  transitionToLocked newState cb.

(** [CanAttempt], called when the clock reads [now]: the answer and the
    breaker afterwards.  The state word only ever holds one of the three
    constants, so the [default] branch of the [switch] has no counterpart. *)
Definition CanAttempt (now : Time.Time) (cb : CircuitBreaker)
  : bool * CircuitBreaker :=
  match state cb with
  | CircuitClosed => (true, cb)
  | CircuitOpen =>
      let shouldReset := Time.Since now (lastFailTime cb) >? resetTimeout cb in
      if shouldReset then (true, transitionTo CircuitHalfOpen cb)
      else (false, cb)
  | CircuitHalfOpen =>
      if halfOpenAttempts cb <? halfOpenRequests cb
      then (true, set_halfOpenAttempts (GoInt.incr (halfOpenAttempts cb)) cb)
      else (false, cb)
  end.

Definition recordFailure (now : Time.Time) (currentState : CircuitState)
  (cb : CircuitBreaker) : CircuitBreaker :=
  let cb1 := set_failures (GoInt.incr (failures cb)) cb in
  let cb2 := set_lastFailTime now cb1 in
  match currentState with
  | CircuitClosed =>
      if failures cb2 >=? maxFailures cb2
      then transitionToLocked CircuitOpen cb2
      else cb2
  | CircuitHalfOpen =>
      set_halfOpenAttempts 0 (transitionToLocked CircuitOpen cb2)
  | CircuitOpen => cb2
  end.

Definition recordSuccess (currentState : CircuitState) (cb : CircuitBreaker)
  : CircuitBreaker :=
  match currentState with
  | CircuitHalfOpen =>
      let cb1 := set_successCount (GoInt.incr (successCount cb)) cb in
      if successCount cb1 >=? halfOpenRequests cb1
      then transitionToLocked CircuitClosed
             (set_halfOpenAttempts 0 (set_successCount 0 (set_failures 0 cb1)))
      else cb1
  | CircuitClosed =>
      if failures cb >? 0 then set_failures 0 cb else cb
  | CircuitOpen => cb
  end.

(** [RecordResult(err)]; [None] is a nil error. *)
Definition RecordResult (now : Time.Time) (err : option error)
  (cb : CircuitBreaker) : CircuitBreaker :=
  let st := state cb in
  match err with
  | Some _ => recordFailure now st cb
  | None => recordSuccess st cb
  end.

Definition GetState (cb : CircuitBreaker) : CircuitState := state cb.

Definition Reset (cb : CircuitBreaker) : CircuitBreaker :=
  set_state CircuitClosed
    (set_lastFailTime zeroTime
       (set_halfOpenAttempts 0 (set_successCount 0 (set_failures 0 cb)))).

(** [Call(fn)].  The guarded function acts on the rest of the program,
    a state of type [World], and returns its error.  The clock is read
    twice: by [CanAttempt] before the function runs, at [now], and by
    [RecordResult] once the function has returned, at [later]. *)
Section Call.

Variable World : Type.

Definition Call (now later : Time.Time)
  (fn : World -> option error * World)
  (cb : CircuitBreaker) (w : World)
  : option error * CircuitBreaker * World :=
  let (ok, cb1) := CanAttempt now cb in
  if negb ok then (Some "circuit breaker is open"%string, cb1, w)
  else
    let (err, w1) := fn w in
    (err, RecordResult later err cb1, w1).

End Call.

Arguments Call {World} now later fn cb w.

(** [CanAttempt] called once at each instant of [times], in order. *)
Fixpoint CanAttempt_seq (times : list Time.Time) (cb : CircuitBreaker)
  : list bool * CircuitBreaker :=
  match times with
  | [] => ([], cb)
  | t :: rest =>
      let (r, cb1) := CanAttempt t cb in
      let (rs, cb2) := CanAttempt_seq rest cb1 in
      (r :: rs, cb2)
  end.

Definition count_true (l : list bool) : Z :=
  Z.of_nat (List.length (List.filter (fun b => b) l)).

(** The two operations that can move the breaker from one state to
    another, and the breaker after one of them. *)
Inductive Op : Type :=
| OpCanAttempt (now : Time.Time)
| OpRecordResult (now : Time.Time) (err : option error).

Definition step (op : Op) (cb : CircuitBreaker) : CircuitBreaker :=
  match op with
  | OpCanAttempt now => snd (CanAttempt now cb)
  | OpRecordResult now err => RecordResult now err cb
  end.

(** Everything a client can do to a breaker, and a history of it. *)
Inductive Action : Type :=
| ActCanAttempt (now : Time.Time)
| ActRecordResult (now : Time.Time) (err : option error)
| ActReset
| ActSetStateChangeHandler.

Definition act (a : Action) (cb : CircuitBreaker) : CircuitBreaker :=
  match a with
  | ActCanAttempt now => snd (CanAttempt now cb)
  | ActRecordResult now err => RecordResult now err cb
  | ActReset => Reset cb
  | ActSetStateChangeHandler => SetStateChangeHandler cb
  end.

Definition run (history : list Action) (cb : CircuitBreaker) : CircuitBreaker :=
  List.fold_left (fun c a => act a c) history cb.

(** [RecordResult] with an error, once for each entry (instant, error). *)
Definition recordFailures (fs : list (Time.Time * error)) (cb : CircuitBreaker)
  : CircuitBreaker :=
  List.fold_left (fun c f => RecordResult (fst f) (Some (snd f)) c) fs cb.

(** [RecordResult(nil)] at each of the instants. *)
Definition recordSuccesses (ts : list Time.Time) (cb : CircuitBreaker)
  : CircuitBreaker :=
  List.fold_left (fun c t => RecordResult t None c) ts cb.

(** The configuration of two breakers agrees. *)
Definition sameSetup (a b : CircuitBreaker) : Prop :=
  maxFailures a = maxFailures b /\
  resetTimeout a = resetTimeout b /\
  halfOpenRequests a = halfOpenRequests b /\
  onStateChange a = onStateChange b.

(** What holds of a breaker made by [NewCircuitBreaker] after any history
    of calls: the configuration is the one it was made with (one half-open
    request), no success is left counted, and the trial counter is 0 or 1
    in half-open and 0 in the other states. *)
Definition wellFormed (mf : Z) (rt : Time.Duration) (cb : CircuitBreaker)
  : Prop :=
  maxFailures cb = mf /\
  resetTimeout cb = rt /\
  halfOpenRequests cb = 1 /\
  successCount cb = 0 /\
  match state cb with
  | CircuitHalfOpen => halfOpenAttempts cb = 0 \/ halfOpenAttempts cb = 1
  | _ => halfOpenAttempts cb = 0
  end.

End Breaker.

(** ** GoroutineSupervisor *)

Module Supervisor.

(** [float64(d)] for an [int64]: the nearest binary64, ties to even. *)
Definition float64_of_int64 (d : Z) : float :=
  if d =? GoInt.min_int then PrimFloat.opp (Z.ldexp PrimFloat.one 63)
  else if d <? 0 then PrimFloat.opp (PrimFloat.of_uint63 (Uint63.of_Z (- d)))
  else PrimFloat.of_uint63 (Uint63.of_Z d).

(** [int64(f)] for a [float64]: the fraction is discarded.  Go leaves the
    result open when the value does not fit (or is not a number); this is
    the answer of the amd64 conversion instruction, the smallest [int64]. *)
Definition int64_of_float64 (f : float) : Z :=
  match Prim2SF f with
  | S754_zero _ => 0
  | S754_finite s m e =>
      let mag := if 0 <=? e then Z.pos m * 2 ^ e else Z.pos m / 2 ^ (- e) in
      let v := if s then - mag else mag in
      if (GoInt.min_int <=? v) && (v <=? GoInt.max_int) then v
      else GoInt.min_int
  | _ => GoInt.min_int
  end.

(** [time.Duration(float64(delay) * factor)] *)
Definition scaleDuration (factor : float) (delay : Time.Duration)
  : Time.Duration :=
  int64_of_float64 (PrimFloat.mul (float64_of_int64 delay) factor).

(** The [int64] values that a [float64] holds exactly: those with at
    most 53 significant bits, every whole number of absolute value up to
    [2 ^ 53] among them. *)
Definition float64_holds (z : Z) : Prop :=
  Z.abs z < 2 ^ 63 /\
  exists m e, 0 <= e /\ 0 <= m < 2 ^ 53 /\ Z.abs z = m * 2 ^ e.

(** The number a finite [float64] stands for, as a fraction; each is a
    whole multiple of [2 ^ -1074].  Infinities and NaN stand for none. *)
Definition Q_of_float64 (f : float) : option Q :=
  match Prim2SF f with
  | S754_zero _ => Some 0%Q
  | S754_finite s m e =>
      Some (((if s then Z.neg m else Z.pos m) * 2 ^ (e + 1074))
            # (2 ^ 1074))
  | _ => None
  end.

(** [OnFailure] records whether a callback is installed. *)
Record RestartPolicy : Type := mkRestartPolicy {
  MaxRestarts : Z;
  RestartDelay : Time.Duration;
  BackoffFactor : float;
  MaxBackoffDelay : Time.Duration;
  OnFailure : bool
}.

Definition second : Time.Duration := 1000000000.
Definition millisecond : Time.Duration := 1000000.

Definition DefaultRestartPolicy : RestartPolicy :=
  {| MaxRestarts := 5;
     RestartDelay := 1 * second;
     BackoffFactor := 2%float;
     MaxBackoffDelay := 30 * second;
     OnFailure := false |}.

(** The work function and the contexts live in the environment of the
    run (see [Round] below); the record keeps the data fields. *)
Record SupervisedGoroutine : Type := mkSupervisedGoroutine {
  ID : string;
  Name : string;
  Policy : RestartPolicy;
  running : bool;
  restartCount : Z;
  lastError : option error;
  lastRestart : Time.Time
}.

(** What [Register] stores. *)
Definition newSupervisedGoroutine (id name : string) (policy : RestartPolicy)
  : SupervisedGoroutine :=
  {| ID := id; Name := name; Policy := policy;
     running := false; restartCount := 0;
     lastError := None; lastRestart := Breaker.zeroTime |}.

(** The body of the [for] loop of [calculateBackoff], [k] iterations
    left: scale, and on exceeding the cap take the cap and [break]. *)
Fixpoint backoffLoop (p : RestartPolicy) (k : nat) (delay : Time.Duration)
  : Time.Duration :=
  match k with
  | O => delay
  | S k' =>
      let delay1 := scaleDuration (BackoffFactor p) delay in
      if delay1 >? MaxBackoffDelay p then MaxBackoffDelay p
      else backoffLoop p k' delay1
  end.

(** [for i := 1; i < sg.restartCount; i++] runs [restartCount - 1]
    times, and not at all when [restartCount <= 1]. *)
Definition calculateBackoff (sg : SupervisedGoroutine) : Time.Duration :=
  backoffLoop (Policy sg) (Z.to_nat (restartCount sg - 1))
    (RestartDelay (Policy sg)).

(** What the surroundings do during one turn of the loop of
    [runGoroutine]: the supervisor's [running] flag read at the top, the
    value returned by the work function, whether the worker's context is
    done when tested after the call, whether it is done before the
    back-off timer fires, and the clock read for [lastRestart]. *)
Record Round : Type := mkRound {
  supervisorRunning : bool;
  result : option error;
  doneAfterCall : bool;
  doneDuringWait : bool;
  clock : Time.Time
}.

Inductive Event : Type :=
| EvInvoke                              (* sg.Function(sg.ctx) *)
| EvFailed (err : error) (count : Z)    (* "failed (restart count/max)" *)
| EvOnFailure (err : error) (count : Z) (* RestartPolicy.OnFailure(err, count) *)
| EvGiveUp                              (* "exceeded max restarts, giving up" *)
| EvWait (delay : Time.Duration)        (* timer of the restart elapsed *)
| EvCancelled                           (* context done *)
| EvCompleted.                          (* work function returned nil *)

Definition set_running (b : bool) (sg : SupervisedGoroutine)
  : SupervisedGoroutine :=
  {| ID := ID sg; Name := Name sg; Policy := Policy sg;
     running := b; restartCount := restartCount sg;
     lastError := lastError sg; lastRestart := lastRestart sg |}.

Definition set_failure (err : error) (sg : SupervisedGoroutine)
  : SupervisedGoroutine :=
  {| ID := ID sg; Name := Name sg; Policy := Policy sg;
     running := running sg; restartCount := GoInt.incr (restartCount sg);
     lastError := Some err; lastRestart := lastRestart sg |}.

Definition set_lastRestart (t : Time.Time) (sg : SupervisedGoroutine)
  : SupervisedGoroutine :=
  {| ID := ID sg; Name := Name sg; Policy := Policy sg;
     running := running sg; restartCount := restartCount sg;
     lastError := lastError sg; lastRestart := t |}.

(** [startGoroutine] marks the worker as running before spawning the loop. *)
Definition startGoroutine (sg : SupervisedGoroutine) : SupervisedGoroutine :=
  set_running true sg.

(** [runGoroutine]: the loop from turn [i] on, with [fuel] turns allowed.
    [None] means the loop is still going after [fuel] turns; otherwise the
    worker as the loop leaves it (the deferred store clears [running]) and
    what happened, oldest first. *)
Fixpoint runGoroutine (fuel : nat) (env : nat -> Round) (i : nat)
  (sg : SupervisedGoroutine) : option (SupervisedGoroutine * list Event) :=
  match fuel with
  | O => None
  | S fuel' =>
      let r := env i in
      if negb (supervisorRunning r) then Some (set_running false sg, [])
      else if doneAfterCall r
      then Some (set_running false sg, [EvInvoke; EvCancelled])
      else
        match result r with
        | None => Some (set_running false sg, [EvInvoke; EvCompleted])
        | Some err =>
            let sg1 := set_failure err sg in
            let n := restartCount sg1 in
            let evs :=
              [EvInvoke; EvFailed err n] ++
              (if OnFailure (Policy sg1) then [EvOnFailure err n] else []) in
            if n >? MaxRestarts (Policy sg1)
            then Some (set_running false sg1, evs ++ [EvGiveUp])
            else
              let delay := calculateBackoff sg1 in
              let sg2 := set_lastRestart (Time.Add (clock r) delay) sg1 in
              if doneDuringWait r
              then Some (set_running false sg2, evs ++ [EvCancelled])
              else
                match runGoroutine fuel' env (S i) sg2 with
                | None => None
                | Some (sg3, rest) => Some (sg3, evs ++ EvWait delay :: rest)
                end
        end
  end.

Definition isInvoke (e : Event) : bool :=
  match e with EvInvoke => true | _ => false end.

Definition isWait (e : Event) : bool :=
  match e with EvWait _ => true | _ => false end.

(** Number of calls of the work function, and number of restarts (a
    completed back-off wait, after which the function is called again). *)
Definition invocations (tr : list Event) : Z :=
  Z.of_nat (List.length (List.filter isInvoke tr)).

Definition restarts (tr : list Event) : Z :=
  Z.of_nat (List.length (List.filter isWait tr)).

(** The restart counts the worker went through, as logged. *)
Fixpoint counts (tr : list Event) : list Z :=
  match tr with
  | [] => []
  | EvFailed _ n :: rest => n :: counts rest
  | _ :: rest => counts rest
  end.

(** The delays waited, in order. *)
Fixpoint delays (tr : list Event) : list Time.Duration :=
  match tr with
  | [] => []
  | EvWait d :: rest => d :: delays rest
  | _ :: rest => delays rest
  end.

(** Surroundings in which the supervisor is running, the work function
    returns an error at every call and the context is never done. *)
Definition always_failing (env : nat -> Round) : Prop :=
  forall i,
    supervisorRunning (env i) = true /\
    (exists e, result (env i) = Some e) /\
    doneAfterCall (env i) = false /\
    doneDuringWait (env i) = false.

(** [c + 1; c + 2; ...], [k] numbers. *)
Fixpoint countsFrom (c : Z) (k : nat) : list Z :=
  match k with
  | O => []
  | S k' => (c + 1) :: countsFrom (c + 1) k'
  end.

(** The events logged for one failure, before the decision to restart. *)
Definition failureEvents (p : RestartPolicy) (err : error) (n : Z)
  : list Event :=
  [EvInvoke; EvFailed err n] ++
  (if OnFailure p then [EvOnFailure err n] else []).

(** The failures logged in a run, and the calls of the [OnFailure]
    callback, each with the error and the restart count passed. *)
Fixpoint failuresLogged (tr : list Event) : list (error * Z) :=
  match tr with
  | [] => []
  | EvFailed e n :: rest => (e, n) :: failuresLogged rest
  | _ :: rest => failuresLogged rest
  end.

Fixpoint callbacks (tr : list Event) : list (error * Z) :=
  match tr with
  | [] => []
  | EvOnFailure e n :: rest => (e, n) :: callbacks rest
  | _ :: rest => callbacks rest
  end.

(** The delay [calculateBackoff] yields for a policy at a restart count. *)
Definition delayFor (p : RestartPolicy) (n : Z) : Time.Duration :=
  backoffLoop p (Z.to_nat (n - 1)) (RestartDelay p).

(** [RestartDelay * BackoffFactor ^ j] in exact arithmetic, [phi] being
    the number the factor stands for. *)
Definition exactDelay (p : RestartPolicy) (phi : Q) (j : Z) : Q :=
  (inject_Z (RestartDelay p) * phi ^ j)%Q.

(** The loop of [calculateBackoff] gets as far as product number [j]
    when none of the products before it exceeds the cap (the base delay
    itself is not compared with the cap). *)
Definition reached (p : RestartPolicy) (phi : Q) (j : Z) : Prop :=
  forall i, 1 <= i < j ->
    (exactDelay p phi i <= inject_Z (MaxBackoffDelay p))%Q.

End Supervisor.

(** ** The supervisor's table of workers *)

Module Registry.

(** The table [goroutines] is a Go map; it is kept here as an association
    list with distinct keys, in order of registration.  Go ranges over a
    map in no particular order, which the properties below do not depend
    on.  Contexts, the wait group and the spawned loops themselves are
    outside this record: [running] is the supervisor's atomic flag. *)
Record GoroutineSupervisor : Type := mkGoroutineSupervisor {
  goroutines : list (string * Supervisor.SupervisedGoroutine);
  running : bool
}.

Definition NewGoroutineSupervisor : GoroutineSupervisor :=
  {| goroutines := []; running := false |}.

(** [gs.goroutines[id]] *)
Fixpoint lookup (id : string)
  (l : list (string * Supervisor.SupervisedGoroutine))
  : option Supervisor.SupervisedGoroutine :=
  match l with
  | [] => None
  | (k, sg) :: rest => if String.eqb k id then Some sg else lookup id rest
  end.

(** The entry of [id] replaced by [f] of it (the entries are pointers:
    a write through one is seen in the table). *)
Fixpoint update (id : string)
  (f : Supervisor.SupervisedGoroutine -> Supervisor.SupervisedGoroutine)
  (l : list (string * Supervisor.SupervisedGoroutine))
  : list (string * Supervisor.SupervisedGoroutine) :=
  match l with
  | [] => []
  | (k, sg) :: rest =>
      if String.eqb k id then (k, f sg) :: rest
      else (k, sg) :: update id f rest
  end.

Definition ids (gs : GoroutineSupervisor) : list string :=
  List.map fst (goroutines gs).

(** [Register]: the error, if any, and the supervisor afterwards. *)
Definition Register (id name : string) (policy : Supervisor.RestartPolicy)
  (gs : GoroutineSupervisor) : option error * GoroutineSupervisor :=
  match lookup id (goroutines gs) with
  | Some _ =>
      (Some (String.append "goroutine with ID "
               (String.append id " already registered")), gs)
  | None =>
      (None,
       {| goroutines :=
            goroutines gs ++
            [(id, Supervisor.newSupervisedGoroutine id name policy)];
          running := running gs |})
  end.

(** [startGoroutine] on an entry: nothing for a worker that is marked
    running, otherwise the mark is set and a loop is spawned. *)
Definition startGoroutine (sg : Supervisor.SupervisedGoroutine)
  : Supervisor.SupervisedGoroutine * bool :=
  if Supervisor.running sg then (sg, false)
  else (Supervisor.set_running true sg, true).

(** [Start]: the error, the supervisor afterwards, and the ids of the
    workers for which a loop was spawned. *)
Definition Start (gs : GoroutineSupervisor)
  : option error * GoroutineSupervisor * list string :=
  if running gs
  then (Some "supervisor already running"%string, gs, [])
  else
    (None,
     {| goroutines :=
          List.map (fun e => (fst e, fst (startGoroutine (snd e))))
                   (goroutines gs);
        running := true |},
     List.map fst
       (List.filter (fun e => snd (startGoroutine (snd e))) (goroutines gs))).

Record SupervisorMetrics : Type := mkSupervisorMetrics {
  TotalGoroutines : Z;
  RunningGoroutines : Z;
  StoppedGoroutines : Z;
  TotalRestarts : Z
}.

(** One turn of the loop of [GetMetrics]. *)
Definition countOne (m : SupervisorMetrics)
  (e : string * Supervisor.SupervisedGoroutine) : SupervisorMetrics :=
  let sg := snd e in
  {| TotalGoroutines := TotalGoroutines m;
     RunningGoroutines :=
       if Supervisor.running sg then GoInt.incr (RunningGoroutines m)
       else RunningGoroutines m;
     StoppedGoroutines :=
       if Supervisor.running sg then StoppedGoroutines m
       else GoInt.incr (StoppedGoroutines m);
     TotalRestarts := GoInt.add (TotalRestarts m) (Supervisor.restartCount sg) |}.

Definition GetMetrics (gs : GoroutineSupervisor) : SupervisorMetrics :=
  List.fold_left countOne (goroutines gs)
    {| TotalGoroutines := Z.of_nat (List.length (goroutines gs));
       RunningGoroutines := 0;
       StoppedGoroutines := 0;
       TotalRestarts := 0 |}.

(** The loop of [IsHealthy], which returns at the first worker that is
    not running or has used more than half of its restarts ([/] on [int]
    truncates). *)
Fixpoint allHealthy (l : list (string * Supervisor.SupervisedGoroutine))
  : bool :=
  match l with
  | [] => true
  | (_, sg) :: rest =>
      if negb (Supervisor.running sg) then false
      else if Supervisor.restartCount sg
                >? Z.quot (Supervisor.MaxRestarts (Supervisor.Policy sg)) 2
      then false
      else allHealthy rest
  end.

Definition IsHealthy (gs : GoroutineSupervisor) : bool :=
  allHealthy (goroutines gs).

(** What [IsHealthy] asks of one worker. *)
Definition workerHealthy (sg : Supervisor.SupervisedGoroutine) : Prop :=
  Supervisor.running sg = true /\
  Supervisor.restartCount sg
    <= Z.quot (Supervisor.MaxRestarts (Supervisor.Policy sg)) 2.

(** The number of workers marked running, and the sum of the restart
    counts. *)
Definition countRunning (l : list (string * Supervisor.SupervisedGoroutine))
  : Z :=
  Z.of_nat (List.length
              (List.filter (fun e => Supervisor.running (snd e)) l)).

Definition countStopped (l : list (string * Supervisor.SupervisedGoroutine))
  : Z :=
  Z.of_nat (List.length
              (List.filter (fun e => negb (Supervisor.running (snd e))) l)).

Definition sumRestarts (l : list (string * Supervisor.SupervisedGoroutine))
  : Z :=
  List.fold_right (fun e acc => Supervisor.restartCount (snd e) + acc) 0 l.

End Registry.

(** ** HealthMonitor *)

Module Health.

Inductive HealthStatus : Type :=
| HealthUnknown
| HealthHealthy
| HealthDegraded
| HealthUnhealthy.

Definition HealthStatus_eqb (a b : HealthStatus) : bool :=
  match a, b with
  | HealthUnknown, HealthUnknown => true
  | HealthHealthy, HealthHealthy => true
  | HealthDegraded, HealthDegraded => true
  | HealthUnhealthy, HealthUnhealthy => true
  | _, _ => false
  end.

Definition HealthStatus_String (s : HealthStatus) : string :=
  match s with
  | HealthHealthy => "healthy"
  | HealthDegraded => "degraded"
  | HealthUnhealthy => "unhealthy"
  | HealthUnknown => "unknown"
  end.

Record ConnectionMetrics : Type := mkConnectionMetrics {
  TotalMessages : Z;
  SentMessages : Z;
  ReceivedMessages : Z;
  FailedMessages : Z;
  ReconnectAttempts : Z;
  SuccessfulReconnects : Z;
  LastMessageSent : Time.Time;
  LastMessageReceived : Time.Time;
  LastReconnect : Time.Time;
  ConnectionEstablished : Time.Time;
  IsConnected : bool;
  IsAuthenticated : bool;
  CurrentLatency : Time.Duration;
  AverageLatency : Time.Duration;
  ConsecutiveErrors : Z;
  LastError : option error;
  LastErrorTime : Time.Time
}.

(** The zero value [&ConnectionMetrics{}]. *)
Definition zeroMetrics : ConnectionMetrics :=
  {| TotalMessages := 0; SentMessages := 0; ReceivedMessages := 0;
     FailedMessages := 0; ReconnectAttempts := 0; SuccessfulReconnects := 0;
     LastMessageSent := Breaker.zeroTime;
     LastMessageReceived := Breaker.zeroTime;
     LastReconnect := Breaker.zeroTime;
     ConnectionEstablished := Breaker.zeroTime;
     IsConnected := false; IsAuthenticated := false;
     CurrentLatency := 0; AverageLatency := 0;
     ConsecutiveErrors := 0; LastError := None;
     LastErrorTime := Breaker.zeroTime |}.

(** The probe [healthCheckFunc] is a function of the instant at which it is
    called ([None] in the field: no probe installed; [None] as its answer:
    a nil error).  [onStatusChange] records whether a handler is installed
    and [statusChanges] logs the handler invocations spawned. *)
Record HealthMonitor : Type := mkHealthMonitor {
  metrics : ConnectionMetrics;
  status : HealthStatus;
  checkInterval : Time.Duration;
  unhealthyThreshold : Z;
  degradedThreshold : Z;
  onStatusChange : bool;
  healthCheckFunc : option (Time.Time -> option error);
  latencyWindow : list Time.Duration;
  maxLatencySamples : Z;
  statusChanges : list (HealthStatus * HealthStatus)
}.

Definition NewHealthMonitor (checkInterval : Time.Duration) : HealthMonitor :=
  {| metrics := zeroMetrics;
     status := HealthUnknown;
     checkInterval := checkInterval;
     unhealthyThreshold := 5;
     degradedThreshold := 3;
     onStatusChange := false;
     healthCheckFunc := None;
     latencyWindow := [];
     maxLatencySamples := 100;
     statusChanges := [] |}.

Definition set_metrics (m : ConnectionMetrics) (hm : HealthMonitor)
  : HealthMonitor :=
  {| metrics := m;
     status := status hm;
     checkInterval := checkInterval hm;
     unhealthyThreshold := unhealthyThreshold hm;
     degradedThreshold := degradedThreshold hm;
     onStatusChange := onStatusChange hm;
     healthCheckFunc := healthCheckFunc hm;
     latencyWindow := latencyWindow hm;
     maxLatencySamples := maxLatencySamples hm;
     statusChanges := statusChanges hm |}.

Definition set_latencyWindow (w : list Time.Duration) (hm : HealthMonitor)
  : HealthMonitor :=
  {| metrics := metrics hm;
     status := status hm;
     checkInterval := checkInterval hm;
     unhealthyThreshold := unhealthyThreshold hm;
     degradedThreshold := degradedThreshold hm;
     onStatusChange := onStatusChange hm;
     healthCheckFunc := healthCheckFunc hm;
     latencyWindow := w;
     maxLatencySamples := maxLatencySamples hm;
     statusChanges := statusChanges hm |}.

Definition SetHealthCheckFunc (fn : Time.Time -> option error)
  (hm : HealthMonitor) : HealthMonitor :=
  {| metrics := metrics hm;
     status := status hm;
     checkInterval := checkInterval hm;
     unhealthyThreshold := unhealthyThreshold hm;
     degradedThreshold := degradedThreshold hm;
     onStatusChange := onStatusChange hm;
     healthCheckFunc := Some fn;
     latencyWindow := latencyWindow hm;
     maxLatencySamples := maxLatencySamples hm;
     statusChanges := statusChanges hm |}.

Definition SetStatusChangeHandler (hm : HealthMonitor) : HealthMonitor :=
  {| metrics := metrics hm;
     status := status hm;
     checkInterval := checkInterval hm;
     unhealthyThreshold := unhealthyThreshold hm;
     degradedThreshold := degradedThreshold hm;
     onStatusChange := true;
     healthCheckFunc := healthCheckFunc hm;
     latencyWindow := latencyWindow hm;
     maxLatencySamples := maxLatencySamples hm;
     statusChanges := statusChanges hm |}.

(** [updateStatus] *)
Definition updateStatus (newStatus : HealthStatus) (hm : HealthMonitor)
  : HealthMonitor :=
  let oldStatus := status hm in
  if HealthStatus_eqb oldStatus newStatus then hm
  else
    {| metrics := metrics hm;
       status := newStatus;
       checkInterval := checkInterval hm;
       unhealthyThreshold := unhealthyThreshold hm;
       degradedThreshold := degradedThreshold hm;
       onStatusChange := onStatusChange hm;
       healthCheckFunc := healthCheckFunc hm;
       latencyWindow := latencyWindow hm;
       maxLatencySamples := maxLatencySamples hm;
       statusChanges :=
         if onStatusChange hm
         then statusChanges hm ++ [(oldStatus, newStatus)]
         else statusChanges hm |}.

(** The error branch and the success branch of [performHealthCheck]. *)
Definition probeFailed (now : Time.Time) (err : error) (m : ConnectionMetrics)
  : ConnectionMetrics :=
  {| TotalMessages := TotalMessages m;
     SentMessages := SentMessages m;
     ReceivedMessages := ReceivedMessages m;
     FailedMessages := FailedMessages m;
     ReconnectAttempts := ReconnectAttempts m;
     SuccessfulReconnects := SuccessfulReconnects m;
     LastMessageSent := LastMessageSent m;
     LastMessageReceived := LastMessageReceived m;
     LastReconnect := LastReconnect m;
     ConnectionEstablished := ConnectionEstablished m;
     IsConnected := IsConnected m;
     IsAuthenticated := IsAuthenticated m;
     CurrentLatency := CurrentLatency m;
     AverageLatency := AverageLatency m;
     ConsecutiveErrors := GoInt.incr (ConsecutiveErrors m);
     LastError := Some err;
     LastErrorTime := now |}.

Definition set_ConsecutiveErrors (n : Z) (m : ConnectionMetrics)
  : ConnectionMetrics :=
  {| TotalMessages := TotalMessages m;
     SentMessages := SentMessages m;
     ReceivedMessages := ReceivedMessages m;
     FailedMessages := FailedMessages m;
     ReconnectAttempts := ReconnectAttempts m;
     SuccessfulReconnects := SuccessfulReconnects m;
     LastMessageSent := LastMessageSent m;
     LastMessageReceived := LastMessageReceived m;
     LastReconnect := LastReconnect m;
     ConnectionEstablished := ConnectionEstablished m;
     IsConnected := IsConnected m;
     IsAuthenticated := IsAuthenticated m;
     CurrentLatency := CurrentLatency m;
     AverageLatency := AverageLatency m;
     ConsecutiveErrors := n;
     LastError := LastError m;
     LastErrorTime := LastErrorTime m |}.

(** The status chosen from the count of consecutive errors. *)
Definition statusFor (hm : HealthMonitor) (consecutiveErrors : Z)
  : HealthStatus :=
  if consecutiveErrors =? 0 then HealthHealthy
  else if consecutiveErrors >=? unhealthyThreshold hm then HealthUnhealthy
  else if consecutiveErrors >=? degradedThreshold hm then HealthDegraded
  else HealthHealthy.

(** [performHealthCheck], run by the ticker when the clock reads [now]. *)
Definition performHealthCheck (now : Time.Time) (hm : HealthMonitor)
  : HealthMonitor :=
  match healthCheckFunc hm with
  | None => hm
  | Some probe =>
      let m1 :=
        match probe now with
        | Some err => probeFailed now err (metrics hm)
        | None => set_ConsecutiveErrors 0 (metrics hm)
        end in
      let consecutiveErrors := ConsecutiveErrors m1 in
      updateStatus (statusFor hm consecutiveErrors) (set_metrics m1 hm)
  end.

Definition RecordMessageSent (now : Time.Time) (hm : HealthMonitor)
  : HealthMonitor :=
  let m := metrics hm in
  set_metrics
    {| TotalMessages := GoInt.incr (TotalMessages m);
       SentMessages := GoInt.incr (SentMessages m);
       ReceivedMessages := ReceivedMessages m;
       FailedMessages := FailedMessages m;
       ReconnectAttempts := ReconnectAttempts m;
       SuccessfulReconnects := SuccessfulReconnects m;
       LastMessageSent := now;
       LastMessageReceived := LastMessageReceived m;
       LastReconnect := LastReconnect m;
       ConnectionEstablished := ConnectionEstablished m;
       IsConnected := IsConnected m;
       IsAuthenticated := IsAuthenticated m;
       CurrentLatency := CurrentLatency m;
       AverageLatency := AverageLatency m;
       ConsecutiveErrors := ConsecutiveErrors m;
       LastError := LastError m;
       LastErrorTime := LastErrorTime m |} hm.

Definition RecordMessageReceived (now : Time.Time) (hm : HealthMonitor)
  : HealthMonitor :=
  let m := metrics hm in
  set_metrics
    {| TotalMessages := GoInt.incr (TotalMessages m);
       SentMessages := SentMessages m;
       ReceivedMessages := GoInt.incr (ReceivedMessages m);
       FailedMessages := FailedMessages m;
       ReconnectAttempts := ReconnectAttempts m;
       SuccessfulReconnects := SuccessfulReconnects m;
       LastMessageSent := LastMessageSent m;
       LastMessageReceived := now;
       LastReconnect := LastReconnect m;
       ConnectionEstablished := ConnectionEstablished m;
       IsConnected := IsConnected m;
       IsAuthenticated := IsAuthenticated m;
       CurrentLatency := CurrentLatency m;
       AverageLatency := AverageLatency m;
       ConsecutiveErrors := ConsecutiveErrors m;
       LastError := LastError m;
       LastErrorTime := LastErrorTime m |} hm.

Definition RecordMessageFailed (hm : HealthMonitor) : HealthMonitor :=
  let m := metrics hm in
  set_metrics
    {| TotalMessages := TotalMessages m;
       SentMessages := SentMessages m;
       ReceivedMessages := ReceivedMessages m;
       FailedMessages := GoInt.incr (FailedMessages m);
       ReconnectAttempts := ReconnectAttempts m;
       SuccessfulReconnects := SuccessfulReconnects m;
       LastMessageSent := LastMessageSent m;
       LastMessageReceived := LastMessageReceived m;
       LastReconnect := LastReconnect m;
       ConnectionEstablished := ConnectionEstablished m;
       IsConnected := IsConnected m;
       IsAuthenticated := IsAuthenticated m;
       CurrentLatency := CurrentLatency m;
       AverageLatency := AverageLatency m;
       ConsecutiveErrors := GoInt.incr (ConsecutiveErrors m);
       LastError := LastError m;
       LastErrorTime := LastErrorTime m |} hm.

Definition RecordReconnectAttempt (now : Time.Time) (success : bool)
  (hm : HealthMonitor) : HealthMonitor :=
  let m := metrics hm in
  set_metrics
    {| TotalMessages := TotalMessages m;
       SentMessages := SentMessages m;
       ReceivedMessages := ReceivedMessages m;
       FailedMessages := FailedMessages m;
       ReconnectAttempts := GoInt.incr (ReconnectAttempts m);
       SuccessfulReconnects :=
         if success then GoInt.incr (SuccessfulReconnects m)
         else SuccessfulReconnects m;
       LastMessageSent := LastMessageSent m;
       LastMessageReceived := LastMessageReceived m;
       LastReconnect := if success then now else LastReconnect m;
       ConnectionEstablished := ConnectionEstablished m;
       IsConnected := IsConnected m;
       IsAuthenticated := IsAuthenticated m;
       CurrentLatency := CurrentLatency m;
       AverageLatency := AverageLatency m;
       ConsecutiveErrors := if success then 0 else ConsecutiveErrors m;
       LastError := LastError m;
       LastErrorTime := LastErrorTime m |} hm.

Definition RecordConnectionEstablished (now : Time.Time) (hm : HealthMonitor)
  : HealthMonitor :=
  let m := metrics hm in
  set_metrics
    {| TotalMessages := TotalMessages m;
       SentMessages := SentMessages m;
       ReceivedMessages := ReceivedMessages m;
       FailedMessages := FailedMessages m;
       ReconnectAttempts := ReconnectAttempts m;
       SuccessfulReconnects := SuccessfulReconnects m;
       LastMessageSent := LastMessageSent m;
       LastMessageReceived := LastMessageReceived m;
       LastReconnect := LastReconnect m;
       ConnectionEstablished := now;
       IsConnected := true;
       IsAuthenticated := IsAuthenticated m;
       CurrentLatency := CurrentLatency m;
       AverageLatency := AverageLatency m;
       ConsecutiveErrors := 0;
       LastError := LastError m;
       LastErrorTime := LastErrorTime m |} hm.

Definition RecordConnectionLost (hm : HealthMonitor) : HealthMonitor :=
  let m := metrics hm in
  set_metrics
    {| TotalMessages := TotalMessages m;
       SentMessages := SentMessages m;
       ReceivedMessages := ReceivedMessages m;
       FailedMessages := FailedMessages m;
       ReconnectAttempts := ReconnectAttempts m;
       SuccessfulReconnects := SuccessfulReconnects m;
       LastMessageSent := LastMessageSent m;
       LastMessageReceived := LastMessageReceived m;
       LastReconnect := LastReconnect m;
       ConnectionEstablished := ConnectionEstablished m;
       IsConnected := false;
       IsAuthenticated := false;
       CurrentLatency := CurrentLatency m;
       AverageLatency := AverageLatency m;
       ConsecutiveErrors := ConsecutiveErrors m;
       LastError := LastError m;
       LastErrorTime := LastErrorTime m |} hm.

Definition RecordAuthentication (authenticated : bool) (hm : HealthMonitor)
  : HealthMonitor :=
  let m := metrics hm in
  set_metrics
    {| TotalMessages := TotalMessages m;
       SentMessages := SentMessages m;
       ReceivedMessages := ReceivedMessages m;
       FailedMessages := FailedMessages m;
       ReconnectAttempts := ReconnectAttempts m;
       SuccessfulReconnects := SuccessfulReconnects m;
       LastMessageSent := LastMessageSent m;
       LastMessageReceived := LastMessageReceived m;
       LastReconnect := LastReconnect m;
       ConnectionEstablished := ConnectionEstablished m;
       IsConnected := IsConnected m;
       IsAuthenticated := authenticated;
       CurrentLatency := CurrentLatency m;
       AverageLatency := AverageLatency m;
       ConsecutiveErrors := ConsecutiveErrors m;
       LastError := LastError m;
       LastErrorTime := LastErrorTime m |} hm.

Definition set_latencies (cur avg : Time.Duration) (m : ConnectionMetrics)
  : ConnectionMetrics :=
  {| TotalMessages := TotalMessages m;
     SentMessages := SentMessages m;
     ReceivedMessages := ReceivedMessages m;
     FailedMessages := FailedMessages m;
     ReconnectAttempts := ReconnectAttempts m;
     SuccessfulReconnects := SuccessfulReconnects m;
     LastMessageSent := LastMessageSent m;
     LastMessageReceived := LastMessageReceived m;
     LastReconnect := LastReconnect m;
     ConnectionEstablished := ConnectionEstablished m;
     IsConnected := IsConnected m;
     IsAuthenticated := IsAuthenticated m;
     CurrentLatency := cur;
     AverageLatency := avg;
     ConsecutiveErrors := ConsecutiveErrors m;
     LastError := LastError m;
     LastErrorTime := LastErrorTime m |}.

(** [w[len(w)-max:]] taken when [len(w) > max]; it panics (slice bounds
    out of range) for a negative [max]. *)
Definition trimWindow (max : Z) (w : list Time.Duration)
  : option (list Time.Duration) :=
  let n := Z.of_nat (List.length w) in
  if n >? max then
    if max <? 0 then None
    else Some (List.skipn (Z.to_nat (n - max)) w)
  else Some w.

(** [for _, l := range w { total += l }] *)
Definition totalLatency (w : list Time.Duration) : Time.Duration :=
  List.fold_left GoInt.add w 0.

(** [RecordLatency]; [None] is a run-time panic (slice bounds, or the
    division by the length of an empty window). *)
Definition RecordLatency (latency : Time.Duration) (hm : HealthMonitor)
  : option HealthMonitor :=
  let w1 := latencyWindow hm ++ [latency] in
  match trimWindow (maxLatencySamples hm) w1 with
  | None => None
  | Some w2 =>
      let total := totalLatency w2 in
      match GoInt.div total (Z.of_nat (List.length w2)) with
      | None => None
      | Some avgLatency =>
          Some (set_metrics
                  (set_latencies latency avgLatency (metrics hm))
                  (set_latencyWindow w2 hm))
      end
  end.

Definition GetStatus (hm : HealthMonitor) : HealthStatus := status hm.
Definition GetMetrics (hm : HealthMonitor) : ConnectionMetrics := metrics hm.
Definition IsHealthy (hm : HealthMonitor) : bool :=
  HealthStatus_eqb (GetStatus hm) HealthHealthy.
Definition IsDegraded (hm : HealthMonitor) : bool :=
  HealthStatus_eqb (GetStatus hm) HealthDegraded.
Definition IsUnhealthy (hm : HealthMonitor) : bool :=
  HealthStatus_eqb (GetStatus hm) HealthUnhealthy.

(** The mathematical sum of a window, and its mean in whole nanoseconds
    (the quotient truncated toward zero, as [time.Duration] is integral). *)
Definition sumZ (w : list Z) : Z := List.fold_right Z.add 0 w.

Definition mean (w : list Z) : Z := Z.quot (sumZ w) (Z.of_nat (List.length w)).

(** The last [n] elements of a list. *)
Definition lastn {A : Type} (n : nat) (l : list A) : list A :=
  List.skipn (List.length l - n) l.

(** The event methods that take no latency, as data. *)
Inductive Recording : Type :=
| RecMessageSent (now : Time.Time)
| RecMessageReceived (now : Time.Time)
| RecMessageFailed
| RecReconnectAttempt (now : Time.Time) (success : bool)
| RecConnectionEstablished (now : Time.Time)
| RecConnectionLost
| RecAuthentication (authenticated : bool).

Definition record (r : Recording) (hm : HealthMonitor) : HealthMonitor :=
  match r with
  | RecMessageSent now => RecordMessageSent now hm
  | RecMessageReceived now => RecordMessageReceived now hm
  | RecMessageFailed => RecordMessageFailed hm
  | RecReconnectAttempt now success => RecordReconnectAttempt now success hm
  | RecConnectionEstablished now => RecordConnectionEstablished now hm
  | RecConnectionLost => RecordConnectionLost hm
  | RecAuthentication authenticated => RecordAuthentication authenticated hm
  end.

(** Everything a client and the ticker can do to a monitor. *)
Inductive Step : Type :=
| StRecord (r : Recording)
| StLatency (latency : Time.Duration)
| StCheck (now : Time.Time)
| StSetHealthCheckFunc (fn : Time.Time -> option error)
| StSetStatusChangeHandler.

Definition step (s : Step) (hm : HealthMonitor) : option HealthMonitor :=
  match s with
  | StRecord r => Some (record r hm)
  | StLatency latency => RecordLatency latency hm
  | StCheck now => Some (performHealthCheck now hm)
  | StSetHealthCheckFunc fn => Some (SetHealthCheckFunc fn hm)
  | StSetStatusChangeHandler => Some (SetStatusChangeHandler hm)
  end.

(** A history of steps; [None] once one of them panics. *)
Fixpoint steps (history : list Step) (hm : HealthMonitor)
  : option HealthMonitor :=
  match history with
  | [] => Some hm
  | s :: rest =>
      match step s hm with
      | None => None
      | Some hm1 => steps rest hm1
      end
  end.

(** [RecordLatency] for each sample in turn. *)
Definition recordLatencies (samples : list Time.Duration) (hm : HealthMonitor)
  : option HealthMonitor :=
  steps (List.map StLatency samples) hm.

(** [RecordMessageFailed], [k] times. *)
Definition failMessages (k : nat) (hm : HealthMonitor) : HealthMonitor :=
  Nat.iter k RecordMessageFailed hm.

(** What every monitor made by [NewHealthMonitor] satisfies, whatever is
    done to it: the thresholds and the capacity of the window are the
    constructed ones, the window is within its capacity, and the count of
    all messages is that of the sent and received ones (in 64 bits). *)
Definition asConstructed (ci : Time.Duration) (hm : HealthMonitor) : Prop :=
  checkInterval hm = ci /\
  unhealthyThreshold hm = 5 /\
  degradedThreshold hm = 3 /\
  maxLatencySamples hm = 100 /\
  Z.of_nat (List.length (latencyWindow hm)) <= 100 /\
  TotalMessages (metrics hm) =
    GoInt.wrap (SentMessages (metrics hm) + ReceivedMessages (metrics hm)).

(** The reconnect counters after at most [n] steps. *)
Definition reconnectsWithin (n : Z) (hm : HealthMonitor) : Prop :=
  0 <= SuccessfulReconnects (metrics hm)
    <= ReconnectAttempts (metrics hm) /\
  ReconnectAttempts (metrics hm) <= n.

Definition isCheck (s : Step) : bool :=
  match s with StCheck _ => true | _ => false end.

End Health.

(** ** ReconnectionManager *)

Module Reconnection.

Record ReconnectionManager : Type := mkReconnectionManager {
  enabled : bool;
  attempts : Z;
  maxAttempts : Z;
  delay : Time.Duration;
  backoffFunc : option (Z -> Time.Duration)
}.

Definition ShouldReconnect (r : ReconnectionManager) : bool :=
  enabled r && (attempts r <? maxAttempts r).

Definition NextBackoff (r : ReconnectionManager) : Time.Duration :=
  match backoffFunc r with
  | Some f => f (attempts r)
  | None => delay r
  end.

Definition Reset (r : ReconnectionManager) : ReconnectionManager :=
  {| enabled := enabled r; attempts := 0; maxAttempts := maxAttempts r;
     delay := delay r; backoffFunc := backoffFunc r |}.

Definition GetAttempts (r : ReconnectionManager) : Z := attempts r.
Definition GetMaxAttempts (r : ReconnectionManager) : Z := maxAttempts r.
Definition IsEnabled (r : ReconnectionManager) : bool := enabled r.

Definition SetEnabled (b : bool) (r : ReconnectionManager)
  : ReconnectionManager :=
  {| enabled := b; attempts := attempts r; maxAttempts := maxAttempts r;
     delay := delay r; backoffFunc := backoffFunc r |}.

Definition IncrementAttempts (r : ReconnectionManager) : ReconnectionManager :=
  {| enabled := enabled r; attempts := GoInt.incr (attempts r);
     maxAttempts := maxAttempts r;
     delay := delay r; backoffFunc := backoffFunc r |}.

(** [IncrementAttempts], [k] times. *)
Definition incrementTimes (k : nat) (r : ReconnectionManager)
  : ReconnectionManager :=
  Nat.iter k IncrementAttempts r.

End Reconnection.

(** ** Concrete instances used below *)

Module Examples.

Definition worker_at (p : Supervisor.RestartPolicy) (n : Z)
  : Supervisor.SupervisedGoroutine :=
  {| Supervisor.ID := "w"; Supervisor.Name := "worker";
     Supervisor.Policy := p; Supervisor.running := true;
     Supervisor.restartCount := n; Supervisor.lastError := None;
     Supervisor.lastRestart := 0 |}.

(** A policy whose base delay lies above its cap. *)
Definition policy_over_cap : Supervisor.RestartPolicy :=
  {| Supervisor.MaxRestarts := 3;
     Supervisor.RestartDelay := 10 * Supervisor.second;
     Supervisor.BackoffFactor := 2%float;
     Supervisor.MaxBackoffDelay := 5 * Supervisor.second;
     Supervisor.OnFailure := false |}.

(** A policy with a fractional factor and a base delay of one nanosecond. *)
Definition policy_fractional : Supervisor.RestartPolicy :=
  {| Supervisor.MaxRestarts := 20;
     Supervisor.RestartDelay := 1;
     Supervisor.BackoffFactor := 1.5%float;
     Supervisor.MaxBackoffDelay := 30 * Supervisor.second;
     Supervisor.OnFailure := false |}.

(** A policy with factor 1.5 on a base delay of one second. *)
Definition policy_sesqui : Supervisor.RestartPolicy :=
  {| Supervisor.MaxRestarts := 5;
     Supervisor.RestartDelay := 1 * Supervisor.second;
     Supervisor.BackoffFactor := 1.5%float;
     Supervisor.MaxBackoffDelay := 30 * Supervisor.second;
     Supervisor.OnFailure := false |}.

(** A policy that halves the delay, from eight seconds. *)
Definition policy_halving : Supervisor.RestartPolicy :=
  {| Supervisor.MaxRestarts := 5;
     Supervisor.RestartDelay := 8 * Supervisor.second;
     Supervisor.BackoffFactor := 0.5%float;
     Supervisor.MaxBackoffDelay := 30 * Supervisor.second;
     Supervisor.OnFailure := false |}.

(** The number the factor of a policy stands for (zero when it is not
    finite). *)
Definition factor_of (p : Supervisor.RestartPolicy) : Q :=
  match Supervisor.Q_of_float64 (Supervisor.BackoffFactor p) with
  | Some phi => phi
  | None => 0%Q
  end.

(** The policy of the scenario in the documentation: two restarts,
    10ms base delay, factor 2. *)
Definition policy_two : Supervisor.RestartPolicy :=
  {| Supervisor.MaxRestarts := 2;
     Supervisor.RestartDelay := 10 * Supervisor.millisecond;
     Supervisor.BackoffFactor := 2%float;
     Supervisor.MaxBackoffDelay := 30 * Supervisor.second;
     Supervisor.OnFailure := true |}.

(** Surroundings in which the supervisor keeps running, nothing is ever
    cancelled and the work function fails each time. *)
Definition env_failing : nat -> Supervisor.Round :=
  fun i =>
    {| Supervisor.supervisorRunning := true;
       Supervisor.result := Some "boom"%string;
       Supervisor.doneAfterCall := false;
       Supervisor.doneDuringWait := false;
       Supervisor.clock := Z.of_nat i * Supervisor.second |}.

(** A breaker with [maxFailures = 1] and a reset timeout of 100ns, opened
    by one failure recorded when the clock read 0. *)
Definition tripped : Breaker.CircuitBreaker :=
  Breaker.RecordResult 0 (Some "refused"%string)
    (Breaker.NewCircuitBreaker 1 100).

(** A guarded function that counts its own calls in the world. *)
Definition counting_fn : nat -> option error * nat :=
  fun calls => (None, S calls).

(** One that counts its calls and fails. *)
Definition failing_fn : nat -> option error * nat :=
  fun calls => (Some "refused"%string, S calls).

(** Probes that always succeed, and always fail. *)
Definition probe_ok : Time.Time -> option error := fun _ => None.
Definition probe_down : Time.Time -> option error :=
  fun _ => Some "unreachable"%string.

(** A fresh monitor after two failed messages. *)
Definition two_failures : Health.HealthMonitor :=
  Health.RecordMessageFailed
    (Health.RecordMessageFailed (Health.NewHealthMonitor Supervisor.second)).

(** Surroundings in which the work function fails once and then returns
    nil. *)
Definition env_flaky : nat -> Supervisor.Round :=
  fun i =>
    {| Supervisor.supervisorRunning := true;
       Supervisor.result :=
         match i with O => Some "boom"%string | _ => None end;
       Supervisor.doneAfterCall := false;
       Supervisor.doneDuringWait := false;
       Supervisor.clock := Z.of_nat i * Supervisor.second |}.

(** A table with a running worker that has failed once and a worker
    that was registered and never started. *)
Definition two_workers : Registry.GoroutineSupervisor :=
  {| Registry.goroutines :=
       [("reader"%string, worker_at policy_two 0);
        ("writer"%string,
         Supervisor.newSupervisedGoroutine "writer" "Writer"
           Supervisor.DefaultRestartPolicy)];
     Registry.running := false |}.

(** A monitor with a window of capacity 3 that is full. *)
Definition window_of_three : Health.HealthMonitor :=
  {| Health.metrics := Health.zeroMetrics;
     Health.status := Health.HealthUnknown;
     Health.checkInterval := Supervisor.second;
     Health.unhealthyThreshold := 5;
     Health.degradedThreshold := 3;
     Health.onStatusChange := false;
     Health.healthCheckFunc := None;
     Health.latencyWindow := [10; 20; 30];
     Health.maxLatencySamples := 3;
     Health.statusChanges := [] |}.

End Examples.

(** * Properties *)

(** ** Machine integers *)

Lemma wrap_id (z : Z) : GoInt.in_range z -> GoInt.wrap z = z.
Proof.
  unfold GoInt.in_range, GoInt.wrap, GoInt.min_int, GoInt.max_int.
  intros H. rewrite Z.mod_small; lia.
Qed.

Lemma wrap_in_range (z : Z) : GoInt.in_range (GoInt.wrap z).
Proof.
  unfold GoInt.in_range, GoInt.wrap, GoInt.min_int, GoInt.max_int.
  pose proof (Z.mod_pos_bound (z + 2 ^ 63) (2 ^ 64) ltac:(lia)). lia.
Qed.

Lemma incr_exact (x : Z) :
  GoInt.min_int <= x < GoInt.max_int -> GoInt.incr x = x + 1.
Proof.
  intros H. unfold GoInt.incr, GoInt.add. apply wrap_id.
  unfold GoInt.in_range, GoInt.min_int, GoInt.max_int in *. lia.
Qed.

Lemma wrap_add_l (x y : Z) : GoInt.wrap (GoInt.wrap x + y) = GoInt.wrap (x + y).
Proof.
  unfold GoInt.wrap. f_equal.
  replace ((x + 2 ^ 63) mod 2 ^ 64 - 2 ^ 63 + y + 2 ^ 63)
    with ((x + 2 ^ 63) mod 2 ^ 64 + y) by lia.
  rewrite Zplus_mod_idemp_l. f_equal. lia.
Qed.

(** ** CircuitBreaker *)

Module BreakerProps.
Import Breaker.

Lemma gtb_true (x y : Z) : y < x -> (x >? y) = true.
Proof. intros H. apply Z.gtb_lt. exact H. Qed.

Lemma gtb_false (x y : Z) : x <= y -> (x >? y) = false.
Proof. intros H. rewrite Z.gtb_ltb. apply Z.ltb_ge. exact H. Qed.

Lemma CircuitState_eqb_eq (a b : CircuitState) :
  CircuitState_eqb a b = true <-> a = b.
Proof. destruct a, b; cbn; split; intros H; congruence. Qed.

(** What [transitionToLocked] touches: the state, the notification log,
    and - only on entering half-open - the trial and success counters. *)
Lemma transitionToLocked_fields (s : CircuitState) (cb : CircuitBreaker) :
  let cb' := transitionToLocked s cb in
  state cb' = s /\
  failures cb' = failures cb /\
  lastFailTime cb' = lastFailTime cb /\
  maxFailures cb' = maxFailures cb /\
  resetTimeout cb' = resetTimeout cb /\
  halfOpenRequests cb' = halfOpenRequests cb /\
  (state cb <> s -> s = CircuitHalfOpen ->
     successCount cb' = 0 /\ halfOpenAttempts cb' = 0) /\
  (state cb = s \/ s <> CircuitHalfOpen ->
     successCount cb' = successCount cb /\
     halfOpenAttempts cb' = halfOpenAttempts cb).
Proof.
  unfold transitionToLocked.
  destruct cb as [mf rt hr st f sc lf ha h nl].
  destruct st, s, h; cbn; repeat split; intros; try congruence;
    destruct H; congruence.
Qed.

(** In half-open, with the trial counter at [a] and [h] slots configured,
    the next calls are answered yes while [a < h]. *)
Lemma CanAttempt_seq_half_open (times : list Time.Time) :
  forall cb,
    state cb = CircuitHalfOpen ->
    GoInt.min_int <= halfOpenAttempts cb ->
    halfOpenRequests cb <= GoInt.max_int ->
    let free := Z.to_nat (halfOpenRequests cb - halfOpenAttempts cb) in
    let yes := Nat.min (List.length times) free in
    exists cb',
      CanAttempt_seq times cb =
        (List.repeat true yes ++ List.repeat false (List.length times - yes),
         cb') /\
      state cb' = CircuitHalfOpen /\
      halfOpenRequests cb' = halfOpenRequests cb /\
      halfOpenAttempts cb' = halfOpenAttempts cb + Z.of_nat yes /\
      successCount cb' = successCount cb /\
      failures cb' = failures cb.
Proof.
  induction times as [|t rest IH]; intros cb Hst Hlo Hhi free yes.
  - exists cb. cbn. repeat split; try assumption. subst yes. cbn. lia.
  - cbn [CanAttempt_seq]. unfold CanAttempt. rewrite Hst.
    destruct (halfOpenAttempts cb <? halfOpenRequests cb) eqn:Hslot.
    + apply Z.ltb_lt in Hslot.
      assert (Hincr : GoInt.incr (halfOpenAttempts cb) = halfOpenAttempts cb + 1)
        by (apply incr_exact; lia).
      rewrite Hincr.
      destruct (IH (set_halfOpenAttempts (halfOpenAttempts cb + 1) cb))
        as (cb' & Hseq & Hst' & Hhr' & Hha' & Hsc' & Hf');
        [ exact Hst
        | cbn [set_halfOpenAttempts halfOpenAttempts halfOpenRequests]; lia ..
        | ].
      cbn [set_halfOpenAttempts halfOpenRequests halfOpenAttempts
             successCount failures] in Hseq, Hhr', Hha', Hsc', Hf'.
      rewrite Hseq. exists cb'.
      assert (Hfree : free = S (Z.to_nat (halfOpenRequests cb -
                                          (halfOpenAttempts cb + 1))))
        by (subst free; lia).
      assert (Hyes : yes = S (Nat.min (List.length rest)
                (Z.to_nat (halfOpenRequests cb - (halfOpenAttempts cb + 1)))))
        by (subst yes; rewrite Hfree; reflexivity).
      rewrite Hyes. cbn [List.length Nat.sub List.repeat app].
      repeat split; try assumption. lia.
    + apply Z.ltb_ge in Hslot.
      assert (Hfree : free = 0%nat) by (subst free; lia).
      destruct (IH cb Hst Hlo Hhi) as (cb' & Hseq & Hst' & Hhr' & Hha' & Hsc' & Hf').
      replace (Z.to_nat (halfOpenRequests cb - halfOpenAttempts cb))
        with 0%nat in Hseq, Hha' by lia.
      rewrite Nat.min_0_r in Hseq, Hha'.
      rewrite Hseq. exists cb'.
      assert (Hyes : yes = 0%nat) by (subst yes; rewrite Hfree; apply Nat.min_0_r).
      rewrite Hyes. rewrite Nat.sub_0_r.
      cbn [List.repeat app List.length]. rewrite Nat.sub_0_r.
      repeat split; try assumption.
Qed.

(** C1, as the code has it: in [Open], once strictly more than
    [resetTimeout] has passed since the last recorded failure, the next
    [CanAttempt] moves the breaker to [HalfOpen] with the trial and success
    counters at zero and answers yes.  While the breaker stays [HalfOpen]
    and no result is recorded, the calls answered yes come first, there
    are at most [halfOpenRequests] of them after the transitioning call,
    and every later call is answered no. *)
Theorem C1_open_to_half_open
  (cb : CircuitBreaker) (now : Time.Time) (times : list Time.Time) :
  state cb = CircuitOpen ->
  halfOpenRequests cb <= GoInt.max_int ->
  Time.Since now (lastFailTime cb) > resetTimeout cb ->
  exists cb1,
    CanAttempt now cb = (true, cb1) /\
    state cb1 = CircuitHalfOpen /\
    halfOpenAttempts cb1 = 0 /\
    successCount cb1 = 0 /\
    failures cb1 = failures cb /\
    exists yes cb2,
      CanAttempt_seq times cb1 =
        (List.repeat true yes ++ List.repeat false (List.length times - yes),
         cb2) /\
      Z.of_nat yes <= Z.max 0 (halfOpenRequests cb) /\
      state cb2 = CircuitHalfOpen.
Proof.
  intros Hst Hhi Hel.
  exists (transitionTo CircuitHalfOpen cb).
  pose proof (transitionToLocked_fields CircuitHalfOpen cb) as Hf.
  cbv zeta in Hf. fold (transitionTo CircuitHalfOpen cb) in Hf.
  destruct Hf as (Hs1 & Hf1 & _ & _ & _ & Hh1 & Hreset & _).
  destruct Hreset as (Hsc1 & Hha1); [congruence | reflexivity |].
  split.
  { unfold CanAttempt. rewrite Hst, gtb_true by lia. reflexivity. }
  repeat (split; [assumption|]).
  destruct (CanAttempt_seq_half_open times (transitionTo CircuitHalfOpen cb))
    as (cb2 & Hseq & Hs2 & _); [exact Hs1 | | lia |].
  { rewrite Hha1. unfold GoInt.min_int. lia. }
  cbv zeta in Hseq. eexists _, cb2. split; [exact Hseq|].
  split; [|exact Hs2]. rewrite Hh1, Hha1. lia.
Qed.

Lemma C1_open_to_half_open_witness :
  exists cb1,
    CanAttempt 150 Examples.tripped = (true, cb1) /\
    state cb1 = CircuitHalfOpen /\
    halfOpenAttempts cb1 = 0 /\
    successCount cb1 = 0 /\
    failures cb1 = 1 /\
    exists yes cb2,
      CanAttempt_seq [151; 152; 153] cb1 =
        (List.repeat true yes ++ List.repeat false (3 - yes), cb2) /\
      Z.of_nat yes <= Z.max 0 1 /\
      state cb2 = CircuitHalfOpen.
Proof.
  apply (C1_open_to_half_open Examples.tripped 150 [151; 152; 153]).
  - reflexivity.
  - unfold GoInt.max_int. cbn. lia.
  - reflexivity.
Defined.

(** C1, counterexample, on a breaker opened by a failure at time 0 with a
    reset timeout of 100ns and one half-open request.  When exactly the
    timeout has passed, [CanAttempt] still answers no and the breaker
    stays [Open].  When more has passed, the transitioning call and the
    next call are both answered yes: two calls, not [halfOpenRequests]. *)
Lemma C1_counterexample :
  state Examples.tripped = CircuitOpen /\
  resetTimeout Examples.tripped = 100 /\
  halfOpenRequests Examples.tripped = 1 /\
  Time.Since 100 (lastFailTime Examples.tripped)
    >= resetTimeout Examples.tripped /\
  CanAttempt 100 Examples.tripped = (false, Examples.tripped) /\
  Time.Since 150 (lastFailTime Examples.tripped)
    >= resetTimeout Examples.tripped /\
  fst (CanAttempt_seq [150; 151; 152; 153] Examples.tripped)
    = [true; true; false; false] /\
  state (snd (CanAttempt_seq [150; 151; 152; 153] Examples.tripped))
    = CircuitHalfOpen /\
  count_true (fst (CanAttempt_seq [150; 151; 152; 153] Examples.tripped))
    <> halfOpenRequests Examples.tripped.
Proof. repeat split; try reflexivity; cbv; discriminate. Qed.

(** C2, as the code has it.  A step of [CanAttempt] or [RecordResult]
    that changes the state is one of four transitions, and the counters
    fare as follows: closed to open keeps the success counter and leaves
    the failure counter incremented; open to half-open zeroes the success
    and trial counters and keeps the failure counter; half-open to open
    zeroes the trial counter, keeps the success counter and leaves the
    failure counter incremented; half-open to closed zeroes all three. *)
Theorem C2_counters_across_transitions (op : Op) (cb : CircuitBreaker) :
  state cb <> state (step op cb) ->
  match state cb, state (step op cb) with
  | CircuitClosed, CircuitOpen =>
      failures (step op cb) = GoInt.incr (failures cb) /\
      successCount (step op cb) = successCount cb /\
      halfOpenAttempts (step op cb) = halfOpenAttempts cb
  | CircuitOpen, CircuitHalfOpen =>
      failures (step op cb) = failures cb /\
      successCount (step op cb) = 0 /\
      halfOpenAttempts (step op cb) = 0
  | CircuitHalfOpen, CircuitOpen =>
      failures (step op cb) = GoInt.incr (failures cb) /\
      successCount (step op cb) = successCount cb /\
      halfOpenAttempts (step op cb) = 0
  | CircuitHalfOpen, CircuitClosed =>
      failures (step op cb) = 0 /\
      successCount (step op cb) = 0 /\
      halfOpenAttempts (step op cb) = 0
  | _, _ => False
  end.
Proof.
  destruct cb as [mf rt hr st f sc lf ha h nl].
  destruct op as [now | now [e|]]; destruct st;
    cbn [step CanAttempt RecordResult recordFailure recordSuccess state
         failures successCount halfOpenAttempts lastFailTime resetTimeout
         maxFailures halfOpenRequests set_failures set_lastFailTime
         set_successCount set_halfOpenAttempts snd];
    repeat match goal with
           | |- context [if ?c then _ else _] => destruct c
           end;
    unfold transitionTo, transitionToLocked;
    cbn [state set_state CircuitState_eqb onStateChange set_successCount
         set_halfOpenAttempts set_failures];
    destruct h; cbn; intros Hne; try (exfalso; apply Hne; reflexivity);
    repeat split.
Qed.

Lemma C2_counters_across_transitions_witness :
  failures Examples.tripped = GoInt.incr 0 /\
  successCount Examples.tripped = 0 /\
  halfOpenAttempts Examples.tripped = 0.
Proof.
  apply (C2_counters_across_transitions
           (OpRecordResult 0 (Some "refused"%string))
           (NewCircuitBreaker 1 100)).
  cbv. discriminate.
Defined.

(** C2, counterexample: the failure that opens a fresh breaker with
    [maxFailures = 1] changes the state from closed to open and leaves the
    failure counter at 1, not reset. *)
Lemma C2_counterexample :
  state (NewCircuitBreaker 1 100) = CircuitClosed /\
  state (RecordResult 0 (Some "refused"%string) (NewCircuitBreaker 1 100))
    = CircuitOpen /\
  failures (RecordResult 0 (Some "refused"%string) (NewCircuitBreaker 1 100))
    = 1 /\
  failures (snd (CanAttempt 150 Examples.tripped)) = 1 /\
  state (snd (CanAttempt 150 Examples.tripped)) = CircuitHalfOpen.
Proof. repeat split. Qed.

(** C7: when [CanAttempt] answers no, [Call] returns the error "circuit
    breaker is open"; the guarded function is not run (the world it acts
    on is untouched, whatever the function), nothing is recorded, and the
    breaker - state, counters, time of last failure, notifications - is
    exactly as before. *)
Theorem C7_call_rejected_without_effect
  (World : Type) (now later : Time.Time)
  (fn : World -> option error * World)
  (cb : CircuitBreaker) (w : World) :
  fst (CanAttempt now cb) = false ->
  Call now later fn cb w = (Some "circuit breaker is open"%string, cb, w).
Proof.
  unfold Call, CanAttempt.
  destruct (state cb); cbn [fst].
  - discriminate.
  - destruct (_ >? _); cbn [fst]; [discriminate | reflexivity].
  - destruct (_ <? _); cbn [fst]; [discriminate | reflexivity].
Qed.

Lemma C7_call_rejected_without_effect_witness :
  Call 50 80 Examples.counting_fn Examples.tripped 0%nat
  = (Some "circuit breaker is open"%string, Examples.tripped, 0%nat).
Proof.
  apply (C7_call_rejected_without_effect nat 50 80 Examples.counting_fn
           Examples.tripped 0%nat).
  reflexivity.
Defined.

(** The same call once the timeout has passed does run the function. *)
Lemma call_admitted_runs_fn :
  snd (Call 150 180 Examples.counting_fn Examples.tripped 0%nat) = 1%nat /\
  state (snd (fst (Call 150 180 Examples.counting_fn Examples.tripped 0%nat)))
    = CircuitClosed.
Proof. split; reflexivity. Qed.

(** C9: a failure recorded while the breaker is [Open] leaves it [Open],
    increments the failure counter (by one, short of the largest [int])
    and sets the time of the last failure to the present; all other
    fields are kept.  The dwell is thereby measured anew: [CanAttempt]
    answers no, without effect, as long as no more than [resetTimeout]
    has passed since this failure, and answers yes once more has. *)
Theorem C9_failure_while_open_restarts_dwell
  (cb : CircuitBreaker) (now : Time.Time) (e : error) :
  state cb = CircuitOpen ->
  let cb' := RecordResult now (Some e) cb in
  state cb' = CircuitOpen /\
  failures cb' = GoInt.incr (failures cb) /\
  (GoInt.min_int <= failures cb < GoInt.max_int ->
     failures cb' = failures cb + 1) /\
  lastFailTime cb' = now /\
  cb' = set_lastFailTime now (set_failures (GoInt.incr (failures cb)) cb) /\
  (forall t, Time.Since t now <= resetTimeout cb ->
     CanAttempt t cb' = (false, cb')) /\
  (forall t, Time.Since t now > resetTimeout cb ->
     fst (CanAttempt t cb') = true /\
     state (snd (CanAttempt t cb')) = CircuitHalfOpen).
Proof.
  intros Hst cb'.
  assert (Hcb' : cb' = set_lastFailTime now
                         (set_failures (GoInt.incr (failures cb)) cb)).
  { subst cb'. unfold RecordResult, recordFailure. rewrite Hst. reflexivity. }
  rewrite Hcb'.
  cbn [state failures lastFailTime set_lastFailTime set_failures].
  repeat split.
  - exact Hst.
  - intros Hr. apply incr_exact. exact Hr.
  - intros t Ht. unfold CanAttempt.
    cbn [state lastFailTime resetTimeout set_lastFailTime set_failures].
    rewrite Hst, gtb_false by exact Ht. reflexivity.
  - unfold CanAttempt.
    cbn [state lastFailTime resetTimeout set_lastFailTime set_failures].
    rewrite Hst, gtb_true by lia. reflexivity.
  - unfold CanAttempt.
    cbn [state lastFailTime resetTimeout set_lastFailTime set_failures].
    rewrite Hst, gtb_true by lia. cbn [snd].
    apply (transitionToLocked_fields CircuitHalfOpen).
Qed.

Lemma C9_failure_while_open_restarts_dwell_witness :
  let cb' := RecordResult 90 (Some "refused"%string) Examples.tripped in
  state cb' = CircuitOpen /\
  failures cb' = GoInt.incr 1 /\
  (GoInt.min_int <= 1 < GoInt.max_int -> failures cb' = 1 + 1) /\
  lastFailTime cb' = 90 /\
  cb' = set_lastFailTime 90 (set_failures (GoInt.incr 1) Examples.tripped) /\
  (forall t, Time.Since t 90 <= 100 -> CanAttempt t cb' = (false, cb')) /\
  (forall t, Time.Since t 90 > 100 ->
     fst (CanAttempt t cb') = true /\
     state (snd (CanAttempt t cb')) = CircuitHalfOpen).
Proof.
  apply (C9_failure_while_open_restarts_dwell Examples.tripped 90
           "refused"%string).
  reflexivity.
Defined.

(** Without the second failure the breaker would admit a call at time
    150; with it, recorded at time 90, the call at 150 is refused and the
    first admitted instant is 191. *)
Lemma dwell_postponed :
  fst (CanAttempt 150 Examples.tripped) = true /\
  fst (CanAttempt 150
         (RecordResult 90 (Some "refused"%string) Examples.tripped)) = false /\
  fst (CanAttempt 190
         (RecordResult 90 (Some "refused"%string) Examples.tripped)) = false /\
  fst (CanAttempt 191
         (RecordResult 90 (Some "refused"%string) Examples.tripped)) = true.
Proof. repeat split. Qed.

End BreakerProps.

(** ** Binary64 arithmetic on whole numbers

    [float64(d)], the product and the conversion back are exact on the
    whole numbers that a [float64] holds.  The statements are about the
    primitive floats through their specification ([Prim2SF], [SFmul],
    [binary_normalize]). *)

Module Float64Props.
Import Supervisor.

Lemma digits2_pos_bounds (p : positive) :
  2 ^ (Z.pos (digits2_pos p) - 1) <= Z.pos p < 2 ^ Z.pos (digits2_pos p).
Proof.
  induction p as [p IH | p IH |]; cbn [digits2_pos].
  - rewrite Pos2Z.inj_succ. change (Z.pos p~1) with (2 * Z.pos p + 1).
    replace (Z.succ (Z.pos (digits2_pos p)) - 1)
      with (Z.pos (digits2_pos p)) by lia.
    rewrite Z.pow_succ_r by lia.
    replace (2 ^ Z.pos (digits2_pos p))
      with (2 * 2 ^ (Z.pos (digits2_pos p) - 1)) in *
      by (rewrite <- Z.pow_succ_r by lia; f_equal; lia).
    lia.
  - rewrite Pos2Z.inj_succ. change (Z.pos p~0) with (2 * Z.pos p).
    replace (Z.succ (Z.pos (digits2_pos p)) - 1)
      with (Z.pos (digits2_pos p)) by lia.
    rewrite Z.pow_succ_r by lia.
    replace (2 ^ Z.pos (digits2_pos p))
      with (2 * 2 ^ (Z.pos (digits2_pos p) - 1)) in *
      by (rewrite <- Z.pow_succ_r by lia; f_equal; lia).
    lia.
  - cbn. lia.
Qed.

Lemma digits2_pos_unique (p : positive) (k : Z) :
  2 ^ (k - 1) <= Z.pos p < 2 ^ k -> Z.pos (digits2_pos p) = k.
Proof.
  intros Hk. pose proof (digits2_pos_bounds p) as Hd.
  assert (Hk0 : 0 < k).
  { destruct (Z_lt_le_dec 0 k) as [|Hle]; [assumption|].
    assert (2 ^ k <= 2 ^ 0) by (apply Z.pow_le_mono_r; lia).
    change (2 ^ 0) with 1 in *. lia. }
  destruct (Z.lt_total (Z.pos (digits2_pos p)) k) as [Hlt | [Heq | Hgt]].
  - assert (2 ^ Z.pos (digits2_pos p) <= 2 ^ (k - 1))
      by (apply Z.pow_le_mono_r; lia).
    lia.
  - exact Heq.
  - assert (2 ^ k <= 2 ^ (Z.pos (digits2_pos p) - 1))
      by (apply Z.pow_le_mono_r; lia).
    lia.
Qed.

Lemma iter_xO_value (q n : positive) :
  Z.pos (Pos.iter xO q n) = Z.pos q * 2 ^ Z.pos n.
Proof.
  pose proof (shift_pos_correct n q) as H.
  unfold shift_pos in H. rewrite H. unfold Z.pow. lia.
Qed.

Lemma iter_pos_iter {A : Type} (f : A -> A) (n : positive) :
  forall x, SpecFloat.iter_pos f n x = Pos.iter f x n.
Proof.
  induction n as [n IH | n IH |]; intros x; cbn [SpecFloat.iter_pos Pos.iter].
  - rewrite !IH, Pos.iter_swap, Pos.iter_swap. reflexivity.
  - rewrite !IH. reflexivity.
  - reflexivity.
Qed.

Lemma shr_exact (n : positive) :
  forall q,
    SpecFloat.iter_pos shr_1 n
      {| shr_m := Z.pos (Pos.iter xO q n); shr_r := false; shr_s := false |}
    = {| shr_m := Z.pos q; shr_r := false; shr_s := false |}.
Proof.
  intros q. rewrite iter_pos_iter. revert q.
  induction n as [|n IH] using Pos.peano_ind; intros q.
  - reflexivity.
  - rewrite (Pos.iter_succ n positive xO q), (Pos.iter_succ_r n shr_record shr_1).
    cbn [shr_1 orb]. apply IH.
Qed.

Lemma binary_round_aux_exact (sx : bool) (M mz : positive) (n E : Z) :
  Z.pos (digits2_pos mz) = 53 ->
  0 <= n ->
  Z.pos M = Z.pos mz * 2 ^ n ->
  -1074 <= E + n <= 971 ->
  binary_round_aux prec emax sx (Z.pos M) E loc_Exact
  = S754_finite sx mz (E + n).
Proof.
  intros Hdig Hn HM Hrange.
  assert (HdM : Z.pos (digits2_pos M) = 53 + n).
  { apply digits2_pos_unique. pose proof (digits2_pos_bounds mz) as Hb.
    rewrite Hdig in Hb. rewrite HM.
    replace (53 + n - 1) with (52 + n) by lia.
    rewrite !Z.pow_add_r by lia.
    change (53 - 1) with 52 in Hb.
    assert (0 < 2 ^ n) by (apply Z.pow_pos_nonneg; lia).
    nia. }
  unfold binary_round_aux, shr_fexp. cbn [Zdigits2].
  assert (Hf1 : fexp prec emax (Z.pos (digits2_pos M) + E) - E = n)
    by (unfold fexp, SpecFloat.emin, prec, emax; lia).
  rewrite Hf1.
  assert (Hshr : shr (shr_record_of_loc (Z.pos M) loc_Exact) E n
                 = ({| shr_m := Z.pos mz; shr_r := false; shr_s := false |},
                    E + n)).
  { destruct n as [|pn|pn]; [| |lia].
    - rewrite Z.pow_0_r, Z.mul_1_r in HM. injection HM as ->.
      rewrite Z.add_0_r. reflexivity.
    - cbn [shr shr_record_of_loc].
      rewrite <- iter_xO_value in HM. injection HM as ->.
      rewrite shr_exact. reflexivity. }
  rewrite Hshr. cbn [shr_m loc_of_shr_record round_nearest_even Zdigits2].
  assert (Hf2 : fexp prec emax (Z.pos (digits2_pos mz) + (E + n)) - (E + n) = 0)
    by (unfold fexp, SpecFloat.emin, prec, emax; lia).
  rewrite Hf2. cbn [shr shr_record_of_loc shr_m].
  replace (E + n <=? emax - prec) with true
    by (symmetry; apply Z.leb_le; unfold prec, emax; lia).
  reflexivity.
Qed.

Lemma digits_iter_xO (q n : positive) :
  Z.pos (digits2_pos (Pos.iter xO q n)) = Z.pos (digits2_pos q) + Z.pos n.
Proof.
  apply digits2_pos_unique. rewrite iter_xO_value.
  pose proof (digits2_pos_bounds q) as Hb.
  replace (Z.pos (digits2_pos q) + Z.pos n - 1)
    with (Z.pos (digits2_pos q) - 1 + Z.pos n) by lia.
  rewrite !Z.pow_add_r by lia.
  assert (0 < 2 ^ Z.pos n) by (apply Z.pow_pos_nonneg; lia).
  nia.
Qed.


(** Rounding a whole number that has at most 53 significant bits to
    binary64 yields that number, with a full mantissa. *)
Lemma binary_round_holds (sx : bool) (p : positive) :
  Z.pos p < 2 ^ 63 ->
  (exists m0 e0, 0 <= e0 /\ 0 <= m0 < 2 ^ 53 /\ Z.pos p = m0 * 2 ^ e0) ->
  exists m e,
    binary_round prec emax sx p 0 = S754_finite sx m e /\
    Z.pos (digits2_pos m) = 53 /\ -52 <= e <= 10 /\
    Z.pos m * 2 ^ (e + 52) = Z.pos p * 2 ^ 52.
Proof.
  intros Hp (m0 & e0 & He0 & Hm0 & Hpm). pose proof (digits2_pos_bounds p) as Hb.
  assert (Hk : Z.pos (digits2_pos p) <= 63).
  { destruct (Z_le_gt_dec (Z.pos (digits2_pos p)) 63) as [|Hgt]; [assumption|].
    assert (2 ^ 63 <= 2 ^ (Z.pos (digits2_pos p) - 1))
      by (apply Z.pow_le_mono_r; lia).
    lia. }
  unfold binary_round.
  assert (Hf : fexp prec emax (Z.pos (digits2_pos p) + 0)
               = Z.pos (digits2_pos p) - 53)
    by (unfold fexp, SpecFloat.emin, prec, emax; lia).
  rewrite Hf. unfold shl_align.
  destruct (Z.pos (digits2_pos p) - 53 - 0) as [|n|d] eqn:Hd.
  - exists p, 0. split; [|split; [lia | split; [lia | reflexivity]]].
    apply (binary_round_aux_exact sx p p 0 0); [lia | lia | cbn; lia | lia].
  - (* more than 53 digits: the low ones are zero *)
    set (k := Z.pos (digits2_pos p)) in *.
    assert (Hn : Z.pos n = k - 53) by lia.
    assert (He0n : Z.pos n <= e0).
    { destruct (Z_le_gt_dec (Z.pos n) e0) as [|Hgt]; [assumption|].
      assert (2 ^ e0 <= 2 ^ (k - 54)) by (apply Z.pow_le_mono_r; lia).
      assert (2 ^ (k - 1) = 2 ^ 53 * 2 ^ (k - 54))
        by (rewrite <- Z.pow_add_r by lia; f_equal; lia).
      assert (0 < 2 ^ e0) by (apply Z.pow_pos_nonneg; lia).
      nia. }
    assert (Hsplit : Z.pos p = (m0 * 2 ^ (e0 - Z.pos n)) * 2 ^ Z.pos n).
    { rewrite Hpm, <- Z.mul_assoc, <- Z.pow_add_r by lia.
      f_equal. f_equal. lia. }
    assert (Hpn : 0 < 2 ^ Z.pos n) by (apply Z.pow_pos_nonneg; lia).
    destruct (m0 * 2 ^ (e0 - Z.pos n)) as [|mz|mz] eqn:Hmz; [lia| |lia].
    assert (Hdig : Z.pos (digits2_pos mz) = 53).
    { apply digits2_pos_unique. change (53 - 1) with 52.
      assert (2 ^ (k - 1) = 2 ^ 52 * 2 ^ Z.pos n)
        by (rewrite <- Z.pow_add_r by lia; f_equal; lia).
      assert (2 ^ k = 2 ^ 53 * 2 ^ Z.pos n)
        by (rewrite <- Z.pow_add_r by lia; f_equal; lia).
      nia. }
    exists mz, (0 + Z.pos n).
    split; [|split; [exact Hdig | split; [lia|]]].
    + apply binary_round_aux_exact; [exact Hdig | lia | exact Hsplit | lia].
    + rewrite Hsplit, Z.add_0_l, Z.pow_add_r by lia. ring.
  - exists (Pos.iter xO p d), (Z.pos (digits2_pos p) - 53).
    assert (Hdig : Z.pos (digits2_pos (Pos.iter xO p d)) = 53)
      by (rewrite digits_iter_xO; lia).
    split; [|split; [exact Hdig | split; [lia|]]].
    + rewrite <- (Z.add_0_r (Z.pos (digits2_pos p) - 53)) at 2.
      apply binary_round_aux_exact; [exact Hdig | lia | cbn; lia | lia].
    + rewrite iter_xO_value, <- Z.mul_assoc, <- Z.pow_add_r by lia.
      f_equal. f_equal. lia.
Qed.

Lemma float64_of_int64_exact (d : Z) :
  d <> 0 -> float64_holds d ->
  exists m e,
    Prim2SF (float64_of_int64 d) = S754_finite (d <? 0) m e /\
    Z.pos (digits2_pos m) = 53 /\ -52 <= e <= 10 /\
    Z.pos m * 2 ^ (e + 52) = Z.abs d * 2 ^ 52.
Proof.
  intros Hd0 (Hd & Hrep). unfold float64_of_int64.
  replace (d =? GoInt.min_int) with false
    by (symmetry; apply Z.eqb_neq; unfold GoInt.min_int; lia).
  destruct d as [|p|p]; [congruence | |].
  - change (Z.pos p <? 0) with false. cbv iota.
    rewrite FloatAxioms.of_uint63_spec, Uint63.of_Z_spec.
    rewrite Z.mod_small by (change wB with (2 ^ 63); cbn [Z.abs] in Hd; lia).
    cbn [binary_normalize Z.abs] in *.
    destruct (binary_round_holds false p Hd Hrep) as (m & e & -> & H).
    exists m, e. split; [reflexivity | exact H].
  - change (Z.neg p <? 0) with true. cbv iota.
    change (- Z.neg p) with (Z.pos p).
    rewrite FloatAxioms.opp_spec, FloatAxioms.of_uint63_spec, Uint63.of_Z_spec.
    rewrite Z.mod_small by (change wB with (2 ^ 63); cbn [Z.abs] in Hd; lia).
    cbn [binary_normalize Z.abs] in *.
    destruct (binary_round_holds false p Hd Hrep) as (m & e & -> & H).
    exists m, e. split; [reflexivity | exact H].
Qed.

(** The product of two binary64 numbers whose exact product is a whole
    number with at most 53 significant bits is that number. *)
Lemma SFmul_exact (sx sy : bool) (mx my : positive) (ex ey a : Z)
  (b : positive) :
  Z.pos (digits2_pos mx) = 53 -> -52 <= ex <= 10 ->
  Z.pos mx * 2 ^ (ex + 52) = a * 2 ^ 52 ->
  bounded prec emax my ey = true ->
  float64_holds (Z.pos b) ->
  Z.pos b * 2 ^ 1074 = a * Z.pos my * 2 ^ (ey + 1074) ->
  exists mz ez,
    SFmul prec emax (S754_finite sx mx ex) (S754_finite sy my ey)
    = S754_finite (xorb sx sy) mz ez /\
    -52 <= ez <= 10 /\ Z.pos mz * 2 ^ (ez + 52) = Z.pos b * 2 ^ 52.
Proof.
  intros Hdx Hex Hmx Hvalid (Hb & Hrep) Hprod.
  cbn [Z.abs] in Hb, Hrep.
  destruct (binary_round_holds false b Hb Hrep)
    as (mz & ez & _ & Hdz & Hez & Hmz).
  exists mz, ez. split; [|split; assumption].
  cbn [SFmul].
  unfold bounded, canonical_mantissa in Hvalid.
  apply andb_prop in Hvalid. destruct Hvalid as [Hc Hey].
  apply Z.eqb_eq in Hc. apply Z.leb_le in Hey.
  unfold fexp, SpecFloat.emin, prec, emax in Hc, Hey.
  assert (Hey' : -1074 <= ey <= 971) by lia.
  pose proof (digits2_pos_bounds mx) as Hbx. rewrite Hdx in Hbx.
  pose proof (digits2_pos_bounds my) as Hby.
  pose proof (digits2_pos_bounds mz) as Hbz. rewrite Hdz in Hbz.
  change (53 - 1) with 52 in *.
  (* both sides scaled to whole numbers *)
  assert (HM : Z.pos (mx * my) * 2 ^ (ex + ey + 1126)
               = Z.pos mz * 2 ^ (ez + 1126)).
  { replace (ex + ey + 1126) with ((ex + 52) + (ey + 1074)) by lia.
    replace (ez + 1126) with ((ez + 52) + 1074) by lia.
    rewrite (Z.pow_add_r 2 (ex + 52) (ey + 1074)),
      (Z.pow_add_r 2 (ez + 52) 1074) by lia.
    rewrite Pos2Z.inj_mul.
    replace (Z.pos mx * Z.pos my * (2 ^ (ex + 52) * 2 ^ (ey + 1074)))
      with (Z.pos mx * 2 ^ (ex + 52) * Z.pos my * 2 ^ (ey + 1074)) by ring.
    rewrite Hmx.
    replace (a * 2 ^ 52 * Z.pos my * 2 ^ (ey + 1074))
      with (a * Z.pos my * 2 ^ (ey + 1074) * 2 ^ 52) by ring.
    rewrite <- Hprod.
    replace (Z.pos mz * (2 ^ (ez + 52) * 2 ^ 1074))
      with (Z.pos mz * 2 ^ (ez + 52) * 2 ^ 1074) by ring.
    rewrite Hmz. ring. }
  assert (HX : 0 < 2 ^ (ex + ey + 1126)) by (apply Z.pow_pos_nonneg; lia).
  (* the factor is a normal number *)
  assert (Hnormal : Z.pos (digits2_pos my) = 53).
  { destruct (Z.eq_dec (Z.pos (digits2_pos my)) 53) as [|Hne]; [assumption|].
    assert (Hsub : ey = -1074 /\ Z.pos (digits2_pos my) < 53) by lia.
    destruct Hsub as [-> Hlt]. exfalso.
    assert (2 ^ Z.pos (digits2_pos my) <= 2 ^ 52)
      by (apply Z.pow_le_mono_r; lia).
    assert (HMlt : Z.pos (mx * my) < 2 ^ 53 * 2 ^ 52)
      by (rewrite Pos2Z.inj_mul; nia).
    assert (2 ^ (ex + -1074 + 1126) <= 2 ^ 62)
      by (apply Z.pow_le_mono_r; lia).
    assert (2 ^ 1074 <= 2 ^ (ez + 1126))
      by (apply Z.pow_le_mono_r; lia).
    assert (2 ^ 53 * 2 ^ 52 * 2 ^ 62 < 2 ^ 52 * 2 ^ 1074)
      by (vm_compute; reflexivity).
    nia. }
  rewrite Hnormal in Hby. change (53 - 1) with 52 in Hby.
  assert (Hn : 0 <= ez - ex - ey).
  { destruct (Z_le_gt_dec 0 (ez - ex - ey)) as [|Hgt]; [assumption|].
    exfalso.
    assert (2 ^ 52 * 2 ^ 52 <= Z.pos (mx * my))
      by (rewrite Pos2Z.inj_mul; nia).
    assert (2 * 2 ^ (ez + 1126) <= 2 ^ (ex + ey + 1126)).
    { destruct (Z_le_gt_dec 0 (ez + 1126)).
      - rewrite <- Z.pow_succ_r by lia. apply Z.pow_le_mono_r; lia.
      - lia. }
    nia. }
  rewrite (binary_round_aux_exact (xorb sx sy) (mx * my) mz
             (ez - ex - ey) (ex + ey) Hdz Hn).
  - f_equal. lia.
  - replace (ez + 1126) with ((ez - ex - ey) + (ex + ey + 1126)) in HM by lia.
    rewrite (Z.pow_add_r 2 (ez - ex - ey) (ex + ey + 1126)), Z.mul_assoc in HM
      by lia.
    apply (Z.mul_cancel_r _ _ (2 ^ (ex + ey + 1126))); [lia | exact HM].
  - lia.
Qed.

(** Cutting a whole binary64 to [int64] keeps it. *)
Lemma int64_of_float64_whole (x : float) (s : bool) (m : positive) (e b : Z) :
  Prim2SF x = S754_finite s m e ->
  -52 <= e <= 10 -> 0 < b < 2 ^ 63 -> Z.pos m * 2 ^ (e + 52) = b * 2 ^ 52 ->
  int64_of_float64 x = if s then - b else b.
Proof.
  intros Hx He Hb Hm. unfold int64_of_float64. rewrite Hx.
  assert (Hmag : (if 0 <=? e then Z.pos m * 2 ^ e else Z.pos m / 2 ^ (- e))
                 = b).
  { destruct (0 <=? e) eqn:H0.
    - apply Z.leb_le in H0.
      rewrite (Z.pow_add_r 2 e 52), Z.mul_assoc in Hm by lia.
      apply (Z.mul_cancel_r _ _ (2 ^ 52)); [lia | exact Hm].
    - apply Z.leb_gt in H0.
      assert (Hsplit : 2 ^ 52 = 2 ^ (- e) * 2 ^ (e + 52))
        by (rewrite <- Z.pow_add_r by lia; f_equal; lia).
      rewrite Hsplit, Z.mul_assoc in Hm.
      assert (Hm' : Z.pos m = b * 2 ^ (- e)).
      { apply (Z.mul_cancel_r _ _ (2 ^ (e + 52))); [|exact Hm].
        apply Z.pow_nonzero; lia. }
      rewrite Hm'. apply Z.div_mul. apply Z.pow_nonzero; lia. }
  rewrite Hmag. cbv zeta.
  assert (Hr : (GoInt.min_int <=? (if s then - b else b))
               && ((if s then - b else b) <=? GoInt.max_int) = true).
  { apply andb_true_intro. unfold GoInt.min_int, GoInt.max_int.
    split; apply Z.leb_le; destruct s; lia. }
  rewrite Hr. reflexivity.
Qed.

(** [time.Duration(float64(d) * f)] for a finite non-zero [f] is the
    exact product [z], when [d] and [z] are whole numbers that a
    [float64] holds. *)
Lemma scaleDuration_exact_finite
  (f : float) (s : bool) (m : positive) (e d z : Z) :
  Prim2SF f = S754_finite s m e ->
  d <> 0 -> float64_holds d -> float64_holds z ->
  z * 2 ^ 1074 = d * (if s then Z.neg m else Z.pos m) * 2 ^ (e + 1074) ->
  scaleDuration f d = z.
Proof.
  intros Hf Hd0 Hd Hz Hprod. unfold scaleDuration.
  destruct (float64_of_int64_exact d Hd0 Hd)
    as (mx & ex & Hx & Hdx & Hex & Hmx).
  pose proof (Prim2SF_valid f) as Hvalid. rewrite Hf in Hvalid.
  cbn [SpecFloat.valid_binary] in Hvalid.
  assert (He : -1074 <= e).
  { unfold bounded, canonical_mantissa in Hvalid.
    apply andb_prop in Hvalid. destruct Hvalid as [Hc _].
    apply Z.eqb_eq in Hc. unfold fexp, SpecFloat.emin, prec, emax in Hc.
    lia. }
  assert (Hpow : 0 < 2 ^ (e + 1074)) by (apply Z.pow_pos_nonneg; lia).
  assert (Habs : Z.abs z * 2 ^ 1074 = Z.abs d * Z.pos m * 2 ^ (e + 1074)).
  { rewrite <- (Z.abs_eq (2 ^ 1074)) by (apply Z.pow_nonneg; lia).
    rewrite <- Z.abs_mul, Hprod, !Z.abs_mul.
    rewrite (Z.abs_eq (2 ^ (e + 1074))) by lia.
    destruct s; reflexivity. }
  assert (Hzpos : 0 < Z.abs z).
  { assert (0 < Z.abs d * Z.pos m * 2 ^ (e + 1074))
      by (apply Z.mul_pos_pos; [apply Z.mul_pos_pos; lia | exact Hpow]).
    pose proof (Z.abs_nonneg z).
    destruct (Z.eq_dec (Z.abs z) 0) as [E|]; [rewrite E in Habs; lia | lia]. }
  destruct (Z.abs z) as [|b|b] eqn:Hb; [lia| |lia].
  assert (Hzb : float64_holds (Z.pos b)).
  { destruct Hz as (Hz1 & Hz2). rewrite Hb in Hz1, Hz2.
    split; assumption. }
  destruct (SFmul_exact (d <? 0) s mx m ex e (Z.abs d) b
              Hdx Hex Hmx Hvalid Hzb Habs)
    as (mz & ez & Hmul & Hez & Hmz).
  rewrite (int64_of_float64_whole _ (xorb (d <? 0) s) mz ez (Z.pos b));
    [ | rewrite FloatAxioms.mul_spec, Hx, Hf; exact Hmul
      | exact Hez | destruct Hzb as (H1 & _); cbn [Z.abs] in H1; lia
      | exact Hmz ].
  assert (0 < 2 ^ 1074) by (apply Z.pow_pos_nonneg; lia).
  destruct (d <? 0) eqn:Hneg; [apply Z.ltb_lt in Hneg | apply Z.ltb_ge in Hneg];
    destruct s; cbn [xorb]; nia.
Qed.

Lemma float64_of_int64_zero : Prim2SF (float64_of_int64 0) = S754_zero false.
Proof. reflexivity. Qed.

Lemma Q_eq_scaled (z d n : Z) :
  (inject_Z z == inject_Z d * (n # 2 ^ 1074))%Q <->
  z * 2 ^ 1074 = d * n.
Proof.
  unfold Qeq, Qmult, inject_Z. cbn [Qnum Qden].
  rewrite Pos.mul_1_l, Z.mul_1_r, Pos2Z.inj_pow. reflexivity.
Qed.

(** [time.Duration(float64(d) * f)] is the product of [d] and the number
    [f] stands for, whenever [d] and that product are whole numbers that
    a [float64] holds. *)
Lemma scaleDuration_exact (f : float) (phi : Q) (d z : Z) :
  Q_of_float64 f = Some phi ->
  float64_holds d -> float64_holds z ->
  (inject_Z z == inject_Z d * phi)%Q ->
  scaleDuration f d = z.
Proof.
  unfold Q_of_float64. intros Hphi Hd Hz Hprod.
  destruct (Z.eq_dec d 0) as [-> | Hd0].
  - assert (Hz0 : z = 0).
    { apply inject_Z_injective. rewrite Hprod. unfold Qeq. reflexivity. }
    subst z. unfold scaleDuration, int64_of_float64.
    rewrite FloatAxioms.mul_spec, float64_of_int64_zero.
    destruct (Prim2SF f); try discriminate; reflexivity.
  - destruct (Prim2SF f) as [s | s | | s m e] eqn:Hf; try discriminate.
    + injection Hphi as <-.
      assert (Hz0 : z = 0).
      { apply inject_Z_injective. rewrite Hprod. unfold Qeq. cbn. lia. }
      subst z. unfold scaleDuration, int64_of_float64.
      destruct (float64_of_int64_exact d Hd0 Hd) as (mx & ex & Hx & _).
      rewrite FloatAxioms.mul_spec, Hx, Hf. reflexivity.
    + injection Hphi as <-.
      apply (scaleDuration_exact_finite f s m e d z Hf Hd0 Hd Hz).
      rewrite (proj1 (Q_eq_scaled z d _) Hprod). ring.
Qed.

End Float64Props.

(** ** GoroutineSupervisor *)

Module SupervisorProps.
Import Supervisor.

Lemma invocations_app (a b : list Event) :
  invocations (a ++ b) = invocations a + invocations b.
Proof.
  unfold invocations. rewrite List.filter_app, List.length_app. lia.
Qed.

Lemma restarts_app (a b : list Event) :
  restarts (a ++ b) = restarts a + restarts b.
Proof.
  unfold restarts. rewrite List.filter_app, List.length_app. lia.
Qed.

Lemma counts_app (a b : list Event) : counts (a ++ b) = counts a ++ counts b.
Proof.
  induction a as [|e a IH]; simpl; [reflexivity|].
  destruct e; simpl; rewrite IH; reflexivity.
Qed.

Lemma failureEvents_invocations p err n :
  invocations (failureEvents p err n) = 1.
Proof. unfold failureEvents. destruct (OnFailure p); reflexivity. Qed.

Lemma failureEvents_restarts p err n :
  restarts (failureEvents p err n) = 0.
Proof. unfold failureEvents. destruct (OnFailure p); reflexivity. Qed.

Lemma failureEvents_counts p err n :
  counts (failureEvents p err n) = [n].
Proof. unfold failureEvents. destruct (OnFailure p); reflexivity. Qed.

Lemma last_app_cons (a : list Event) (e : Event) (b : list Event) (d : Event) :
  List.last (a ++ e :: b) d = List.last (e :: b) d.
Proof.
  induction a as [|x a IH]; [reflexivity|].
  change ((x :: a) ++ e :: b) with (x :: (a ++ e :: b)).
  destruct (a ++ e :: b) as [|y l] eqn:E.
  - destruct a; discriminate.
  - change (List.last (x :: y :: l) d) with (List.last (y :: l) d).
    exact IH.
Qed.

(** More fuel does not change a finished run. *)
Lemma runGoroutine_fuel_mono (fuel : nat) :
  forall env i sg r,
    runGoroutine fuel env i sg = Some r ->
    forall fuel', (fuel <= fuel')%nat -> runGoroutine fuel' env i sg = Some r.
Proof.
  induction fuel as [|fuel IH]; intros env i sg r Hrun fuel' Hle.
  - discriminate.
  - destruct fuel' as [|fuel']; [lia|].
    simpl in Hrun |- *.
    destruct (negb (supervisorRunning (env i))); [exact Hrun|].
    destruct (doneAfterCall (env i)); [exact Hrun|].
    destruct (result (env i)) as [err|]; [|exact Hrun].
    destruct (_ >? _); [exact Hrun|].
    destruct (doneDuringWait (env i)); [exact Hrun|].
    destruct (runGoroutine fuel env (S i) _) as [[sg3 rest]|] eqn:E;
      [|discriminate].
    rewrite (IH _ _ _ _ E fuel') by lia. exact Hrun.
Qed.

(** One turn of the loop when the work function fails and nothing is
    cancelled. *)
Lemma runGoroutine_failed (fuel : nat) (env : nat -> Round) (i : nat)
  (sg : SupervisedGoroutine) (err : error) :
  supervisorRunning (env i) = true ->
  doneAfterCall (env i) = false ->
  doneDuringWait (env i) = false ->
  result (env i) = Some err ->
  runGoroutine (S fuel) env i sg =
    let sg1 := set_failure err sg in
    let n := restartCount sg1 in
    let evs := failureEvents (Policy sg) err n in
    if n >? MaxRestarts (Policy sg)
    then Some (set_running false sg1, evs ++ [EvGiveUp])
    else
      let delay := calculateBackoff sg1 in
      match runGoroutine fuel env (S i)
              (set_lastRestart (Time.Add (clock (env i)) delay) sg1) with
      | None => None
      | Some (sg3, rest) => Some (sg3, evs ++ EvWait delay :: rest)
      end.
Proof.
  intros Hrun Hd1 Hd2 Herr.
  change (runGoroutine (S fuel) env i sg) with
    (let r := env i in
      if negb (supervisorRunning r) then Some (set_running false sg, [])
      else if doneAfterCall r
      then Some (set_running false sg, [EvInvoke; EvCancelled])
      else
        match result r with
        | None => Some (set_running false sg, [EvInvoke; EvCompleted])
        | Some err =>
            let sg1 := set_failure err sg in
            let n := restartCount sg1 in
            let evs :=
              [EvInvoke; EvFailed err n] ++
              (if OnFailure (Policy sg1) then [EvOnFailure err n] else []) in
            if n >? MaxRestarts (Policy sg1)
            then Some (set_running false sg1, evs ++ [EvGiveUp])
            else
              let delay := calculateBackoff sg1 in
              let sg2 := set_lastRestart (Time.Add (clock r) delay) sg1 in
              if doneDuringWait r
              then Some (set_running false sg2, evs ++ [EvCancelled])
              else
                match runGoroutine fuel env (S i) sg2 with
                | None => None
                | Some (sg3, rest) => Some (sg3, evs ++ EvWait delay :: rest)
                end
        end).
  cbv zeta. rewrite Hrun, Hd1, Hd2, Herr. reflexivity.
Qed.

(** The run of a worker that keeps failing, from a restart count [c] with
    [k] restarts left in the budget. *)
Lemma run_failing (env : nat -> Round) (Henv : always_failing env) (k : nat) :
  forall i sg,
    0 <= restartCount sg ->
    restartCount sg + Z.of_nat k = MaxRestarts (Policy sg) ->
    MaxRestarts (Policy sg) < GoInt.max_int ->
    exists sg' tr,
      runGoroutine (S k) env i sg = Some (sg', tr) /\
      restarts tr = Z.of_nat k /\
      invocations tr = Z.of_nat k + 1 /\
      counts tr = countsFrom (restartCount sg) (S k) /\
      List.last tr EvInvoke = EvGiveUp /\
      running sg' = false /\
      restartCount sg' = MaxRestarts (Policy sg) + 1 /\
      Policy sg' = Policy sg.
Proof.
  induction k as [|k IH]; intros i sg Hc Hk Hmax;
    destruct (Henv i) as (Hrun & (err & Herr) & Hd1 & Hd2);
    assert (Hincr : GoInt.incr (restartCount sg) = restartCount sg + 1)
      by (apply incr_exact; unfold GoInt.min_int, GoInt.max_int in *; lia);
    rewrite (runGoroutine_failed _ env i sg err Hrun Hd1 Hd2 Herr);
    cbv zeta; cbn [set_failure restartCount Policy]; rewrite Hincr.
  - replace (restartCount sg + 1 >? MaxRestarts (Policy sg)) with true
      by (symmetry; apply Z.gtb_lt; lia).
    eexists _, _. split; [reflexivity|].
    rewrite restarts_app, invocations_app, counts_app,
      failureEvents_restarts, failureEvents_invocations, failureEvents_counts.
    repeat split; try reflexivity.
    + apply last_app_cons.
    + cbn. lia.
  - replace (restartCount sg + 1 >? MaxRestarts (Policy sg)) with false
      by (symmetry; rewrite Z.gtb_ltb; apply Z.ltb_ge; lia).
    match goal with
    | |- context [runGoroutine (S k) env (S i) ?s] =>
        destruct (IH (S i) s)
          as (sg' & tr & Hr & Hre & Hin & Hco & Hla & Hru & Hrc & Hpo);
        [ cbn [set_lastRestart set_failure restartCount Policy];
          rewrite ?Hincr; lia .. |]
    end.
    rewrite Hr. eexists _, _. split; [reflexivity|].
    cbn [set_lastRestart set_failure restartCount Policy] in *.
    rewrite Hincr in *.
    rewrite restarts_app, invocations_app, counts_app,
      failureEvents_restarts, failureEvents_invocations, failureEvents_counts.
    change (restarts (EvWait ?d :: tr)) with (restarts ([EvWait d] ++ tr)).
    change (invocations (EvWait ?d :: tr)) with (invocations ([EvWait d] ++ tr)).
    rewrite restarts_app, invocations_app, Hre, Hin.
    repeat split; try assumption.
    + change (restarts [EvWait ?d]) with 1. lia.
    + change (invocations [EvWait ?d]) with 0. lia.
    + cbn [counts app]. rewrite Hco. reflexivity.
    + rewrite last_app_cons.
      destruct tr as [|e tr]; [|exact Hla].
      change (invocations []) with 0 in Hin. lia.
Qed.

Lemma countsFrom_bound (k : nat) :
  forall c, List.Forall (fun x => c < x <= c + Z.of_nat k) (countsFrom c k).
Proof.
  induction k as [|k IH]; intros c; cbn [countsFrom]; constructor.
  - lia.
  - eapply List.Forall_impl; [|apply (IH (c + 1))].
    cbv beta. intros x Hx. lia.
Qed.

(** C3: a worker that starts with a restart count of zero, whose work
    function fails at every call and whose context is never cancelled, is
    restarted exactly [MaxRestarts] times (so the work function runs
    [MaxRestarts + 1] times); then the loop gives up and returns, leaving
    the worker not running.  The restart count takes the values
    [1 .. MaxRestarts + 1] and so never exceeds [MaxRestarts + 1].  The
    budget is a count: [0 <= MaxRestarts], below the largest [int]. *)
Theorem C3_failing_worker_restart_budget
  (env : nat -> Round) (sg : SupervisedGoroutine) :
  always_failing env ->
  restartCount sg = 0 ->
  0 <= MaxRestarts (Policy sg) < GoInt.max_int ->
  exists sg' tr,
    (forall fuel, (Z.to_nat (MaxRestarts (Policy sg)) < fuel)%nat ->
       runGoroutine fuel env 0 sg = Some (sg', tr)) /\
    restarts tr = MaxRestarts (Policy sg) /\
    invocations tr = MaxRestarts (Policy sg) + 1 /\
    List.last tr EvInvoke = EvGiveUp /\
    running sg' = false /\
    restartCount sg' = MaxRestarts (Policy sg) + 1 /\
    counts tr = countsFrom 0 (S (Z.to_nat (MaxRestarts (Policy sg)))) /\
    List.Forall (fun c => c <= MaxRestarts (Policy sg) + 1) (counts tr).
Proof.
  intros Henv Hzero Hmax.
  destruct (run_failing env Henv (Z.to_nat (MaxRestarts (Policy sg))) 0%nat sg)
    as (sg' & tr & Hr & Hre & Hin & Hco & Hla & Hru & Hrc & _);
    [lia | lia | lia |].
  exists sg', tr. rewrite Hzero in Hco.
  repeat split; try assumption; try lia.
  - intros fuel Hfuel.
    apply (runGoroutine_fuel_mono _ _ _ _ _ Hr). lia.
  - rewrite Hco. eapply List.Forall_impl; [|apply countsFrom_bound].
    cbv beta. intros x Hx. lia.
Qed.

Lemma C3_failing_worker_restart_budget_witness :
  exists sg' tr,
    (forall fuel, (2 < fuel)%nat ->
       runGoroutine fuel Examples.env_failing 0
         (Examples.worker_at Examples.policy_two 0) = Some (sg', tr)) /\
    restarts tr = 2 /\
    invocations tr = 2 + 1 /\
    List.last tr EvInvoke = EvGiveUp /\
    running sg' = false /\
    restartCount sg' = 2 + 1 /\
    counts tr = [1; 2; 3] /\
    List.Forall (fun c => c <= 2 + 1) (counts tr).
Proof.
  apply (C3_failing_worker_restart_budget Examples.env_failing
           (Examples.worker_at Examples.policy_two 0)).
  - intros i. repeat split. exists "boom"%string. reflexivity.
  - reflexivity.
  - unfold GoInt.max_int. cbn. lia.
Defined.

(** The scenario of the documentation, run: three calls of the work
    function, waits of 10ms and 20ms between them, then the end. *)
Lemma run_policy_two :
  exists sg',
    runGoroutine 3 Examples.env_failing 0
      (Examples.worker_at Examples.policy_two 0) =
    Some (sg',
          [EvInvoke; EvFailed "boom"%string 1; EvOnFailure "boom"%string 1;
           EvWait (10 * millisecond);
           EvInvoke; EvFailed "boom"%string 2; EvOnFailure "boom"%string 2;
           EvWait (20 * millisecond);
           EvInvoke; EvFailed "boom"%string 3; EvOnFailure "boom"%string 3;
           EvGiveUp]) /\
    running sg' = false /\ restartCount sg' = 3.
Proof. eexists. vm_compute. repeat split. Qed.

(** With a negative budget the work function runs once and is never
    restarted; the restart count ends at 1. *)
Lemma run_failing_negative_budget
  (env : nat -> Round) (sg : SupervisedGoroutine) (fuel : nat) :
  always_failing env ->
  restartCount sg = 0 ->
  MaxRestarts (Policy sg) < 0 ->
  exists sg' tr,
    runGoroutine (S fuel) env 0 sg = Some (sg', tr) /\
    invocations tr = 1 /\ restarts tr = 0 /\
    running sg' = false /\ restartCount sg' = 1.
Proof.
  intros Henv Hzero Hneg.
  destruct (Henv 0%nat) as (Hrun & (err & Herr) & Hd1 & Hd2).
  rewrite (runGoroutine_failed _ env 0 sg err Hrun Hd1 Hd2 Herr).
  cbv zeta. cbn [set_failure restartCount Policy]. rewrite Hzero.
  change (GoInt.incr 0) with 1.
  replace (1 >? MaxRestarts (Policy sg)) with true
    by (symmetry; apply Z.gtb_lt; lia).
  eexists _, _. split; [reflexivity|].
  rewrite restarts_app, invocations_app,
    failureEvents_restarts, failureEvents_invocations.
  repeat split.
  cbn [set_running set_failure restartCount]. rewrite Hzero. reflexivity.
Qed.

(** *** Back-off *)

Lemma calculateBackoff_first (sg : SupervisedGoroutine) :
  restartCount sg <= 1 -> calculateBackoff sg = RestartDelay (Policy sg).
Proof.
  intros H. unfold calculateBackoff.
  replace (Z.to_nat (restartCount sg - 1)) with 0%nat by lia. reflexivity.
Qed.

(** *** Exact products

    The delays [calculateBackoff] would produce without rounding are
    [exactDelay p phi j = RestartDelay * phi ^ j], [phi] being the number
    the factor stands for. *)

Lemma float64_holds_small (z : Z) : Z.abs z < 2 ^ 53 -> float64_holds z.
Proof.
  intros H. split.
  - assert (2 ^ 53 < 2 ^ 63) by (vm_compute; reflexivity). lia.
  - exists (Z.abs z), 0. rewrite Z.pow_0_r. lia.
Qed.

Lemma exactDelay_0 (p : RestartPolicy) (phi : Q) :
  (exactDelay p phi 0 == inject_Z (RestartDelay p))%Q.
Proof. unfold exactDelay. rewrite Qpower_0_r. apply Qmult_1_r. Qed.

Lemma exactDelay_succ (p : RestartPolicy) (phi : Q) (j : Z) :
  0 <= j -> (exactDelay p phi (j + 1) == exactDelay p phi j * phi)%Q.
Proof.
  intros Hj. unfold exactDelay.
  rewrite Qpower_plus' by lia. rewrite Qpower_1_r. apply Qmult_assoc.
Qed.

(** The loop of [calculateBackoff] with [k] turns left, at the exact
    product number [j0]: it ends with the last product when none exceeds
    the cap, and with the cap at the first product that does.  Only the
    products the loop gets to need to be whole numbers that a [float64]
    holds. *)
Lemma backoffLoop_products (p : RestartPolicy) (phi : Q) (n : Z) :
  Q_of_float64 (BackoffFactor p) = Some phi ->
  (forall j, 1 <= j <= n - 1 -> reached p phi j ->
     exists z, float64_holds z /\ (inject_Z z == exactDelay p phi j)%Q) ->
  forall (k : nat) (j0 d : Z),
    0 <= j0 -> j0 + Z.of_nat k = n - 1 ->
    float64_holds d -> (inject_Z d == exactDelay p phi j0)%Q ->
    reached p phi (j0 + 1) ->
    (reached p phi n /\
     (inject_Z (backoffLoop p k d) == exactDelay p phi (n - 1))%Q) \/
    (exists i, j0 < i <= n - 1 /\ reached p phi i /\
       (inject_Z (MaxBackoffDelay p) < exactDelay p phi i)%Q /\
       backoffLoop p k d = MaxBackoffDelay p).
Proof.
  intros Hphi Hexact.
  induction k as [|k IH]; intros j0 d Hj0 Hk Hd Hval Hreach.
  - left. replace n with (j0 + 1) by lia. split; [exact Hreach|].
    cbn [backoffLoop]. replace (j0 + 1 - 1) with j0 by lia. exact Hval.
  - destruct (Hexact (j0 + 1) ltac:(lia) Hreach) as (z & Hz & Hzval).
    assert (Hscale : scaleDuration (BackoffFactor p) d = z).
    { apply (Float64Props.scaleDuration_exact _ phi); try assumption.
      rewrite Hzval, exactDelay_succ by lia. rewrite Hval. reflexivity. }
    cbn [backoffLoop]. rewrite Hscale.
    destruct (z >? MaxBackoffDelay p) eqn:Hcap.
    + right. exists (j0 + 1).
      split; [lia | split; [exact Hreach | split; [|reflexivity]]].
      rewrite <- Hzval, <- Zlt_Qlt. apply Z.gtb_lt in Hcap. lia.
    + assert (Hle : z <= MaxBackoffDelay p)
        by (rewrite Z.gtb_ltb in Hcap; apply Z.ltb_ge in Hcap; exact Hcap).
      destruct (IH (j0 + 1) z ltac:(lia) ltac:(lia) Hz Hzval)
        as [H | (i & Hi & H)].
      * intros i Hi. destruct (Z.eq_dec i (j0 + 1)) as [-> | Hne].
        -- rewrite <- Hzval, <- Zle_Qle. exact Hle.
        -- apply Hreach. lia.
      * left. exact H.
      * right. exists i. split; [lia | exact H].
Qed.

(** A factor of at least 1 on a base delay that is not negative: the
    exact delays never shrink. *)
Lemma exactDelay_grows (p : RestartPolicy) (phi : Q) (i j : Z) :
  (1 <= phi)%Q -> 0 <= RestartDelay p -> i <= j ->
  (exactDelay p phi i <= exactDelay p phi j)%Q.
Proof.
  intros Hphi HR Hij. unfold exactDelay.
  rewrite !(Qmult_comm (inject_Z (RestartDelay p))).
  apply Qmult_le_compat_r.
  - apply Qpower_le_compat_l; assumption.
  - change 0%Q with (inject_Z 0). rewrite <- Zle_Qle. exact HR.
Qed.

(** A factor between 0 and 1 on a base delay between zero and the cap:
    no exact delay exceeds the cap. *)
Lemma exactDelay_shrinks (p : RestartPolicy) (phi : Q) (j : Z) :
  (0 <= phi)%Q -> (phi <= 1)%Q ->
  0 <= RestartDelay p <= MaxBackoffDelay p -> 0 <= j ->
  (0 <= exactDelay p phi j)%Q /\
  (exactDelay p phi j <= inject_Z (MaxBackoffDelay p))%Q.
Proof.
  intros H0 H1 HR Hj. pattern j. apply natlike_ind; [| |exact Hj].
  - rewrite exactDelay_0, <- Zle_Qle.
    change 0%Q with (inject_Z 0). rewrite <- Zle_Qle. lia.
  - intros k Hk (IH0 & IH1). unfold Z.succ.
    rewrite exactDelay_succ by exact Hk. split.
    + apply Qmult_le_0_compat; assumption.
    + apply Qle_trans with (exactDelay p phi k * 1)%Q.
      * rewrite !(Qmult_comm (exactDelay p phi k)).
        apply Qmult_le_compat_r; assumption.
      * rewrite Qmult_1_r. exact IH1.
Qed.

(** C4, as the code has it.  The delay before restart [n >= 1] is a
    function of the policy and of [n] alone.  Let [phi] be the number the
    factor stands for, and let the base delay and every product
    [RestartDelay * phi ^ j] the loop gets to (none before it above the
    cap) be whole numbers of nanoseconds that a [float64] holds.  Then
    the delay is [min (RestartDelay * phi ^ (n - 1)) MaxBackoffDelay],
    in exact arithmetic, provided the base delay is not above the cap
    when [n = 1], and the last product is not below the cap when an
    earlier one is above it (which a factor of at least 1 on a
    non-negative base delay ensures, and which a factor between 0 and 1
    on a base delay up to the cap never meets). *)
Theorem C4_backoff_delay (sg : SupervisedGoroutine) (n : Z) (phi : Q) :
  restartCount sg = n ->
  1 <= n ->
  Q_of_float64 (BackoffFactor (Policy sg)) = Some phi ->
  float64_holds (RestartDelay (Policy sg)) ->
  (forall j, 1 <= j <= n - 1 -> reached (Policy sg) phi j ->
     exists z, float64_holds z /\
               (inject_Z z == exactDelay (Policy sg) phi j)%Q) ->
  (n = 1 -> RestartDelay (Policy sg) <= MaxBackoffDelay (Policy sg)) ->
  (forall i, 1 <= i < n - 1 -> reached (Policy sg) phi i ->
     (inject_Z (MaxBackoffDelay (Policy sg))
        < exactDelay (Policy sg) phi i)%Q ->
     (inject_Z (MaxBackoffDelay (Policy sg))
        <= exactDelay (Policy sg) phi (n - 1))%Q) ->
  (inject_Z (calculateBackoff sg)
   == Qmin (exactDelay (Policy sg) phi (n - 1))
           (inject_Z (MaxBackoffDelay (Policy sg))))%Q /\
  (forall sg', Policy sg' = Policy sg -> restartCount sg' = n ->
     calculateBackoff sg' = calculateBackoff sg).
Proof.
  intros Hn Hpos Hphi HR Hexact Hbase Hregime. split.
  - unfold calculateBackoff. rewrite Hn.
    destruct (backoffLoop_products (Policy sg) phi n Hphi Hexact
                (Z.to_nat (n - 1)) 0 (RestartDelay (Policy sg))
                ltac:(lia) ltac:(lia) HR)
      as [(Hall & Hval) | (i & Hi & Hreach & Hover & Hval)].
    + symmetry. apply exactDelay_0.
    + intros i Hi. lia.
    + rewrite Hval. symmetry. apply Q.min_l.
      destruct (Z.eq_dec n 1) as [-> | Hne].
      * change (1 - 1) with 0. rewrite exactDelay_0, <- Zle_Qle.
        apply Hbase. reflexivity.
      * apply Hall. lia.
    + rewrite Hval. symmetry. apply Q.min_r.
      destruct (Z.eq_dec i (n - 1)) as [-> | Hne].
      * apply Qlt_le_weak. exact Hover.
      * apply (Hregime i); [lia | exact Hreach | exact Hover].
  - intros sg' Hp Hc. unfold calculateBackoff. rewrite Hp, Hc, Hn. reflexivity.
Qed.

(** The exact product asked for, when it is a whole number below
    [2 ^ 53]. *)
Ltac exact_product :=
  match goal with
  | |- exists z, _ /\ (inject_Z z == ?q)%Q =>
      exists (Qnum (Qred q));
      split; [apply float64_holds_small; vm_compute; reflexivity
             | vm_compute; reflexivity]
  end.

(** The loop does not get past product number [i], which is above the
    cap. *)
Ltac not_reached H i :=
  exfalso;
  let Hi := fresh "Hi" in
  pose proof (H i ltac:(lia)) as Hi;
  vm_compute in Hi; apply Hi; reflexivity.

(** Three policies.  Factor 1.5 from 1s under a cap of 30s, restart 12:
    the products are whole up to the ninth, 38.443359375s, which is
    above the cap, and the later ones, not whole, are never computed;
    the delay is 30s.  Factor 0.5 from 8s, restart 4: the delay is 1s.
    Factor 2 from 10s above a cap of 5s, restart 2: the delay is 5s. *)
Lemma C4_backoff_delay_witness :
  (inject_Z (calculateBackoff (Examples.worker_at Examples.policy_sesqui 12))
   == Qmin (exactDelay Examples.policy_sesqui
              (Examples.factor_of Examples.policy_sesqui) (12 - 1))
           (inject_Z (30 * second)))%Q /\
  (inject_Z (calculateBackoff (Examples.worker_at Examples.policy_halving 4))
   == Qmin (exactDelay Examples.policy_halving
              (Examples.factor_of Examples.policy_halving) (4 - 1))
           (inject_Z (30 * second)))%Q /\
  (inject_Z (calculateBackoff (Examples.worker_at Examples.policy_over_cap 2))
   == Qmin (exactDelay Examples.policy_over_cap
              (Examples.factor_of Examples.policy_over_cap) (2 - 1))
           (inject_Z (5 * second)))%Q.
Proof.
  split; [|split].
  - refine (proj1 (C4_backoff_delay
                     (Examples.worker_at Examples.policy_sesqui 12) 12
                     (Examples.factor_of Examples.policy_sesqui)
                     eq_refl _ eq_refl _ _ _ _)).
    + lia.
    + apply float64_holds_small. vm_compute. reflexivity.
    + intros j Hj Hreach.
      assert (Hc : j = 1 \/ j = 2 \/ j = 3 \/ j = 4 \/ j = 5 \/ j = 6 \/
                   j = 7 \/ j = 8 \/ j = 9 \/ j = 10 \/ j = 11) by lia.
      destruct Hc as [-> | [-> | [-> | [-> | [-> | [-> | [-> | [-> | [-> |
                     [-> | ->]]]]]]]]]];
        first [exact_product | not_reached Hreach 9].
    + intros H. discriminate H.
    + intros i _ _ _. vm_compute. discriminate.
  - refine (proj1 (C4_backoff_delay
                     (Examples.worker_at Examples.policy_halving 4) 4
                     (Examples.factor_of Examples.policy_halving)
                     eq_refl _ eq_refl _ _ _ _)).
    + lia.
    + apply float64_holds_small. vm_compute. reflexivity.
    + intros j Hj Hreach.
      assert (Hc : j = 1 \/ j = 2 \/ j = 3) by lia.
      destruct Hc as [-> | [-> | ->]]; exact_product.
    + intros H. discriminate H.
    + intros i Hi _ Hover. exfalso.
      destruct (exactDelay_shrinks Examples.policy_halving
                  (Examples.factor_of Examples.policy_halving) i)
        as (_ & Hle);
        [ vm_compute; discriminate | vm_compute; discriminate
        | vm_compute; split; discriminate | lia | ].
      exact (Qlt_not_le _ _ Hover Hle).
  - refine (proj1 (C4_backoff_delay
                     (Examples.worker_at Examples.policy_over_cap 2) 2
                     (Examples.factor_of Examples.policy_over_cap)
                     eq_refl _ eq_refl _ _ _ _)).
    + lia.
    + apply float64_holds_small. vm_compute. reflexivity.
    + intros j Hj Hreach. assert (j = 1) as -> by lia. exact_product.
    + intros H. discriminate H.
    + intros i Hi. lia.
Defined.

(** The delays the three policies come to. *)
Lemma backoff_delays_of_three_policies :
  calculateBackoff (Examples.worker_at Examples.policy_sesqui 12)
    = 30 * second /\
  calculateBackoff (Examples.worker_at Examples.policy_halving 4)
    = 1 * second /\
  calculateBackoff (Examples.worker_at Examples.policy_over_cap 2)
    = 5 * second.
Proof. repeat split. Qed.

(** The numbers their factors stand for; infinities and NaN stand for
    none. *)
Lemma factors_of_three_policies :
  (Examples.factor_of Examples.policy_sesqui == 3 # 2)%Q /\
  (Examples.factor_of Examples.policy_halving == 1 # 2)%Q /\
  (Examples.factor_of Examples.policy_over_cap == 2 # 1)%Q /\
  Q_of_float64 PrimFloat.infinity = None /\
  Q_of_float64 PrimFloat.nan = None.
Proof. repeat split. Qed.

(** The delays of the default policy for the restarts it allows, and the
    one at which it gives up: doubling from 1s, capped at 30s. *)
Lemma default_policy_delays :
  List.map (fun n => calculateBackoff (Examples.worker_at DefaultRestartPolicy n))
           [1; 2; 3; 4; 5; 6]
  = [1 * second; 2 * second; 4 * second; 8 * second; 16 * second; 30 * second].
Proof. reflexivity. Qed.

(** C4, counterexample: with a base delay of 10s above a cap of 5s the
    first restart waits 10s, while [min (10s * 2 ^ 0) 5s] is 5s. *)
Lemma C4_counterexample :
  calculateBackoff (Examples.worker_at Examples.policy_over_cap 1)
    = 10 * second /\
  Z.min (RestartDelay Examples.policy_over_cap * 2 ^ (1 - 1))
        (MaxBackoffDelay Examples.policy_over_cap) = 5 * second.
Proof. split; reflexivity. Qed.

(** Each product is cut to whole nanoseconds before the next one: from a
    base delay of 1ns and a factor of 1.5 the delay stays at 1ns for the
    tenth restart, while [1.5 ^ 9] is above 38. *)
Lemma backoff_truncates_each_step :
  calculateBackoff (Examples.worker_at Examples.policy_fractional 10) = 1 /\
  38 * 2 ^ 9 < 1 * 3 ^ 9 /\
  38 < MaxBackoffDelay Examples.policy_fractional.
Proof. repeat split. Qed.

End SupervisorProps.

(** ** HealthMonitor *)

Module HealthProps.
Import Health.

Lemma updateStatus_status (s : HealthStatus) (hm : HealthMonitor) :
  status (updateStatus s hm) = s.
Proof.
  unfold updateStatus.
  destruct (HealthStatus_eqb (status hm) s) eqn:E; [|reflexivity].
  destruct (status hm), s; cbn in E; congruence.
Qed.

Lemma updateStatus_metrics (s : HealthStatus) (hm : HealthMonitor) :
  metrics (updateStatus s hm) = metrics hm.
Proof.
  unfold updateStatus.
  destruct (HealthStatus_eqb (status hm) s); reflexivity.
Qed.

(** After a check with a probe installed, the status is the one chosen
    from the count of consecutive errors the check leaves behind. *)
Lemma performHealthCheck_status (now : Time.Time) (hm : HealthMonitor)
  (probe : Time.Time -> option error) :
  healthCheckFunc hm = Some probe ->
  status (performHealthCheck now hm) =
  statusFor hm (ConsecutiveErrors (metrics (performHealthCheck now hm))).
Proof.
  intros Hp. unfold performHealthCheck. rewrite Hp.
  rewrite updateStatus_status, updateStatus_metrics. reflexivity.
Qed.

(** C5, as the code has it: a successful reconnect, an established
    connection and a probe that returns nil leave the count of consecutive
    errors at zero; recording a sent or a received message leaves the
    count as it was. *)
Theorem C5_consecutive_errors_after_success
  (hm : HealthMonitor) (now : Time.Time) :
  ConsecutiveErrors (metrics (RecordReconnectAttempt now true hm)) = 0 /\
  ConsecutiveErrors (metrics (RecordConnectionEstablished now hm)) = 0 /\
  (forall probe, healthCheckFunc hm = Some probe -> probe now = None ->
     ConsecutiveErrors (metrics (performHealthCheck now hm)) = 0) /\
  ConsecutiveErrors (metrics (RecordMessageSent now hm))
    = ConsecutiveErrors (metrics hm) /\
  ConsecutiveErrors (metrics (RecordMessageReceived now hm))
    = ConsecutiveErrors (metrics hm).
Proof.
  repeat split.
  intros probe Hp Hok. unfold performHealthCheck.
  rewrite Hp, Hok, updateStatus_metrics. reflexivity.
Qed.

Lemma C5_consecutive_errors_after_success_witness :
  ConsecutiveErrors
    (metrics (performHealthCheck 10
                (SetHealthCheckFunc Examples.probe_ok Examples.two_failures)))
  = 0.
Proof.
  destruct (C5_consecutive_errors_after_success
              (SetHealthCheckFunc Examples.probe_ok Examples.two_failures) 10)
    as (_ & _ & H & _).
  apply (H Examples.probe_ok); reflexivity.
Defined.

(** C5, counterexample: after two failed messages the count is 2, and it
    is still 2 after a message is recorded as sent, or as received. *)
Lemma C5_counterexample :
  ConsecutiveErrors (metrics Examples.two_failures) = 2 /\
  ConsecutiveErrors (metrics (RecordMessageSent 10 Examples.two_failures)) = 2 /\
  ConsecutiveErrors (metrics (RecordMessageReceived 10 Examples.two_failures))
    = 2.
Proof. repeat split. Qed.

(** C6, as the code has it: after a periodic check made with a probe
    installed, and with thresholds [0 < degraded <= unhealthy] (3 and 5 as
    constructed), the status is healthy for a count of 0, unhealthy from
    the unhealthy threshold on, degraded from the degraded threshold up to
    it, and healthy for the counts in between 0 and the degraded
    threshold. *)
Theorem C6_status_after_health_check
  (hm : HealthMonitor) (now : Time.Time) (probe : Time.Time -> option error) :
  healthCheckFunc hm = Some probe ->
  0 < degradedThreshold hm <= unhealthyThreshold hm ->
  let hm' := performHealthCheck now hm in
  let n := ConsecutiveErrors (metrics hm') in
  (n = 0 -> status hm' = HealthHealthy) /\
  (n >= unhealthyThreshold hm -> status hm' = HealthUnhealthy) /\
  (degradedThreshold hm <= n < unhealthyThreshold hm ->
     status hm' = HealthDegraded) /\
  (0 < n < degradedThreshold hm -> status hm' = HealthHealthy).
Proof.
  intros Hp Hth hm' n. subst hm' n.
  rewrite (performHealthCheck_status now hm probe Hp).
  set (n := ConsecutiveErrors (metrics (performHealthCheck now hm))).
  unfold statusFor.
  destruct (Z.eqb_spec n 0) as [H0|H0];
    destruct (Z.geb_spec n (unhealthyThreshold hm)) as [Hu|Hu];
    destruct (Z.geb_spec n (degradedThreshold hm)) as [Hd|Hd];
    repeat split; intros; try reflexivity; lia.
Qed.

Lemma C6_status_after_health_check_witness :
  let hm' := performHealthCheck 10
               (SetHealthCheckFunc Examples.probe_down Examples.two_failures) in
  let n := ConsecutiveErrors (metrics hm') in
  (n = 0 -> status hm' = HealthHealthy) /\
  (n >= 5 -> status hm' = HealthUnhealthy) /\
  (3 <= n < 5 -> status hm' = HealthDegraded) /\
  (0 < n < 3 -> status hm' = HealthHealthy).
Proof.
  apply (C6_status_after_health_check
           (SetHealthCheckFunc Examples.probe_down Examples.two_failures) 10
           Examples.probe_down).
  - reflexivity.
  - cbn. lia.
Defined.

(** The scenario of the documentation: probe failures number three and
    four give degraded, the fifth unhealthy, a success healthy again. *)
Lemma status_scenario :
  let down := SetHealthCheckFunc Examples.probe_down
                (NewHealthMonitor Supervisor.second) in
  let check := performHealthCheck in
  status (check 2 (check 1 down)) = HealthHealthy /\
  status (check 3 (check 2 (check 1 down))) = HealthDegraded /\
  status (check 4 (check 3 (check 2 (check 1 down)))) = HealthDegraded /\
  status (check 5 (check 4 (check 3 (check 2 (check 1 down)))))
    = HealthUnhealthy /\
  status (check 6 (SetHealthCheckFunc Examples.probe_ok
            (check 5 (check 4 (check 3 (check 2 (check 1 down)))))))
    = HealthHealthy.
Proof. repeat split. Qed.

(** C6, counterexample: a monitor as constructed has no probe; the
    periodic check then returns at once, and the status stays unknown
    although the count of consecutive errors is 0. *)
Lemma C6_counterexample :
  performHealthCheck 10 (NewHealthMonitor Supervisor.second)
    = NewHealthMonitor Supervisor.second /\
  ConsecutiveErrors
    (metrics (performHealthCheck 10 (NewHealthMonitor Supervisor.second))) = 0 /\
  status (performHealthCheck 10 (NewHealthMonitor Supervisor.second))
    = HealthUnknown /\
  status (performHealthCheck 10 (NewHealthMonitor Supervisor.second))
    <> HealthHealthy.
Proof. repeat split. discriminate. Qed.

(** *** The latency window *)

Lemma fold_add_wrap (w : list Z) :
  forall acc,
    GoInt.wrap (List.fold_left GoInt.add w acc) = GoInt.wrap (acc + sumZ w).
Proof.
  induction w as [|x w IH]; intros acc; cbn [List.fold_left sumZ List.fold_right].
  - rewrite Z.add_0_r. reflexivity.
  - rewrite IH. unfold GoInt.add. rewrite wrap_add_l.
    fold (sumZ w). f_equal. lia.
Qed.

Lemma fold_add_in_range (w : list Z) :
  forall acc,
    GoInt.in_range acc -> GoInt.in_range (List.fold_left GoInt.add w acc).
Proof.
  induction w as [|x w IH]; intros acc Hacc; cbn [List.fold_left].
  - exact Hacc.
  - apply IH. apply wrap_in_range.
Qed.

(** The running total is the sum of the window reduced to 64 bits. *)
Lemma totalLatency_wrap (w : list Z) :
  totalLatency w = GoInt.wrap (sumZ w).
Proof.
  unfold totalLatency.
  rewrite <- (wrap_id (List.fold_left GoInt.add w 0)).
  - rewrite fold_add_wrap. reflexivity.
  - apply fold_add_in_range.
    unfold GoInt.in_range, GoInt.min_int, GoInt.max_int. lia.
Qed.

Lemma quot_in_range (x n : Z) :
  GoInt.in_range x -> 0 < n -> GoInt.in_range (Z.quot x n).
Proof.
  unfold GoInt.in_range. intros [Hlo Hhi] Hn.
  assert (Hmin : GoInt.min_int <= 0) by (unfold GoInt.min_int; lia).
  assert (Hmax : 0 <= GoInt.max_int) by (unfold GoInt.max_int; lia).
  destruct (Z.le_gt_cases 0 x) as [Hx|Hx].
  - pose proof (Z.quot_pos x n Hx Hn).
    assert (Z.quot x n <= Z.quot x 1)
      by (apply Z.quot_le_compat_l; lia).
    rewrite Z.quot_1_r in *. lia.
  - assert (Hq : Z.quot x n = - Z.quot (- x) n)
      by (rewrite Z.quot_opp_l by lia; lia).
    pose proof (Z.quot_pos (- x) n ltac:(lia) Hn).
    assert (Z.quot (- x) n <= Z.quot (- x) 1)
      by (apply Z.quot_le_compat_l; lia).
    rewrite Z.quot_1_r in *. lia.
Qed.

(** Trimming keeps the last [max] samples. *)
Lemma trimWindow_lastn (max : Z) (w : list Z) :
  0 <= max ->
  trimWindow max w = Some (lastn (Z.to_nat max) w).
Proof.
  intros Hmax. unfold trimWindow, lastn. cbv zeta.
  destruct (Z.of_nat (List.length w) >? max) eqn:E.
  - apply Z.gtb_lt in E.
    replace (max <? 0) with false by (symmetry; apply Z.ltb_ge; lia).
    do 2 f_equal. lia.
  - rewrite Z.gtb_ltb in E. apply Z.ltb_ge in E.
    replace (List.length w - Z.to_nat max)%nat with 0%nat by lia.
    reflexivity.
Qed.

Lemma lastn_length {A : Type} (n : nat) (l : list A) :
  List.length (lastn n l) = Nat.min n (List.length l).
Proof. unfold lastn. rewrite List.length_skipn. lia. Qed.

(** C8: with a positive capacity, [RecordLatency] returns; the window it
    leaves is the last [maxLatencySamples] entries of the old window
    followed by the new sample (so it holds the new sample, at most
    [maxLatencySamples] of them, the oldest gone first); the current
    latency is the new sample; and the average latency is the sum of
    exactly the retained samples divided by their number, in whole
    nanoseconds, the sum being taken in 64 bits (it is the plain sum
    whenever that fits). *)
Theorem C8_record_latency_window_and_mean
  (hm : HealthMonitor) (latency : Time.Duration) :
  0 < maxLatencySamples hm ->
  exists hm',
    RecordLatency latency hm = Some hm' /\
    latencyWindow hm' =
      lastn (Z.to_nat (maxLatencySamples hm)) (latencyWindow hm ++ [latency]) /\
    (0 < List.length (latencyWindow hm'))%nat /\
    Z.of_nat (List.length (latencyWindow hm')) <= maxLatencySamples hm /\
    List.last (latencyWindow hm') 0 = latency /\
    CurrentLatency (metrics hm') = latency /\
    AverageLatency (metrics hm') =
      Z.quot (GoInt.wrap (sumZ (latencyWindow hm')))
             (Z.of_nat (List.length (latencyWindow hm'))) /\
    (GoInt.in_range (sumZ (latencyWindow hm')) ->
       AverageLatency (metrics hm') = mean (latencyWindow hm')).
Proof.
  intros Hmax. unfold RecordLatency.
  rewrite trimWindow_lastn by lia.
  set (w := lastn (Z.to_nat (maxLatencySamples hm)) (latencyWindow hm ++ [latency])).
  assert (Hlen : List.length w =
                 Nat.min (Z.to_nat (maxLatencySamples hm))
                         (S (List.length (latencyWindow hm)))).
  { subst w. rewrite lastn_length, List.length_app. cbn [List.length].
    f_equal. lia. }
  assert (Hpos : (0 < List.length w)%nat) by lia.
  unfold GoInt.div.
  replace (Z.of_nat (List.length w) =? 0) with false
    by (symmetry; apply Z.eqb_neq; lia).
  rewrite totalLatency_wrap.
  rewrite (wrap_id (Z.quot _ _))
    by (apply quot_in_range; [apply wrap_in_range | lia]).
  eexists. split; [reflexivity|].
  cbn [latencyWindow metrics set_metrics set_latencyWindow set_latencies
       CurrentLatency AverageLatency].
  repeat split; try lia.
  - subst w. unfold lastn.
    set (k := (List.length (latencyWindow hm ++ [latency])
               - Z.to_nat (maxLatencySamples hm))%nat).
    assert (Hk : (k <= List.length (latencyWindow hm))%nat)
      by (subst k; rewrite List.length_app; cbn [List.length]; lia).
    rewrite List.skipn_app.
    replace (k - List.length (latencyWindow hm))%nat with 0%nat by lia.
    cbn [List.skipn]. apply List.last_last.
  - intros Hfit. rewrite (wrap_id _ Hfit). reflexivity.
Qed.

(** A full window of capacity 3 holding 10, 20, 30 takes the sample 40:
    the oldest sample is dropped, three are kept, and the average is
    that of 20, 30 and 40. *)
Lemma C8_record_latency_window_and_mean_witness :
  exists hm',
    RecordLatency 40 Examples.window_of_three = Some hm' /\
    latencyWindow hm' = [20; 30; 40] /\
    List.length (latencyWindow hm') = 3%nat /\
    List.last (latencyWindow hm') 0 = 40 /\
    CurrentLatency (metrics hm') = 40 /\
    AverageLatency (metrics hm') = Z.quot (20 + 30 + 40) 3 /\
    AverageLatency (metrics hm') = 30 /\
    AverageLatency (metrics hm') = mean (latencyWindow hm').
Proof.
  destruct (C8_record_latency_window_and_mean Examples.window_of_three 40)
    as (hm' & Hr & Hw & Hpos & Hlen & Hlast & Hcur & Havg & Hmean).
  - reflexivity.
  - exists hm'.
    assert (Hw' : latencyWindow hm' = [20; 30; 40]) by exact Hw.
    rewrite Hw' in Havg, Hmean |- *.
    repeat apply conj.
    + exact Hr.
    + reflexivity.
    + reflexivity.
    + rewrite <- Hw'. exact Hlast.
    + exact Hcur.
    + exact Havg.
    + exact Havg.
    + apply Hmean. vm_compute. split; discriminate.
Defined.

(** A window of capacity 3 fed 10, 20, 30, 40: the oldest sample is
    dropped and the average is that of 20, 30, 40. *)
Lemma latency_window_slides :
  let hm0 :=
    {| metrics := zeroMetrics; status := HealthUnknown;
       checkInterval := Supervisor.second;
       unhealthyThreshold := 5; degradedThreshold := 3;
       onStatusChange := false; healthCheckFunc := None;
       latencyWindow := [10; 20; 30]; maxLatencySamples := 3;
       statusChanges := [] |} in
  option_map latencyWindow (RecordLatency 40 hm0) = Some [20; 30; 40] /\
  option_map (fun h => AverageLatency (metrics h)) (RecordLatency 40 hm0)
    = Some 30 /\
  option_map (fun h => CurrentLatency (metrics h)) (RecordLatency 40 hm0)
    = Some 40.
Proof. repeat split. Qed.

End HealthProps.

(** ** ReconnectionManager *)

Module ReconnectionProps.
Import Reconnection.

(** C10: [ShouldReconnect] is true exactly when reconnection is enabled
    and the attempt counter is below [maxAttempts]; [NextBackoff] is
    [backoffFunc(attempts)] when a function is set and the fixed delay
    otherwise; [Reset] sets the counter to 0 and [IncrementAttempts]
    adds one to it (Go's [++] on [int]: plus one short of the largest
    value); each of the two changes no other field, and the two queries
    change nothing, being functions of the manager. *)
Theorem C10_reconnection_manager (r : ReconnectionManager) :
  (ShouldReconnect r = true <->
     enabled r = true /\ attempts r < maxAttempts r) /\
  (forall f, backoffFunc r = Some f -> NextBackoff r = f (attempts r)) /\
  (backoffFunc r = None -> NextBackoff r = delay r) /\
  Reset r =
    {| enabled := enabled r; attempts := 0; maxAttempts := maxAttempts r;
       delay := delay r; backoffFunc := backoffFunc r |} /\
  IncrementAttempts r =
    {| enabled := enabled r; attempts := GoInt.incr (attempts r);
       maxAttempts := maxAttempts r;
       delay := delay r; backoffFunc := backoffFunc r |} /\
  (GoInt.min_int <= attempts r < GoInt.max_int ->
     attempts (IncrementAttempts r) = attempts r + 1).
Proof.
  repeat split.
  - unfold ShouldReconnect in H. apply andb_true_iff in H. apply H.
  - unfold ShouldReconnect in H. apply andb_true_iff in H.
    apply Z.ltb_lt. apply H.
  - intros [He Ha]. unfold ShouldReconnect.
    rewrite He. apply Z.ltb_lt in Ha. rewrite Ha. reflexivity.
  - intros f Hf. unfold NextBackoff. rewrite Hf. reflexivity.
  - intros Hf. unfold NextBackoff. rewrite Hf. reflexivity.
  - intros Hr. cbn [IncrementAttempts attempts]. apply incr_exact. exact Hr.
Qed.

Lemma C10_reconnection_manager_witness :
  let r := {| enabled := true; attempts := 2; maxAttempts := 5;
              delay := 1000; backoffFunc := Some (fun n => 100 * 2 ^ n) |} in
  ShouldReconnect r = true /\
  NextBackoff r = 400 /\
  attempts (Reset r) = 0 /\
  attempts (IncrementAttempts r) = 3.
Proof.
  intros r.
  destruct (C10_reconnection_manager r) as (Hs & Hf & _ & Hr & _ & Hi).
  split; [apply Hs; split; [reflexivity | cbn; lia]|].
  split; [rewrite (Hf _ eq_refl); reflexivity|].
  split; [rewrite Hr; reflexivity|].
  rewrite Hi; [reflexivity|].
  unfold GoInt.min_int, GoInt.max_int. cbn. lia.
Defined.

End ReconnectionProps.

(** * Further properties *)

(** ** CircuitBreaker: histories *)

Module BreakerHistories.
Import Breaker.

Lemma geb_true (x y : Z) : y <= x -> (x >=? y) = true.
Proof. intros H. rewrite Z.geb_leb. apply Z.leb_le. exact H. Qed.

Lemma geb_false (x y : Z) : x < y -> (x >=? y) = false.
Proof. intros H. rewrite Z.geb_leb. apply Z.leb_gt. exact H. Qed.

(** A failure recorded on a closed breaker, in one equation. *)
Lemma RecordResult_failure_closed
  (now : Time.Time) (e : error) (cb : CircuitBreaker) :
  state cb = CircuitClosed ->
  RecordResult now (Some e) cb =
    let cb2 := set_lastFailTime now
                 (set_failures (GoInt.incr (failures cb)) cb) in
    if GoInt.incr (failures cb) >=? maxFailures cb
    then transitionToLocked CircuitOpen cb2
    else cb2.
Proof.
  intros Hst. unfold RecordResult, recordFailure. rewrite Hst. reflexivity.
Qed.

Lemma RecordResult_failure_open
  (now : Time.Time) (e : error) (cb : CircuitBreaker) :
  state cb = CircuitOpen ->
  RecordResult now (Some e) cb =
    set_lastFailTime now (set_failures (GoInt.incr (failures cb)) cb).
Proof.
  intros Hst. unfold RecordResult, recordFailure. rewrite Hst. reflexivity.
Qed.

Lemma recordFailures_app (a b : list (Time.Time * error)) (cb : CircuitBreaker) :
  recordFailures (a ++ b) cb = recordFailures b (recordFailures a cb).
Proof. unfold recordFailures. apply List.fold_left_app. Qed.

(** Fewer failures than [maxFailures] leave a closed breaker closed. *)
Lemma recordFailures_stays_closed (fs : list (Time.Time * error)) :
  forall cb,
    state cb = CircuitClosed ->
    0 <= failures cb ->
    failures cb + Z.of_nat (List.length fs) < maxFailures cb ->
    maxFailures cb <= GoInt.max_int ->
    state (recordFailures fs cb) = CircuitClosed /\
    failures (recordFailures fs cb) = failures cb + Z.of_nat (List.length fs) /\
    notified (recordFailures fs cb) = notified cb /\
    sameSetup (recordFailures fs cb) cb.
Proof.
  induction fs as [|[t e] fs IH]; intros cb Hst Hf Hlt Hmax.
  - cbn. repeat split; try assumption. lia.
  - change (recordFailures ((t, e) :: fs) cb)
      with (recordFailures fs (RecordResult t (Some e) cb)).
    cbn [List.length] in Hlt.
    assert (Hincr : GoInt.incr (failures cb) = failures cb + 1)
      by (apply incr_exact; unfold GoInt.min_int; lia).
    rewrite (RecordResult_failure_closed t e cb Hst). cbv zeta.
    rewrite Hincr, geb_false by lia.
    destruct (IH (set_lastFailTime t (set_failures (failures cb + 1) cb)))
      as (H1 & H2 & H3 & H4);
      [ exact Hst
      | cbn [failures set_lastFailTime set_failures]; lia
      | cbn [failures maxFailures set_lastFailTime set_failures]; lia
      | exact Hmax |].
    cbn [failures notified set_lastFailTime set_failures] in H2, H3.
    destruct H4 as (S1 & S2 & S3 & S4).
    cbn [List.length]. repeat split; try assumption. lia.
Qed.

(** Failures recorded on an open breaker leave it open and notify nobody. *)
Lemma recordFailures_stays_open (fs : list (Time.Time * error)) :
  forall cb,
    state cb = CircuitOpen ->
    state (recordFailures fs cb) = CircuitOpen /\
    notified (recordFailures fs cb) = notified cb /\
    sameSetup (recordFailures fs cb) cb.
Proof.
  induction fs as [|[t e] fs IH]; intros cb Hst.
  - cbn. repeat split. exact Hst.
  - change (recordFailures ((t, e) :: fs) cb)
      with (recordFailures fs (RecordResult t (Some e) cb)).
    rewrite (RecordResult_failure_open t e cb Hst).
    destruct (IH (set_lastFailTime t (set_failures (GoInt.incr (failures cb)) cb)))
      as (H1 & H2 & S1 & S2 & S3 & S4); [exact Hst|].
    repeat split; assumption.
Qed.

(** The failure that reaches [maxFailures] opens the breaker. *)
Lemma RecordResult_trips (now : Time.Time) (e : error) (cb : CircuitBreaker) :
  state cb = CircuitClosed ->
  0 <= failures cb < GoInt.max_int ->
  maxFailures cb <= failures cb + 1 ->
  state (RecordResult now (Some e) cb) = CircuitOpen /\
  notified (RecordResult now (Some e) cb) =
    notified cb ++
    (if onStateChange cb then [(CircuitClosed, CircuitOpen)] else []) /\
  sameSetup (RecordResult now (Some e) cb) cb.
Proof.
  intros Hst Hf Hge.
  assert (Hincr : GoInt.incr (failures cb) = failures cb + 1)
    by (apply incr_exact; unfold GoInt.min_int; lia).
  rewrite (RecordResult_failure_closed now e cb Hst). cbv zeta.
  rewrite Hincr, geb_true by lia.
  unfold transitionToLocked.
  cbn [state set_lastFailTime set_failures]. rewrite Hst.
  cbn [CircuitState_eqb onStateChange set_state set_lastFailTime set_failures].
  unfold sameSetup.
  destruct (onStateChange cb) eqn:Hh; cbn; rewrite ?List.app_nil_r, ?Hh;
    repeat split.
Qed.

(** Every recorded failure stamps the time of the last failure. *)
Lemma RecordResult_failure_lastFailTime
  (now : Time.Time) (e : error) (cb : CircuitBreaker) :
  lastFailTime (RecordResult now (Some e) cb) = now.
Proof.
  destruct cb as [mf rt hr st f sc lf ha h nl].
  unfold RecordResult, recordFailure, transitionToLocked.
  destruct st; cbn;
    repeat match goal with
           | |- context [if ?c then _ else _] => destruct c; cbn
           end; reflexivity.
Qed.

Lemma recordFailures_lastFailTime (fs : list (Time.Time * error)) :
  forall cb d,
    fs <> [] ->
    lastFailTime (recordFailures fs cb) = fst (List.last fs d).
Proof.
  induction fs as [|[t e] fs IH]; intros cb d Hne; [congruence|].
  change (recordFailures ((t, e) :: fs) cb)
    with (recordFailures fs (RecordResult t (Some e) cb)).
  destruct fs as [|f fs].
  - cbn [recordFailures List.fold_left List.last fst].
    apply RecordResult_failure_lastFailTime.
  - rewrite (IH _ d) by discriminate. reflexivity.
Qed.

(** A closed breaker with no failures on record, fed failures only:
    it is still closed, with every failure counted, while fewer than
    [maxFailures] have been recorded; from the failure that reaches
    [maxFailures] on (the first one, for [maxFailures <= 1]) it is open,
    the handler has been notified exactly once, of closed-to-open, and the
    time of the last failure is that of the latest failure; [CanAttempt]
    then answers no until more than [resetTimeout] has passed since. *)
Theorem closed_breaker_opens_at_maxFailures
  (cb : CircuitBreaker) (fs : list (Time.Time * error)) (d : Time.Time * error) :
  state cb = CircuitClosed ->
  failures cb = 0 ->
  maxFailures cb <= GoInt.max_int ->
  let k := Z.of_nat (List.length fs) in
  let cb' := recordFailures fs cb in
  (k < maxFailures cb ->
     state cb' = CircuitClosed /\ failures cb' = k /\
     notified cb' = notified cb) /\
  (fs <> [] -> maxFailures cb <= k ->
     state cb' = CircuitOpen /\
     notified cb' =
       notified cb ++
       (if onStateChange cb then [(CircuitClosed, CircuitOpen)] else []) /\
     lastFailTime cb' = fst (List.last fs d) /\
     forall t, Time.Since t (fst (List.last fs d)) <= resetTimeout cb ->
       CanAttempt t cb' = (false, cb')).
Proof.
  intros Hst Hf Hmax k cb'. split.
  - intros Hlt.
    destruct (recordFailures_stays_closed fs cb Hst) as (H1 & H2 & H3 & _);
      try lia.
    subst cb' k. rewrite Hf in H2. repeat split; try assumption; lia.
  - intros Hne Hge.
    set (j := Z.to_nat (maxFailures cb - 1)).
    assert (Hj : (j < List.length fs)%nat) by (subst j k; destruct fs; [congruence | cbn [List.length] in *; lia]).
    assert (Hsplit : fs = List.firstn j fs ++ List.skipn j fs)
      by (symmetry; apply List.firstn_skipn).
    destruct (List.skipn j fs) as [|[t e] rest] eqn:Hskip.
    { assert (List.length (List.skipn j fs) = 0%nat) by (rewrite Hskip; reflexivity).
      rewrite List.length_skipn in H. lia. }
    assert (Hlen : List.length (List.firstn j fs) = j)
      by (rewrite List.length_firstn; lia).
    assert (HA : state (recordFailures (List.firstn j fs) cb) = CircuitClosed /\
                 failures (recordFailures (List.firstn j fs) cb) = Z.of_nat j /\
                 notified (recordFailures (List.firstn j fs) cb) = notified cb /\
                 sameSetup (recordFailures (List.firstn j fs) cb) cb).
    { destruct (Z_le_gt_dec (maxFailures cb) 1) as [Hsmall|Hbig].
      - replace j with 0%nat by (subst j; lia).
        cbn. repeat split; try assumption.
      - destruct (recordFailures_stays_closed (List.firstn j fs) cb Hst)
          as (A1 & A2 & A3 & A4); try (rewrite ?Hlen; subst j; lia).
        rewrite Hlen, Hf in A2. repeat split; try assumption; apply A4. }
    destruct HA as (A1 & A2 & A3 & A4).
    set (cbA := recordFailures (List.firstn j fs) cb) in *.
    destruct (RecordResult_trips t e cbA A1) as (B1 & B2 & B3).
    { rewrite A2. subst j. unfold GoInt.max_int in *. lia. }
    { destruct A4 as (A4 & _). rewrite A4, A2. subst j. lia. }
    destruct (recordFailures_stays_open rest _ B1) as (C1 & C2 & C3).
    assert (Hcb' : cb' = recordFailures rest (RecordResult t (Some e) cbA)).
    { subst cb' cbA. rewrite Hsplit at 1. rewrite recordFailures_app.
      reflexivity. }
    assert (Hsetup : sameSetup cb' cb).
    { rewrite Hcb'. unfold sameSetup in *.
      destruct A4 as (? & ? & ? & ?), B3 as (? & ? & ? & ?),
        C3 as (? & ? & ? & ?). repeat split; congruence. }
    assert (Hlast : lastFailTime cb' = fst (List.last fs d))
      by (subst cb'; apply recordFailures_lastFailTime; exact Hne).
    repeat split.
    + rewrite Hcb'. exact C1.
    + rewrite Hcb', C2, B2, A3. destruct A4 as (_ & _ & _ & A4). rewrite A4.
      reflexivity.
    + exact Hlast.
    + intros t' Ht'. unfold CanAttempt.
      replace (state cb') with CircuitOpen by (rewrite Hcb'; symmetry; exact C1).
      destruct Hsetup as (_ & Hrt & _). rewrite Hlast, Hrt.
      rewrite BreakerProps.gtb_false by exact Ht'. reflexivity.
Qed.

Lemma closed_breaker_opens_at_maxFailures_witness :
  let cb := NewCircuitBreaker 3 100 in
  let fs := [(1, "a"%string); (2, "b"%string); (3, "c"%string)] in
  (3 < 3 ->
     state (recordFailures fs cb) = CircuitClosed /\
     failures (recordFailures fs cb) = 3 /\
     notified (recordFailures fs cb) = []) /\
  (fs <> [] -> 3 <= 3 ->
     state (recordFailures fs cb) = CircuitOpen /\
     notified (recordFailures fs cb) = [] ++ [] /\
     lastFailTime (recordFailures fs cb) = 3 /\
     forall t, Time.Since t 3 <= 100 ->
       CanAttempt t (recordFailures fs cb) = (false, recordFailures fs cb)).
Proof.
  intros cb fs.
  apply (closed_breaker_opens_at_maxFailures cb fs (0, ""%string)).
  - reflexivity.
  - reflexivity.
  - unfold GoInt.max_int. cbn. lia.
Defined.

(** A success recorded on a closed breaker wipes the failures counted so
    far: whatever their number, it then takes [maxFailures] new failures
    in a row to open the breaker. *)
Theorem success_restarts_failure_count
  (cb : CircuitBreaker) (t : Time.Time) (fs : list (Time.Time * error)) :
  state cb = CircuitClosed ->
  0 <= failures cb ->
  maxFailures cb <= GoInt.max_int ->
  Z.of_nat (List.length fs) < maxFailures cb ->
  failures (RecordResult t None cb) = 0 /\
  state (recordFailures fs (RecordResult t None cb)) = CircuitClosed /\
  failures (recordFailures fs (RecordResult t None cb))
    = Z.of_nat (List.length fs) /\
  notified (recordFailures fs (RecordResult t None cb)) = notified cb.
Proof.
  intros Hst Hf Hmax Hlen.
  assert (H0 : failures (RecordResult t None cb) = 0 /\
               state (RecordResult t None cb) = CircuitClosed /\
               maxFailures (RecordResult t None cb) = maxFailures cb /\
               notified (RecordResult t None cb) = notified cb).
  { unfold RecordResult, recordSuccess. rewrite Hst.
    destruct (failures cb >? 0) eqn:E; cbn; repeat split; try assumption.
    rewrite Z.gtb_ltb in E. apply Z.ltb_ge in E. lia. }
  destruct H0 as (F0 & S0 & M0 & N0).
  destruct (recordFailures_stays_closed fs (RecordResult t None cb) S0)
    as (H1 & H2 & H3 & _); try (rewrite ?F0, ?M0; lia).
  rewrite F0 in H2. repeat split; try assumption; try lia. congruence.
Qed.

Lemma success_restarts_failure_count_witness :
  let cb := recordFailures [(1, "a"%string); (2, "b"%string)]
              (NewCircuitBreaker 3 100) in
  let fs := [(4, "c"%string); (5, "d"%string)] in
  failures (RecordResult 3 None cb) = 0 /\
  state (recordFailures fs (RecordResult 3 None cb)) = CircuitClosed /\
  failures (recordFailures fs (RecordResult 3 None cb)) = 2 /\
  notified (recordFailures fs (RecordResult 3 None cb)) = [].
Proof.
  intros cb fs.
  apply (success_restarts_failure_count cb 3 fs).
  - reflexivity.
  - cbn. lia.
  - unfold GoInt.max_int. cbn. lia.
  - cbn. lia.
Defined.

(** One failure in half-open reopens the breaker, whatever successes were
    counted before: the state is open, the trial counter is zero, the
    time of the last failure is the present, the handler (if any) is told
    of half-open-to-open, and [CanAttempt] answers no until more than
    [resetTimeout] has passed. *)
Theorem half_open_failure_reopens
  (cb : CircuitBreaker) (now : Time.Time) (e : error) :
  state cb = CircuitHalfOpen ->
  let cb' := RecordResult now (Some e) cb in
  state cb' = CircuitOpen /\
  halfOpenAttempts cb' = 0 /\
  successCount cb' = successCount cb /\
  failures cb' = GoInt.incr (failures cb) /\
  lastFailTime cb' = now /\
  notified cb' =
    notified cb ++
    (if onStateChange cb then [(CircuitHalfOpen, CircuitOpen)] else []) /\
  forall t, Time.Since t now <= resetTimeout cb ->
    CanAttempt t cb' = (false, cb').
Proof.
  intros Hst cb'. subst cb'.
  destruct cb as [mf rt hr st f sc lf ha h nl]. cbn in Hst. subst st.
  unfold RecordResult, recordFailure, transitionToLocked.
  destruct h; cbn; rewrite ?List.app_nil_r; repeat split;
    intros t Ht; unfold CanAttempt; cbn;
    rewrite BreakerProps.gtb_false by exact Ht; reflexivity.
Qed.

Lemma half_open_failure_reopens_witness :
  let cb := snd (CanAttempt 150 Examples.tripped) in
  let cb' := RecordResult 160 (Some "again"%string) cb in
  state cb' = CircuitOpen /\
  halfOpenAttempts cb' = 0 /\
  successCount cb' = 0 /\
  failures cb' = GoInt.incr 1 /\
  lastFailTime cb' = 160 /\
  notified cb' = [] ++ [] /\
  forall t, Time.Since t 160 <= 100 -> CanAttempt t cb' = (false, cb').
Proof.
  intros cb.
  apply (half_open_failure_reopens cb 160 "again"%string).
  reflexivity.
Defined.

Lemma recordSuccesses_app (a b : list Time.Time) (cb : CircuitBreaker) :
  recordSuccesses (a ++ b) cb = recordSuccesses b (recordSuccesses a cb).
Proof. unfold recordSuccesses. apply List.fold_left_app. Qed.

(** Successes recorded on a closed breaker with nothing counted change
    nothing. *)
Lemma recordSuccesses_closed_idle (ts : list Time.Time) :
  forall cb,
    state cb = CircuitClosed -> failures cb = 0 ->
    recordSuccesses ts cb = cb.
Proof.
  induction ts as [|t ts IH]; intros cb Hst Hf; [reflexivity|].
  change (recordSuccesses (t :: ts) cb)
    with (recordSuccesses ts (RecordResult t None cb)).
  assert (H : RecordResult t None cb = cb).
  { unfold RecordResult, recordSuccess. rewrite Hst, Hf. reflexivity. }
  rewrite H. apply IH; assumption.
Qed.

(** Fewer successes than [halfOpenRequests] keep the breaker half-open. *)
Lemma recordSuccesses_stays_half_open (ts : list Time.Time) :
  forall cb,
    state cb = CircuitHalfOpen ->
    0 <= successCount cb ->
    successCount cb + Z.of_nat (List.length ts) < halfOpenRequests cb ->
    halfOpenRequests cb <= GoInt.max_int ->
    recordSuccesses ts cb =
      set_successCount (successCount cb + Z.of_nat (List.length ts)) cb.
Proof.
  induction ts as [|t ts IH]; intros cb Hst Hs Hlt Hmax.
  - cbn. rewrite Z.add_0_r. destruct cb; reflexivity.
  - change (recordSuccesses (t :: ts) cb)
      with (recordSuccesses ts (RecordResult t None cb)).
    cbn [List.length] in Hlt.
    assert (Hincr : GoInt.incr (successCount cb) = successCount cb + 1)
      by (apply incr_exact; unfold GoInt.min_int; lia).
    assert (H : RecordResult t None cb =
                set_successCount (successCount cb + 1) cb).
    { unfold RecordResult, recordSuccess. rewrite Hst. cbv zeta.
      rewrite Hincr.
      cbn [successCount halfOpenRequests set_successCount].
      rewrite geb_false by lia. reflexivity. }
    rewrite H, IH.
    + cbn [successCount set_successCount List.length].
      replace (successCount cb + 1 + Z.of_nat (List.length ts))
        with (successCount cb + Z.of_nat (S (List.length ts))) by lia.
      destruct cb; reflexivity.
    + exact Hst.
    + cbn [successCount set_successCount]. lia.
    + cbn [successCount halfOpenRequests set_successCount]. lia.
    + exact Hmax.
Qed.

(** From half-open with no success counted: fewer successes than
    [halfOpenRequests] leave the breaker half-open with each one counted
    and the failure counter untouched; with [halfOpenRequests] successes
    or more it is closed, failure, success and trial counters at zero,
    and the handler (if any) has been told once, of half-open-to-closed. *)
Theorem half_open_successes_close
  (cb : CircuitBreaker) (ts : list Time.Time) :
  state cb = CircuitHalfOpen ->
  successCount cb = 0 ->
  1 <= halfOpenRequests cb <= GoInt.max_int ->
  let k := Z.of_nat (List.length ts) in
  let cb' := recordSuccesses ts cb in
  (k < halfOpenRequests cb ->
     state cb' = CircuitHalfOpen /\ successCount cb' = k /\
     failures cb' = failures cb /\ notified cb' = notified cb) /\
  (halfOpenRequests cb <= k ->
     state cb' = CircuitClosed /\ failures cb' = 0 /\
     successCount cb' = 0 /\ halfOpenAttempts cb' = 0 /\
     notified cb' =
       notified cb ++
       (if onStateChange cb then [(CircuitHalfOpen, CircuitClosed)] else [])).
Proof.
  intros Hst Hs Hh k cb'. split.
  - intros Hlt. subst cb' k.
    rewrite recordSuccesses_stays_half_open; [| exact Hst | lia ..].
    rewrite Hs. cbn. repeat split. exact Hst.
  - intros Hge.
    set (j := Z.to_nat (halfOpenRequests cb - 1)).
    assert (Hj : (j < List.length ts)%nat) by (subst j k; lia).
    assert (Hsplit : ts = List.firstn j ts ++ List.skipn j ts)
      by (symmetry; apply List.firstn_skipn).
    destruct (List.skipn j ts) as [|t rest] eqn:Hskip.
    { assert (H : List.length (List.skipn j ts) = 0%nat)
        by (rewrite Hskip; reflexivity).
      rewrite List.length_skipn in H. lia. }
    assert (Hlen : List.length (List.firstn j ts) = j)
      by (rewrite List.length_firstn; lia).
    assert (HA : recordSuccesses (List.firstn j ts) cb =
                 set_successCount (halfOpenRequests cb - 1) cb).
    { rewrite recordSuccesses_stays_half_open;
        [| exact Hst | rewrite ?Hlen, ?Hs; subst j; lia ..].
      rewrite Hlen, Hs. f_equal. subst j. lia. }
    assert (Hincr : GoInt.incr (halfOpenRequests cb - 1) = halfOpenRequests cb)
      by (rewrite incr_exact; unfold GoInt.min_int; lia).
    assert (HB : RecordResult t None (set_successCount (halfOpenRequests cb - 1) cb)
                 = transitionToLocked CircuitClosed
                     (set_halfOpenAttempts 0
                        (set_successCount 0 (set_failures 0 cb)))).
    { unfold RecordResult, recordSuccess.
      cbn [state set_successCount]. rewrite Hst. cbv zeta.
      cbn [successCount halfOpenRequests set_successCount].
      rewrite Hincr, geb_true by lia.
      destruct cb; reflexivity. }
    assert (Hcb' : cb' = recordSuccesses rest
                           (transitionToLocked CircuitClosed
                              (set_halfOpenAttempts 0
                                 (set_successCount 0 (set_failures 0 cb))))).
    { subst cb'. rewrite Hsplit at 1.
      rewrite recordSuccesses_app, HA.
      change (recordSuccesses (t :: rest) ?c)
        with (recordSuccesses rest (RecordResult t None c)).
      rewrite HB. reflexivity. }
    rewrite Hcb', recordSuccesses_closed_idle.
    + unfold transitionToLocked.
      cbn [state set_halfOpenAttempts set_successCount set_failures].
      rewrite Hst.
      destruct cb as [mf rt hr st f sc lf ha h nl].
      destruct h; cbn; rewrite ?List.app_nil_r; repeat split.
    + apply (BreakerProps.transitionToLocked_fields CircuitClosed).
    + pose proof (BreakerProps.transitionToLocked_fields CircuitClosed
                    (set_halfOpenAttempts 0
                       (set_successCount 0 (set_failures 0 cb)))) as H.
      cbv zeta in H. destruct H as (_ & H & _). rewrite H. reflexivity.
Qed.

Lemma half_open_successes_close_witness :
  let cb := snd (CanAttempt 150 Examples.tripped) in
  (1 < 1 ->
     state (recordSuccesses [151] cb) = CircuitHalfOpen /\
     successCount (recordSuccesses [151] cb) = 1 /\
     failures (recordSuccesses [151] cb) = 1 /\
     notified (recordSuccesses [151] cb) = []) /\
  (1 <= 1 ->
     state (recordSuccesses [151] cb) = CircuitClosed /\
     failures (recordSuccesses [151] cb) = 0 /\
     successCount (recordSuccesses [151] cb) = 0 /\
     halfOpenAttempts (recordSuccesses [151] cb) = 0 /\
     notified (recordSuccesses [151] cb) = [] ++ []).
Proof.
  intros cb.
  apply (half_open_successes_close cb [151]).
  - reflexivity.
  - reflexivity.
  - unfold GoInt.max_int. cbn. lia.
Defined.

(** A step of [CanAttempt] or [RecordResult] spawns the handler exactly
    when it changes the state and a handler is installed, once, with the
    old and the new state; otherwise the log of notifications is as
    before. *)
Theorem handler_notified_once_per_transition (op : Op) (cb : CircuitBreaker) :
  notified (step op cb) =
    notified cb ++
    (if onStateChange cb && negb (CircuitState_eqb (state cb) (state (step op cb)))
     then [(state cb, state (step op cb))]
     else []) /\
  onStateChange (step op cb) = onStateChange cb.
Proof.
  destruct cb as [mf rt hr st f sc lf ha h nl].
  destruct op as [now | now [e|]]; destruct st;
    cbn [step CanAttempt RecordResult recordFailure recordSuccess state
         failures successCount halfOpenAttempts lastFailTime resetTimeout
         maxFailures halfOpenRequests set_failures set_lastFailTime
         set_successCount set_halfOpenAttempts snd];
    repeat match goal with
           | |- context [?a >? ?b] => destruct (a >? b)
           | |- context [?a >=? ?b] => destruct (a >=? b)
           | |- context [?a <? ?b] => destruct (a <? b)
           end;
    unfold transitionTo, transitionToLocked;
    cbn [state set_state CircuitState_eqb onStateChange set_successCount
         set_halfOpenAttempts set_failures];
    destruct h; cbn; rewrite ?List.app_nil_r; split; reflexivity.
Qed.

Lemma act_wellFormed (mf : Z) (rt : Time.Duration) (a : Action)
  (cb : CircuitBreaker) :
  wellFormed mf rt cb -> wellFormed mf rt (act a cb).
Proof.
  unfold wellFormed.
  destruct cb as [mf0 rt0 hr st f sc lf ha h nl].
  cbn [maxFailures resetTimeout halfOpenRequests successCount state
       halfOpenAttempts].
  intros (-> & -> & -> & -> & Hha).
  destruct a as [now | now [e|] | | ]; destruct st;
    try (destruct Hha as [-> | ->]);
    try subst ha;
    unfold act, CanAttempt, RecordResult, recordFailure, recordSuccess,
      Reset, SetStateChangeHandler, transitionTo, transitionToLocked;
    cbn;
    repeat match goal with
           | |- context [if ?c then _ else _] => destruct c; cbn
           end;
    repeat split; auto.
Qed.

Lemma run_wellFormed (mf : Z) (rt : Time.Duration) (history : list Action) :
  forall cb, wellFormed mf rt cb -> wellFormed mf rt (run history cb).
Proof.
  induction history as [|a history IH]; intros cb Hcb; [exact Hcb|].
  change (run (a :: history) cb) with (run history (act a cb)).
  apply IH. apply act_wellFormed. exact Hcb.
Qed.

Lemma NewCircuitBreaker_wellFormed (mf : Z) (rt : Time.Duration) :
  wellFormed mf rt (NewCircuitBreaker mf rt).
Proof. unfold wellFormed. cbn. repeat split. Qed.

(** A breaker made by [NewCircuitBreaker] is well formed after any
    history of calls of [CanAttempt], [RecordResult], [Reset] and
    [SetStateChangeHandler]: its configuration is the one it was made
    with (one half-open request), no success is left counted, and the
    trial counter is 0 or 1 in half-open and 0 in the other states. *)
Theorem new_breaker_stays_well_formed
  (mf : Z) (rt : Time.Duration) (history : list Action) :
  wellFormed mf rt (run history (NewCircuitBreaker mf rt)).
Proof.
  assert (H : forall cb, wellFormed mf rt cb -> wellFormed mf rt (run history cb)).
  { induction history as [|a history IH]; intros cb Hcb; [exact Hcb|].
    change (run (a :: history) cb) with (run history (act a cb)).
    apply IH. apply act_wellFormed. exact Hcb. }
  apply H. unfold wellFormed. cbn. repeat split.
Qed.

(** After any history, [Reset] puts a breaker back to what
    [NewCircuitBreaker] made - closed, counters at zero, no failure time,
    the same configuration - except that the handler stays installed;
    and, unlike a transition, it tells the handler nothing, even when it
    changes the state. *)
Theorem Reset_restores_new_breaker
  (mf : Z) (rt : Time.Duration) (history : list Action) :
  let cb := run history (NewCircuitBreaker mf rt) in
  Reset cb =
    {| maxFailures := mf; resetTimeout := rt; halfOpenRequests := 1;
       state := CircuitClosed; failures := 0; successCount := 0;
       lastFailTime := zeroTime; halfOpenAttempts := 0;
       onStateChange := onStateChange cb;
       notified := notified cb |} /\
  notified (Reset cb) = notified cb /\
  forall t, CanAttempt t (Reset cb) = (true, Reset cb).
Proof.
  intros cb.
  destruct (run_wellFormed mf rt history _ (NewCircuitBreaker_wellFormed mf rt))
    as (H1 & H2 & H3 & _).
  fold cb in H1, H2, H3.
  repeat split.
  unfold Reset, set_state, set_lastFailTime, set_halfOpenAttempts,
    set_successCount, set_failures.
  cbn [maxFailures resetTimeout halfOpenRequests onStateChange notified].
  rewrite H1, H2, H3. reflexivity.
Qed.

(** [Call] on an open breaker once more than [resetTimeout] has passed
    when [CanAttempt] reads the clock, with one half-open request
    configured: the guarded function runs once and its own error is
    returned.  If it succeeds the breaker is closed with all counters at
    zero.  If it fails the breaker is open again and the time of the last
    failure is the instant [later] at which the result was recorded,
    after the function returned: [CanAttempt] answers no as long as no
    more than [resetTimeout] has passed since [later], and yes once more
    has. *)
Theorem Call_after_timeout_probes
  (World : Type) (now later : Time.Time)
  (fn : World -> option error * World)
  (cb : CircuitBreaker) (w : World) :
  state cb = CircuitOpen ->
  halfOpenRequests cb = 1 ->
  successCount cb = 0 ->
  Time.Since now (lastFailTime cb) > resetTimeout cb ->
  let '(err, cb', w') := Call now later fn cb w in
  err = fst (fn w) /\ w' = snd (fn w) /\
  match fst (fn w) with
  | None =>
      state cb' = CircuitClosed /\ failures cb' = 0 /\
      successCount cb' = 0 /\ halfOpenAttempts cb' = 0 /\
      lastFailTime cb' = lastFailTime cb
  | Some _ =>
      state cb' = CircuitOpen /\ lastFailTime cb' = later /\
      halfOpenAttempts cb' = 0 /\
      (forall t, Time.Since t later <= resetTimeout cb ->
         fst (CanAttempt t cb') = false) /\
      (forall t, Time.Since t later > resetTimeout cb ->
         fst (CanAttempt t cb') = true)
  end.
Proof.
  intros Hst Hh Hs Hel.
  destruct cb as [mf rt hr st f sc lf ha h nl].
  cbn in Hst, Hh, Hs, Hel. subst st hr sc.
  unfold Call, CanAttempt. cbn [state lastFailTime resetTimeout].
  rewrite BreakerProps.gtb_true by lia.
  cbn [negb]. destruct (fn w) as [[e|] w1]; cbn [fst snd];
    unfold RecordResult, recordFailure, recordSuccess,
      transitionTo, transitionToLocked;
    destruct h; cbn; repeat apply conj; try reflexivity;
    intros t Ht;
    first [ rewrite BreakerProps.gtb_false by exact Ht; reflexivity
          | rewrite BreakerProps.gtb_true by lia; reflexivity ].
Qed.

(** The guarded function runs from 150 to 180.  When it fails, the
    breaker refuses at 251 and at 280, a hundred after the failure was
    recorded, and admits at 281; when it succeeds, the breaker is
    closed. *)
Lemma Call_after_timeout_probes_witness :
  (let '(err, cb', w') :=
     Call 150 180 Examples.failing_fn Examples.tripped 0%nat in
   err = Some "refused"%string /\ w' = 1%nat /\
   state cb' = CircuitOpen /\ lastFailTime cb' = 180 /\
   fst (CanAttempt 251 cb') = false /\
   fst (CanAttempt 280 cb') = false /\
   fst (CanAttempt 281 cb') = true) /\
  (let '(err, cb', w') :=
     Call 150 180 Examples.counting_fn Examples.tripped 0%nat in
   err = None /\ w' = 1%nat /\
   state cb' = CircuitClosed /\ failures cb' = 0 /\
   successCount cb' = 0 /\ halfOpenAttempts cb' = 0).
Proof.
  split.
  - pose proof (Call_after_timeout_probes nat 150 180 Examples.failing_fn
                  Examples.tripped 0%nat
                  eq_refl eq_refl eq_refl eq_refl) as H.
    set (c := Call 150 180 Examples.failing_fn Examples.tripped 0%nat) in *.
    clearbody c. destruct c as [[err cb'] w'].
    cbn [Examples.failing_fn fst snd] in H.
    destruct H as (He & Hw & Hst & Hlf & _ & Hno & Hyes).
    repeat apply conj; try assumption.
    + apply Hno. vm_compute. discriminate.
    + apply Hno. vm_compute. discriminate.
    + apply Hyes. reflexivity.
  - pose proof (Call_after_timeout_probes nat 150 180 Examples.counting_fn
                  Examples.tripped 0%nat
                  eq_refl eq_refl eq_refl eq_refl) as H.
    set (c := Call 150 180 Examples.counting_fn Examples.tripped 0%nat) in *.
    clearbody c. destruct c as [[err cb'] w'].
    cbn [Examples.counting_fn fst snd] in H.
    destruct H as (He & Hw & Hst & Hf & Hs & Hh & _).
    repeat apply conj; assumption.
Defined.

End BreakerHistories.

(** ** GoroutineSupervisor: the loop in any surroundings *)

Module SupervisorRuns.
Import Supervisor.

Lemma runGoroutine_S (fuel : nat) (env : nat -> Round) (i : nat)
  (sg : SupervisedGoroutine) :
  runGoroutine (S fuel) env i sg =
    let r := env i in
    if negb (supervisorRunning r) then Some (set_running false sg, [])
    else if doneAfterCall r
    then Some (set_running false sg, [EvInvoke; EvCancelled])
    else
      match result r with
      | None => Some (set_running false sg, [EvInvoke; EvCompleted])
      | Some err =>
          let sg1 := set_failure err sg in
          let n := restartCount sg1 in
          let evs := failureEvents (Policy sg) err n in
          if n >? MaxRestarts (Policy sg)
          then Some (set_running false sg1, evs ++ [EvGiveUp])
          else
            let delay := calculateBackoff sg1 in
            let sg2 := set_lastRestart (Time.Add (clock r) delay) sg1 in
            if doneDuringWait r
            then Some (set_running false sg2, evs ++ [EvCancelled])
            else
              match runGoroutine fuel env (S i) sg2 with
              | None => None
              | Some (sg3, rest) => Some (sg3, evs ++ EvWait delay :: rest)
              end
      end.
Proof. reflexivity. Qed.

Lemma failuresLogged_app (a b : list Event) :
  failuresLogged (a ++ b) = failuresLogged a ++ failuresLogged b.
Proof.
  induction a as [|e a IH]; [reflexivity|].
  destruct e; cbn; rewrite IH; reflexivity.
Qed.

Lemma callbacks_app (a b : list Event) :
  callbacks (a ++ b) = callbacks a ++ callbacks b.
Proof.
  induction a as [|e a IH]; [reflexivity|].
  destruct e; cbn; rewrite IH; reflexivity.
Qed.

Lemma failureEvents_failuresLogged p err n :
  failuresLogged (failureEvents p err n) = [(err, n)].
Proof. unfold failureEvents. destruct (OnFailure p); reflexivity. Qed.

Lemma failureEvents_callbacks p err n :
  callbacks (failureEvents p err n) = if OnFailure p then [(err, n)] else [].
Proof. unfold failureEvents. destruct (OnFailure p); reflexivity. Qed.

Lemma delays_app (a b : list Event) : delays (a ++ b) = delays a ++ delays b.
Proof.
  induction a as [|e a IH]; [reflexivity|].
  destruct e; cbn; rewrite IH; reflexivity.
Qed.

Lemma failureEvents_delays p err n : delays (failureEvents p err n) = [].
Proof. unfold failureEvents. destruct (OnFailure p); reflexivity. Qed.

Lemma restarts_wait (d : Time.Duration) (tr : list Event) :
  restarts (EvWait d :: tr) = 1 + restarts tr.
Proof. unfold restarts. cbn [List.filter isWait List.length]. lia. Qed.

Lemma invocations_wait (d : Time.Duration) (tr : list Event) :
  invocations (EvWait d :: tr) = invocations tr.
Proof. reflexivity. Qed.

(** Bookkeeping of the events of a turn that ends the loop after a
    failure, and of one that goes on. *)
Ltac tally :=
  rewrite ?SupervisorProps.restarts_app, ?SupervisorProps.invocations_app,
    ?SupervisorProps.counts_app, ?failuresLogged_app, ?callbacks_app,
    ?SupervisorProps.failureEvents_restarts,
    ?SupervisorProps.failureEvents_invocations,
    ?SupervisorProps.failureEvents_counts,
    ?failureEvents_failuresLogged, ?failureEvents_callbacks,
    ?delays_app, ?failureEvents_delays,
    ?restarts_wait, ?invocations_wait;
  change (restarts [EvGiveUp]) with 0;
  change (restarts [EvCancelled]) with 0;
  change (invocations [EvGiveUp]) with 0;
  change (invocations [EvCancelled]) with 0;
  cbn [counts failuresLogged callbacks delays List.app List.length].

(** The loop with [k] restarts left in the budget, in any surroundings. *)
Lemma run_ends (k : nat) :
  forall env i sg,
    GoInt.min_int <= restartCount sg < GoInt.max_int ->
    MaxRestarts (Policy sg) < GoInt.max_int ->
    (Z.to_nat (MaxRestarts (Policy sg) - restartCount sg) <= k)%nat ->
    exists sg' tr,
      runGoroutine (S k) env i sg = Some (sg', tr) /\
      running sg' = false /\
      Policy sg' = Policy sg /\
      restarts tr <= Z.max 0 (MaxRestarts (Policy sg) - restartCount sg) /\
      invocations tr <= restarts tr + 1 /\
      restartCount sg' = restartCount sg + Z.of_nat (List.length (counts tr)) /\
      restarts tr <= Z.of_nat (List.length (counts tr)) <= restarts tr + 1.
Proof.
  induction k as [|k IH]; intros env i sg Hc Hmax Hk;
    rewrite runGoroutine_S; cbv zeta;
    (destruct (negb (supervisorRunning (env i)));
     [ eexists _, _; split; [reflexivity|];
       cbn; repeat split; lia |]);
    (destruct (doneAfterCall (env i));
     [ eexists _, _; split; [reflexivity|];
       cbn; repeat split; lia |]);
    (destruct (result (env i)) as [err|];
     [| eexists _, _; split; [reflexivity|];
        cbn; repeat split; lia ]);
    assert (Hincr : GoInt.incr (restartCount sg) = restartCount sg + 1)
      by (apply incr_exact; lia);
    cbn [set_failure restartCount Policy]; rewrite Hincr;
    (destruct (restartCount sg + 1 >? MaxRestarts (Policy sg)) eqn:Hgive;
     [ eexists _, _; split; [reflexivity|]; tally;
       cbn [set_running set_failure running restartCount Policy];
       rewrite ?Hincr; repeat split; try reflexivity; lia |]);
    rewrite Z.gtb_ltb in Hgive; apply Z.ltb_ge in Hgive;
    (destruct (doneDuringWait (env i));
     [ eexists _, _; split; [reflexivity|]; tally;
       cbn [set_running set_lastRestart set_failure running restartCount
            Policy];
       rewrite ?Hincr; repeat split; try reflexivity; lia |]).
  - exfalso. lia.
  - match goal with
    | |- context [runGoroutine (S k) env (S i) ?s] =>
        destruct (IH env (S i) s)
          as (sg' & tr & Hr & Hru & Hpo & Hre & Hin & Hrc & Hco);
        [ cbn [set_lastRestart set_failure restartCount Policy];
          rewrite ?Hincr; lia .. |]
    end.
    rewrite Hr. eexists _, _. split; [reflexivity|].
    cbn [set_lastRestart set_failure restartCount Policy] in *.
    rewrite Hincr in *. tally.
    repeat split; try assumption; lia.
Qed.

(** Whatever the work function returns and whenever the context is
    cancelled or the supervisor stopped, the loop of a worker ends: with a
    restart count [c] short of the largest [int] it takes at most
    [MaxRestarts - c + 1] turns.  It leaves the worker marked not running;
    it has waited and restarted at most [MaxRestarts - c] times; the work
    function was never called more than once per restart plus once; and
    the restart count has grown by exactly the number of failures logged
    (cancellations and a nil return are not counted). *)
Theorem loop_ends_within_budget
  (env : nat -> Round) (i : nat) (sg : SupervisedGoroutine) :
  GoInt.min_int <= restartCount sg < GoInt.max_int ->
  MaxRestarts (Policy sg) < GoInt.max_int ->
  exists sg' tr,
    (forall fuel,
       (Z.to_nat (MaxRestarts (Policy sg) - restartCount sg) < fuel)%nat ->
       runGoroutine fuel env i sg = Some (sg', tr)) /\
    running sg' = false /\
    restarts tr <= Z.max 0 (MaxRestarts (Policy sg) - restartCount sg) /\
    invocations tr <= restarts tr + 1 /\
    restartCount sg' = restartCount sg + Z.of_nat (List.length (counts tr)) /\
    restarts tr <= Z.of_nat (List.length (counts tr)) <= restarts tr + 1.
Proof.
  intros Hc Hmax.
  destruct (run_ends (Z.to_nat (MaxRestarts (Policy sg) - restartCount sg))
              env i sg Hc Hmax (Nat.le_refl _))
    as (sg' & tr & Hr & Hru & _ & Hre & Hin & Hrc & Hco).
  exists sg', tr. repeat split; try assumption; try lia.
  intros fuel Hfuel.
  apply (SupervisorProps.runGoroutine_fuel_mono _ _ _ _ _ Hr). lia.
Qed.

Lemma loop_ends_within_budget_witness :
  exists sg' tr,
    (forall fuel, (2 < fuel)%nat ->
       runGoroutine fuel Examples.env_flaky 0
         (Examples.worker_at Examples.policy_two 0) = Some (sg', tr)) /\
    running sg' = false /\
    restarts tr <= Z.max 0 (2 - 0) /\
    invocations tr <= restarts tr + 1 /\
    restartCount sg' = 0 + Z.of_nat (List.length (counts tr)) /\
    restarts tr <= Z.of_nat (List.length (counts tr)) <= restarts tr + 1.
Proof.
  apply (loop_ends_within_budget Examples.env_flaky 0%nat
           (Examples.worker_at Examples.policy_two 0)).
  - unfold GoInt.min_int, GoInt.max_int. cbn. lia.
  - unfold GoInt.max_int. cbn. lia.
Defined.

(** A worker that fails once and then returns nil: one restart, two
    calls, and the loop ends for good with the restart count at 1. *)
Lemma run_flaky :
  exists sg',
    runGoroutine 3 Examples.env_flaky 0
      (Examples.worker_at Examples.policy_two 0) =
    Some (sg',
          [EvInvoke; EvFailed "boom"%string 1; EvOnFailure "boom"%string 1;
           EvWait (10 * millisecond);
           EvInvoke; EvCompleted]) /\
    running sg' = false /\ restartCount sg' = 1.
Proof. eexists. vm_compute. repeat split. Qed.

Lemma last_map_app_one {A : Type} (l : list A) (x d : A) :
  List.last (l ++ [x]) d = x.
Proof. apply List.last_last. Qed.

Lemma Some_pair_inv {A B : Type} (a c : A) (b d : B) :
  Some (a, b) = Some (c, d) -> a = c /\ b = d.
Proof. intros H. inversion H. split; reflexivity. Qed.

Lemma last_cons_default {A : Type} (l : list A) :
  forall x d, List.last (x :: l) d = List.last l x.
Proof.
  induction l as [|y l IH]; intros x d; [reflexivity|].
  change (List.last (x :: y :: l) d) with (List.last (y :: l) d).
  rewrite (IH y d), (IH y x). reflexivity.
Qed.

(** What a finished run has done, in any surroundings. *)
Lemma run_accounts (fuel : nat) :
  forall env i sg sg' tr,
    runGoroutine fuel env i sg = Some (sg', tr) ->
    running sg' = false /\
    Policy sg' = Policy sg /\ ID sg' = ID sg /\ Name sg' = Name sg /\
    callbacks tr =
      (if OnFailure (Policy sg) then failuresLogged tr else []) /\
    lastError sg' =
      List.last (List.map (fun f => Some (fst f)) (failuresLogged tr))
                (lastError sg) /\
    (0 <= restartCount sg < GoInt.max_int ->
     MaxRestarts (Policy sg) < GoInt.max_int ->
     delays tr =
       List.map (delayFor (Policy sg))
         (List.firstn (Z.to_nat (restarts tr)) (counts tr))).
Proof.
  induction fuel as [|fuel IH]; intros env i sg sg' tr Hrun; [discriminate|].
  rewrite runGoroutine_S in Hrun. cbv zeta in Hrun.
  destruct (negb (supervisorRunning (env i))).
  { apply Some_pair_inv in Hrun. destruct Hrun as [<- <-]. cbn. destruct (OnFailure (Policy sg)); repeat split. }
  destruct (doneAfterCall (env i)).
  { apply Some_pair_inv in Hrun. destruct Hrun as [<- <-]. cbn. destruct (OnFailure (Policy sg)); repeat split. }
  destruct (result (env i)) as [err|].
  2:{ apply Some_pair_inv in Hrun. destruct Hrun as [<- <-]. cbn. destruct (OnFailure (Policy sg)); repeat split. }
  destruct (_ >? _) eqn:Hgive.
  { apply Some_pair_inv in Hrun. destruct Hrun as [<- <-]. tally.
    cbn [set_running set_failure running Policy ID Name lastError
         List.map fst List.last delays List.app].
    destruct (OnFailure (Policy sg)); repeat split. }
  destruct (doneDuringWait (env i)).
  { apply Some_pair_inv in Hrun. destruct Hrun as [<- <-]. tally.
    cbn [set_running set_lastRestart set_failure running Policy ID Name
         lastError List.map fst List.last delays List.app].
    destruct (OnFailure (Policy sg)); repeat split. }
  destruct (runGoroutine fuel env (S i) _) as [[sg3 rest]|] eqn:Hrest;
    [|discriminate].
  apply Some_pair_inv in Hrun. destruct Hrun as [<- <-].
  apply IH in Hrest.
  cbn [set_lastRestart set_failure Policy ID Name lastError restartCount]
    in Hrest, Hgive.
  destruct Hrest as (R1 & R2 & R3 & R4 & R5 & R6 & R7).
  tally. cbn [List.map fst].
  repeat split; try assumption.
  - rewrite R5. destruct (OnFailure (Policy sg)); reflexivity.
  - rewrite R6. symmetry. apply last_cons_default.
  - intros Hc Hmax.
    rewrite Z.gtb_ltb in Hgive. apply Z.ltb_ge in Hgive.
    assert (Hincr : GoInt.incr (restartCount sg) = restartCount sg + 1)
      by (apply incr_exact; unfold GoInt.min_int; lia).
    rewrite Hincr in *.
    assert (Hr0 : 0 <= restarts rest) by (unfold restarts; lia).
    replace (Z.to_nat (0 + (1 + restarts rest)))
      with (S (Z.to_nat (restarts rest))) by lia.
    cbn [List.firstn List.map]. rewrite <- R7 by lia.
    reflexivity.
Qed.

(** In any finished run the [OnFailure] callback, when installed, was
    called exactly once for each failure logged, in order, with that
    failure's error and the restart count just reached - the failure that
    exhausts the budget included - and never otherwise; the last error of
    the worker is the error of the last failure, or the old one if there
    was none; the policy, id and name are untouched. *)
Theorem callback_once_per_failure
  (fuel : nat) (env : nat -> Round) (i : nat)
  (sg sg' : SupervisedGoroutine) (tr : list Event) :
  runGoroutine fuel env i sg = Some (sg', tr) ->
  callbacks tr = (if OnFailure (Policy sg) then failuresLogged tr else []) /\
  lastError sg' =
    List.last (List.map (fun f => Some (fst f)) (failuresLogged tr))
              (lastError sg) /\
  Policy sg' = Policy sg /\ ID sg' = ID sg /\ Name sg' = Name sg.
Proof.
  intros Hrun.
  destruct (run_accounts fuel env i sg sg' tr Hrun)
    as (_ & H2 & H3 & H4 & H5 & H6 & _).
  repeat split; assumption.
Qed.

Lemma callback_once_per_failure_witness :
  callbacks
    [EvInvoke; EvFailed "boom"%string 1; EvOnFailure "boom"%string 1;
     EvWait (10 * millisecond); EvInvoke; EvCompleted]
  = [("boom"%string, 1)].
Proof.
  eassert (Hrun : runGoroutine 3 Examples.env_flaky 0
                    (Examples.worker_at Examples.policy_two 0)
                  = Some (_, _)) by reflexivity.
  destruct (callback_once_per_failure _ _ _ _ _ _ Hrun) as (H & _).
  exact H.
Defined.

(** In any finished run every wait before a restart lasted what
    [calculateBackoff] gives for the restart count reached by the failure
    just before it: the delays are those of the first counts logged, one
    for each restart. *)
Theorem waits_follow_calculateBackoff
  (fuel : nat) (env : nat -> Round) (i : nat)
  (sg sg' : SupervisedGoroutine) (tr : list Event) :
  runGoroutine fuel env i sg = Some (sg', tr) ->
  0 <= restartCount sg < GoInt.max_int ->
  MaxRestarts (Policy sg) < GoInt.max_int ->
  delays tr =
    List.map (delayFor (Policy sg))
      (List.firstn (Z.to_nat (restarts tr)) (counts tr)) /\
  delayFor (Policy sg) (restartCount sg) = calculateBackoff sg.
Proof.
  intros Hrun Hc Hmax.
  destruct (run_accounts fuel env i sg sg' tr Hrun)
    as (_ & _ & _ & _ & _ & _ & H).
  split; [apply H; assumption | reflexivity].
Qed.

Lemma waits_follow_calculateBackoff_witness :
  [10 * millisecond; 20 * millisecond] =
  List.map (delayFor Examples.policy_two) [1; 2].
Proof.
  eassert (Hrun : runGoroutine 3 Examples.env_failing 0
                    (Examples.worker_at Examples.policy_two 0)
                  = Some (_, _)) by reflexivity.
  destruct (waits_follow_calculateBackoff _ _ _ _ _ _ Hrun) as (H & _).
  - unfold GoInt.max_int. cbn. lia.
  - unfold GoInt.max_int. cbn. lia.
  - exact H.
Defined.

Lemma backoffLoop_capped (p : RestartPolicy) (k : nat) :
  forall d,
    d <= MaxBackoffDelay p -> backoffLoop p k d <= MaxBackoffDelay p.
Proof.
  induction k as [|k IH]; intros d Hd; cbn [backoffLoop]; [exact Hd|].
  destruct (_ >? _) eqn:Hcap; [lia|].
  apply IH. rewrite Z.gtb_ltb in Hcap. apply Z.ltb_ge in Hcap. exact Hcap.
Qed.

(** From the second restart on, the delay never exceeds [MaxBackoffDelay],
    whatever the base delay and the factor (negative, below one, not a
    number); the first restart waits the base delay as configured. *)
Theorem backoff_capped_from_second_restart (sg : SupervisedGoroutine) :
  (2 <= restartCount sg ->
     calculateBackoff sg <= MaxBackoffDelay (Policy sg)) /\
  (restartCount sg <= 1 ->
     calculateBackoff sg = RestartDelay (Policy sg)).
Proof.
  split; intros H; unfold calculateBackoff.
  - destruct (Z.to_nat (restartCount sg - 1)) as [|k] eqn:E; [lia|].
    cbn [backoffLoop].
    destruct (_ >? _) eqn:Hcap; [lia|].
    apply backoffLoop_capped.
    rewrite Z.gtb_ltb in Hcap. apply Z.ltb_ge in Hcap. exact Hcap.
  - replace (Z.to_nat (restartCount sg - 1)) with 0%nat by lia. reflexivity.
Qed.

Lemma backoff_capped_from_second_restart_witness :
  calculateBackoff (Examples.worker_at Examples.policy_over_cap 2)
    <= 5 * second.
Proof.
  apply (proj1 (backoff_capped_from_second_restart
                  (Examples.worker_at Examples.policy_over_cap 2))).
  cbn. lia.
Defined.

End SupervisorRuns.

(** ** GoroutineSupervisor: the table of workers *)

From Stdlib Require Import Permutation.

Module RegistryProps.
Import Registry.

Lemma lookup_app_one (id k : string) (v : Supervisor.SupervisedGoroutine)
  (l : list (string * Supervisor.SupervisedGoroutine)) :
  lookup id (l ++ [(k, v)]) =
    match lookup id l with
    | Some sg => Some sg
    | None => if String.eqb k id then Some v else None
    end.
Proof.
  induction l as [|[k0 v0] l IH]; cbn [lookup List.app]; [reflexivity|].
  destruct (String.eqb k0 id); [reflexivity | exact IH].
Qed.

Lemma lookup_None_not_in (id : string)
  (l : list (string * Supervisor.SupervisedGoroutine)) :
  lookup id l = None -> ~ List.In id (List.map fst l).
Proof.
  induction l as [|[k v] l IH]; cbn [lookup List.map fst List.In]; intros H.
  - intros [].
  - destruct (String.eqb k id) eqn:E; [discriminate|].
    apply String.eqb_neq in E. intros [Hk | Hin]; [congruence|].
    exact (IH H Hin).
Qed.

(** [Register] refuses an id that is in the table, with the error
    "goroutine with ID <id> already registered" and no change.  For a new
    id it returns nil and adds a worker that is not running, with a
    restart count of 0 and no error; every other entry is found as
    before, the ids stay distinct, and registering the same id again is
    refused and keeps the first registration. *)
Theorem Register_adds_once
  (id name : string) (policy : Supervisor.RestartPolicy)
  (gs : GoroutineSupervisor) :
  (forall sg, lookup id (goroutines gs) = Some sg ->
     Register id name policy gs =
       (Some (String.append "goroutine with ID "
                (String.append id " already registered")), gs)) /\
  (lookup id (goroutines gs) = None ->
     let gs' := snd (Register id name policy gs) in
     fst (Register id name policy gs) = None /\
     lookup id (goroutines gs') =
       Some (Supervisor.newSupervisedGoroutine id name policy) /\
     (forall id', id' <> id ->
        lookup id' (goroutines gs') = lookup id' (goroutines gs)) /\
     ids gs' = ids gs ++ [id] /\
     (List.NoDup (ids gs) -> List.NoDup (ids gs')) /\
     running gs' = running gs /\
     forall name2 policy2,
       Register id name2 policy2 gs' =
         (Some (String.append "goroutine with ID "
                  (String.append id " already registered")), gs')).
Proof.
  split.
  - intros sg Hsg. unfold Register. rewrite Hsg. reflexivity.
  - intros Hnone gs'.
    assert (Hreg : Register id name policy gs =
                   (None,
                    {| goroutines :=
                         goroutines gs ++
                         [(id, Supervisor.newSupervisedGoroutine id name policy)];
                       running := running gs |}))
      by (unfold Register; rewrite Hnone; reflexivity).
    subst gs'. rewrite Hreg. cbn [fst snd goroutines running].
    assert (Hfound : lookup id
                       (goroutines gs ++
                        [(id, Supervisor.newSupervisedGoroutine id name policy)])
                     = Some (Supervisor.newSupervisedGoroutine id name policy))
      by (rewrite lookup_app_one, Hnone, String.eqb_refl; reflexivity).
    repeat split.
    + exact Hfound.
    + intros id' Hne. rewrite lookup_app_one.
      destruct (lookup id' (goroutines gs)); [reflexivity|].
      replace (String.eqb id id') with false
        by (symmetry; apply String.eqb_neq; congruence).
      reflexivity.
    + unfold ids. cbn [goroutines]. rewrite List.map_app. reflexivity.
    + unfold ids. cbn [goroutines]. rewrite List.map_app. cbn [List.map fst].
      intros Hnd. apply List.NoDup_app.
      * exact Hnd.
      * constructor; [intros [] | constructor].
      * intros x Hin [Hx | []]. subst x.
        exact (lookup_None_not_in id _ Hnone Hin).
    + intros name2 policy2. unfold Register. cbn [goroutines].
      rewrite Hfound. reflexivity.
Qed.

Lemma Register_adds_once_witness :
  let gs := snd (Register "reader" "Reader" Supervisor.DefaultRestartPolicy
                   NewGoroutineSupervisor) in
  Register "reader" "Other" Examples.policy_two gs =
    (Some "goroutine with ID reader already registered"%string, gs).
Proof.
  intros gs.
  apply (proj1 (Register_adds_once "reader" "Other" Examples.policy_two gs)
           (Supervisor.newSupervisedGoroutine "reader" "Reader"
              Supervisor.DefaultRestartPolicy)).
  reflexivity.
Defined.

(** The loop of [GetMetrics] from any starting tally. *)
Lemma fold_countOne (l : list (string * Supervisor.SupervisedGoroutine)) :
  forall m0,
    let m := List.fold_left countOne l m0 in
    TotalGoroutines m = TotalGoroutines m0 /\
    GoInt.wrap (RunningGoroutines m)
      = GoInt.wrap (RunningGoroutines m0 + countRunning l) /\
    GoInt.wrap (StoppedGoroutines m)
      = GoInt.wrap (StoppedGoroutines m0 + countStopped l) /\
    GoInt.wrap (TotalRestarts m)
      = GoInt.wrap (TotalRestarts m0 + sumRestarts l) /\
    (GoInt.in_range (RunningGoroutines m0) ->
       GoInt.in_range (RunningGoroutines m)) /\
    (GoInt.in_range (StoppedGoroutines m0) ->
       GoInt.in_range (StoppedGoroutines m)) /\
    (GoInt.in_range (TotalRestarts m0) -> GoInt.in_range (TotalRestarts m)).
Proof.
  induction l as [|[k sg] l IH]; intros m0.
  - unfold countRunning, countStopped, sumRestarts.
    cbn [List.fold_left List.filter List.length List.fold_right Z.of_nat].
    cbv zeta. rewrite !Z.add_0_r. repeat apply conj; auto.
  - cbn [List.fold_left]. cbv zeta.
    destruct (IH (countOne m0 (k, sg))) as (H1 & H2 & H3 & H4 & H5 & H6 & H7).
    cbv zeta in *.
    set (m1 := List.fold_left countOne l (countOne m0 (k, sg))) in *.
    cbn [countOne snd TotalGoroutines RunningGoroutines StoppedGoroutines
         TotalRestarts] in H1, H2, H3, H4, H5, H6, H7.
    unfold countRunning, countStopped, sumRestarts in *.
    cbn [List.filter List.fold_right snd].
    unfold GoInt.incr, GoInt.add in *.
    destruct (Supervisor.running sg); cbn [negb List.length];
      repeat apply conj; try assumption;
      try (intros; first [apply H5 | apply H6 | apply H7];
           first [assumption | apply wrap_in_range]).
    + rewrite H2, wrap_add_l. f_equal. lia.
    + rewrite H4, wrap_add_l. f_equal. lia.
    + rewrite H3, wrap_add_l. f_equal. lia.
    + rewrite H4, wrap_add_l. f_equal. lia.
Qed.

(** [GetMetrics]: the total is the size of the table; the running and
    stopped tallies are the numbers of workers marked and not marked
    running, so that (for a table that an [int] can count) they add up to
    the total; the restarts are the sum of the restart counts, in 64
    bits. *)
Theorem GetMetrics_tallies (gs : GoroutineSupervisor) :
  let l := goroutines gs in
  let m := GetMetrics gs in
  TotalGoroutines m = Z.of_nat (List.length l) /\
  RunningGoroutines m = GoInt.wrap (countRunning l) /\
  StoppedGoroutines m = GoInt.wrap (countStopped l) /\
  TotalRestarts m = GoInt.wrap (sumRestarts l) /\
  (Z.of_nat (List.length l) <= GoInt.max_int ->
     RunningGoroutines m = countRunning l /\
     StoppedGoroutines m = countStopped l /\
     RunningGoroutines m + StoppedGoroutines m = TotalGoroutines m).
Proof.
  intros l m. subst m. unfold GetMetrics. fold l.
  set (m0 := {| TotalGoroutines := Z.of_nat (List.length l);
                RunningGoroutines := 0; StoppedGoroutines := 0;
                TotalRestarts := 0 |}).
  destruct (fold_countOne l m0) as (H1 & H2 & H3 & H4 & H5 & H6 & H7).
  cbv zeta in *.
  assert (Hz : GoInt.in_range 0)
    by (unfold GoInt.in_range, GoInt.min_int, GoInt.max_int; lia).
  rewrite (wrap_id _ (H5 Hz)) in H2.
  rewrite (wrap_id _ (H6 Hz)) in H3.
  rewrite (wrap_id _ (H7 Hz)) in H4.
  subst m0.
  cbn [RunningGoroutines StoppedGoroutines TotalRestarts TotalGoroutines] in *.
  rewrite Z.add_0_l in H2, H3, H4.
  assert (Hsum : countRunning l + countStopped l = Z.of_nat (List.length l)).
  { unfold countRunning, countStopped. clear.
    induction l as [|[k sg] l IH]; [reflexivity|].
    cbn [List.filter snd]. destruct (Supervisor.running sg);
      cbn [negb List.length]; lia. }
  assert (Hr0 : 0 <= countRunning l) by (unfold countRunning; lia).
  assert (Hs0 : 0 <= countStopped l) by (unfold countStopped; lia).
  repeat split; try assumption.
  - rewrite H2. apply wrap_id.
    unfold GoInt.in_range, GoInt.min_int in *. lia.
  - rewrite H3. apply wrap_id.
    unfold GoInt.in_range, GoInt.min_int in *. lia.
  - rewrite H1, H2, H3, !wrap_id;
      unfold GoInt.in_range, GoInt.min_int in *; cbn [TotalGoroutines]; lia.
Qed.

Lemma GetMetrics_tallies_witness :
  let gs := Examples.two_workers in
  RunningGoroutines (GetMetrics gs) = 1 /\
  StoppedGoroutines (GetMetrics gs) = 1 /\
  RunningGoroutines (GetMetrics gs) + StoppedGoroutines (GetMetrics gs)
    = TotalGoroutines (GetMetrics gs).
Proof.
  intros gs.
  destruct (GetMetrics_tallies gs) as (_ & _ & _ & _ & H).
  apply H. unfold GoInt.max_int. cbn. lia.
Defined.

Lemma allHealthy_Forall (l : list (string * Supervisor.SupervisedGoroutine)) :
  allHealthy l = true <-> List.Forall (fun e => workerHealthy (snd e)) l.
Proof.
  induction l as [|[k sg] l IH]; cbn [allHealthy].
  - split; [constructor | reflexivity].
  - unfold workerHealthy at 1.
    destruct (Supervisor.running sg) eqn:Hrun; cbn [negb].
    + destruct (_ >? _) eqn:Hcnt.
      * split; [discriminate|]. intros H. inversion H as [|? ? [_ Hle] _]; subst.
        cbn [snd] in Hle. apply Z.gtb_lt in Hcnt. lia.
      * rewrite Z.gtb_ltb in Hcnt. apply Z.ltb_ge in Hcnt.
        rewrite IH. split.
        -- intros H. constructor; [|exact H].
           cbn [snd]. split; [exact Hrun | exact Hcnt].
        -- intros H. inversion H; assumption.
    + split; [discriminate|]. intros H. inversion H as [|? ? [Hr _] _]; subst.
      cbn [snd] in Hr. congruence.
Qed.

(** [IsHealthy] answers yes exactly when every worker in the table is
    marked running and has a restart count of at most half its
    [MaxRestarts] (rounded toward zero); so an empty table is healthy,
    and the answer does not depend on the order in which the table is
    walked. *)
Theorem IsHealthy_iff_all_workers_healthy (gs : GoroutineSupervisor) :
  (IsHealthy gs = true <->
     List.Forall (fun e => workerHealthy (snd e)) (goroutines gs)) /\
  IsHealthy NewGoroutineSupervisor = true /\
  (forall l', Permutation (goroutines gs) l' -> allHealthy l' = IsHealthy gs).
Proof.
  split; [apply allHealthy_Forall|]. split; [reflexivity|].
  intros l' Hperm. unfold IsHealthy.
  destruct (allHealthy (goroutines gs)) eqn:E.
  - apply allHealthy_Forall. apply allHealthy_Forall in E.
    rewrite List.Forall_forall in *. intros x Hx. apply E.
    apply (Permutation_in _ (Permutation_sym Hperm) Hx).
  - destruct (allHealthy l') eqn:E'; [|reflexivity].
    apply allHealthy_Forall in E'.
    assert (allHealthy (goroutines gs) = true).
    { apply allHealthy_Forall. rewrite List.Forall_forall in *.
      intros x Hx. apply E'. apply (Permutation_in _ Hperm Hx). }
    congruence.
Qed.

Lemma allHealthy_update_stopped (id : string)
  (sg' : Supervisor.SupervisedGoroutine)
  (l : list (string * Supervisor.SupervisedGoroutine)) :
  lookup id l <> None ->
  Supervisor.running sg' = false ->
  allHealthy (update id (fun _ => sg') l) = false.
Proof.
  intros Hin Hstop.
  induction l as [|[k v] l IH]; cbn [lookup update] in *; [congruence|].
  destruct (String.eqb k id); cbn [allHealthy].
  - rewrite Hstop. reflexivity.
  - rewrite (IH Hin).
    destruct (negb (Supervisor.running v)); [reflexivity|].
    destruct (_ >? _); reflexivity.
Qed.

(** Once the loop of a registered worker has ended - budget exhausted,
    context cancelled, supervisor stopped, or the work function returned
    nil - [IsHealthy] answers no. *)
Theorem ended_worker_makes_supervisor_unhealthy
  (gs : GoroutineSupervisor) (id : string)
  (sg sg' : Supervisor.SupervisedGoroutine)
  (fuel : nat) (env : nat -> Supervisor.Round) (i : nat)
  (tr : list Supervisor.Event) :
  lookup id (goroutines gs) = Some sg ->
  Supervisor.runGoroutine fuel env i sg = Some (sg', tr) ->
  IsHealthy {| goroutines := update id (fun _ => sg') (goroutines gs);
               running := running gs |} = false.
Proof.
  intros Hfound Hrun. unfold IsHealthy. cbn [goroutines].
  apply allHealthy_update_stopped.
  - rewrite Hfound. discriminate.
  - apply (SupervisorRuns.run_accounts fuel env i sg sg' tr Hrun).
Qed.

Lemma ended_worker_makes_supervisor_unhealthy_witness :
  exists sg',
    IsHealthy
      {| goroutines := update "reader" (fun _ => sg')
                         (goroutines Examples.two_workers);
         running := running Examples.two_workers |} = false.
Proof.
  eassert (Hrun : Supervisor.runGoroutine 3 Examples.env_flaky 0
                    (Examples.worker_at Examples.policy_two 0)
                  = Some (_, _)) by reflexivity.
  eexists.
  apply (ended_worker_makes_supervisor_unhealthy Examples.two_workers
           "reader" _ _ _ _ _ _ eq_refl Hrun).
Defined.

(** [Start] on a supervisor that is running returns the error
    "supervisor already running" and changes nothing.  Otherwise it
    returns nil, the supervisor is running, the table has the same ids,
    every worker is marked running with its other fields untouched, a
    loop is spawned for exactly the workers that were not marked running,
    and a second [Start] is refused. *)
Theorem Start_runs_once (gs : GoroutineSupervisor) :
  (running gs = true ->
     Start gs = (Some "supervisor already running"%string, gs, [])) /\
  (running gs = false ->
     let '(err, gs', spawned) := Start gs in
     err = None /\
     running gs' = true /\
     ids gs' = ids gs /\
     (forall id sg, lookup id (goroutines gs) = Some sg ->
        lookup id (goroutines gs') = Some (Supervisor.set_running true sg)) /\
     spawned =
       List.map fst
         (List.filter (fun e => negb (Supervisor.running (snd e)))
            (goroutines gs)) /\
     Start gs' = (Some "supervisor already running"%string, gs', [])).
Proof.
  split; intros Hrun; unfold Start; rewrite Hrun; [reflexivity|].
  repeat split.
  - unfold ids. cbn [goroutines]. rewrite List.map_map. reflexivity.
  - cbn [goroutines]. intros id sg.
    induction (goroutines gs) as [|[k v] l IH]; cbn [lookup List.map fst snd];
      [discriminate|].
    destruct (String.eqb k id); [|exact IH].
    intros H. injection H as ->. unfold startGoroutine.
    destruct (Supervisor.running sg) eqn:E; cbn [fst]; [|reflexivity].
    destruct sg; cbn in E; subst; reflexivity.
  - f_equal. apply List.filter_ext. intros [k v]. unfold startGoroutine.
    cbn [snd]. destruct (Supervisor.running v); reflexivity.
Qed.

Lemma Start_runs_once_witness :
  Start (snd (fst (Start Examples.two_workers)))
  = (Some "supervisor already running"%string,
     snd (fst (Start Examples.two_workers)), []).
Proof.
  apply (proj1 (Start_runs_once (snd (fst (Start Examples.two_workers))))).
  reflexivity.
Defined.

End RegistryProps.

(** ** HealthMonitor: histories *)

Module HealthHistories.
Import Health.

Lemma step_leaves_status (s : Step) (hm hm' : HealthMonitor) :
  step s hm = Some hm' -> isCheck s = false -> status hm' = status hm.
Proof.
  intros Hstep Hnot.
  destruct s as [r | latency | now | fn | ]; cbn [step] in Hstep;
    try discriminate Hnot; try (injection Hstep as <-; reflexivity).
  - injection Hstep as <-. destruct r; reflexivity.
  - unfold RecordLatency in Hstep.
    destruct (trimWindow _ _); [|discriminate].
    destruct (GoInt.div _ _); [|discriminate].
    injection Hstep as <-. reflexivity.
Qed.

(** Only the periodic check touches the status: the event methods and
    [RecordLatency], the setters included, leave the status and the log
    of notifications as they were - so failures recorded from traffic
    show in the status only at the next check. *)
Theorem only_the_check_changes_status
  (s : Step) (hm hm' : HealthMonitor) :
  step s hm = Some hm' ->
  isCheck s = false ->
  status hm' = status hm /\
  statusChanges hm' = statusChanges hm /\
  unhealthyThreshold hm' = unhealthyThreshold hm /\
  degradedThreshold hm' = degradedThreshold hm.
Proof.
  intros Hstep Hnot.
  destruct s as [r | latency | now | fn | ]; cbn [step] in Hstep;
    try discriminate Hnot.
  - injection Hstep as <-. destruct r; repeat split.
  - unfold RecordLatency in Hstep.
    destruct (trimWindow _ _); [|discriminate].
    destruct (GoInt.div _ _); [|discriminate].
    injection Hstep as <-. repeat split.
  - injection Hstep as <-. repeat split.
  - injection Hstep as <-. repeat split.
Qed.

Lemma only_the_check_changes_status_witness :
  status Examples.two_failures = HealthUnknown /\
  statusChanges Examples.two_failures = [] /\
  unhealthyThreshold Examples.two_failures = 5 /\
  degradedThreshold Examples.two_failures = 3.
Proof.
  apply (only_the_check_changes_status (StRecord RecMessageFailed)
           (RecordMessageFailed (NewHealthMonitor Supervisor.second))
           Examples.two_failures); reflexivity.
Defined.

(** A periodic check spawns the status handler exactly when a handler is
    installed and the check changes the status, once, with the old and
    the new status; a check that leaves the status as it is, or finds no
    probe, notifies nobody. *)
Theorem check_notifies_once_per_change (now : Time.Time) (hm : HealthMonitor) :
  statusChanges (performHealthCheck now hm) =
    statusChanges hm ++
    (if onStatusChange hm &&
        negb (HealthStatus_eqb (status hm) (status (performHealthCheck now hm)))
     then [(status hm, status (performHealthCheck now hm))]
     else []).
Proof.
  unfold performHealthCheck.
  destruct (healthCheckFunc hm) as [probe|].
  - set (m1 := match probe now with
               | Some err => probeFailed now err (metrics hm)
               | None => set_ConsecutiveErrors 0 (metrics hm)
               end).
    set (new := statusFor hm (ConsecutiveErrors m1)).
    rewrite HealthProps.updateStatus_status.
    unfold updateStatus. cbn [status set_metrics onStatusChange statusChanges].
    destruct (HealthStatus_eqb (status hm) new);
      cbn [statusChanges set_metrics negb];
      rewrite ?andb_false_r, ?andb_true_r, ?List.app_nil_r; [reflexivity|].
    destruct (onStatusChange hm); rewrite ?List.app_nil_r; reflexivity.
  - destruct (status hm); cbn; rewrite andb_false_r, List.app_nil_r;
      reflexivity.
Qed.

Lemma failMessages_fields (k : nat) (hm : HealthMonitor) :
  status (failMessages k hm) = status hm /\
  healthCheckFunc (failMessages k hm) = healthCheckFunc hm /\
  unhealthyThreshold (failMessages k hm) = unhealthyThreshold hm /\
  degradedThreshold (failMessages k hm) = degradedThreshold hm /\
  (GoInt.min_int <= ConsecutiveErrors (metrics hm) ->
   ConsecutiveErrors (metrics hm) + Z.of_nat k <= GoInt.max_int ->
   ConsecutiveErrors (metrics (failMessages k hm))
     = ConsecutiveErrors (metrics hm) + Z.of_nat k).
Proof.
  induction k as [|k IH].
  - cbn. repeat split. intros. lia.
  - change (failMessages (S k) hm)
      with (RecordMessageFailed (failMessages k hm)).
    destruct IH as (I1 & I2 & I3 & I4 & I5).
    cbn [RecordMessageFailed status healthCheckFunc unhealthyThreshold
         degradedThreshold set_metrics metrics ConsecutiveErrors].
    repeat split; try assumption.
    intros Hlo Hhi. rewrite I5 by lia. rewrite incr_exact by lia. lia.
Qed.

(** Failed messages raise the count of consecutive errors between checks
    without touching the status; the next check counts on from there.
    After [k] failed messages on a count of [c], a probe that returns nil
    puts the count back to 0 and the status to healthy, and a probe that
    fails makes the count [c + k + 1] and the status the one for that
    count. *)
Theorem traffic_failures_weigh_at_next_check
  (hm : HealthMonitor) (k : nat) (now : Time.Time)
  (probe : Time.Time -> option error) :
  healthCheckFunc hm = Some probe ->
  0 <= ConsecutiveErrors (metrics hm) ->
  ConsecutiveErrors (metrics hm) + Z.of_nat k < GoInt.max_int ->
  let c := ConsecutiveErrors (metrics hm) in
  let hm1 := failMessages k hm in
  status hm1 = status hm /\
  ConsecutiveErrors (metrics hm1) = c + Z.of_nat k /\
  (probe now = None ->
     ConsecutiveErrors (metrics (performHealthCheck now hm1)) = 0 /\
     status (performHealthCheck now hm1) = HealthHealthy) /\
  (forall e, probe now = Some e ->
     ConsecutiveErrors (metrics (performHealthCheck now hm1))
       = c + Z.of_nat k + 1 /\
     status (performHealthCheck now hm1)
       = statusFor hm (c + Z.of_nat k + 1)).
Proof.
  intros Hp Hc Hk c hm1. subst c hm1.
  destruct (failMessages_fields k hm) as (F1 & F2 & F3 & F4 & F5).
  assert (Hce := F5 ltac:(unfold GoInt.min_int; lia) ltac:(lia)).
  rewrite Hp in F2.
  repeat split; try assumption.
  - unfold performHealthCheck. rewrite F2, H.
    rewrite HealthProps.updateStatus_metrics. reflexivity.
  - rewrite (HealthProps.performHealthCheck_status now _ probe F2).
    unfold performHealthCheck. rewrite F2, H.
    rewrite HealthProps.updateStatus_metrics. reflexivity.
  - unfold performHealthCheck. rewrite F2, H.
    rewrite HealthProps.updateStatus_metrics.
    cbn [metrics set_metrics probeFailed ConsecutiveErrors].
    rewrite Hce. apply incr_exact. unfold GoInt.min_int. lia.
  - rewrite (HealthProps.performHealthCheck_status now _ probe F2).
    unfold performHealthCheck. rewrite F2, H.
    rewrite HealthProps.updateStatus_metrics.
    cbn [metrics set_metrics probeFailed ConsecutiveErrors].
    rewrite Hce, incr_exact by (unfold GoInt.min_int; lia).
    unfold statusFor. rewrite F3, F4. reflexivity.
Qed.

Lemma traffic_failures_weigh_at_next_check_witness :
  let hm := SetHealthCheckFunc Examples.probe_down
              (NewHealthMonitor Supervisor.second) in
  ConsecutiveErrors (metrics (performHealthCheck 10 (failMessages 4 hm))) = 5 /\
  status (performHealthCheck 10 (failMessages 4 hm)) = HealthUnhealthy.
Proof.
  intros hm.
  destruct (traffic_failures_weigh_at_next_check hm 4 10 Examples.probe_down)
    as (_ & _ & _ & H).
  - reflexivity.
  - cbn. lia.
  - unfold GoInt.max_int. cbn. lia.
  - apply (H "unreachable"%string). reflexivity.
Defined.

Lemma statusFor_known (hm : HealthMonitor) (n : Z) :
  statusFor hm n <> HealthUnknown.
Proof.
  unfold statusFor.
  destruct (n =? 0); [discriminate|].
  destruct (n >=? unhealthyThreshold hm); [discriminate|].
  destruct (n >=? degradedThreshold hm); discriminate.
Qed.

Lemma step_keeps_known (s : Step) (hm hm' : HealthMonitor) :
  step s hm = Some hm' ->
  status hm <> HealthUnknown -> status hm' <> HealthUnknown.
Proof.
  intros Hstep Hknown.
  destruct (isCheck s) eqn:Hc.
  - destruct s; try discriminate Hc. cbn [step] in Hstep.
    injection Hstep as <-. unfold performHealthCheck.
    destruct (healthCheckFunc hm); [|exact Hknown].
    rewrite HealthProps.updateStatus_status. apply statusFor_known.
  - rewrite (step_leaves_status s hm hm' Hstep Hc). exact Hknown.
Qed.

(** The status is unknown only until the first check made with a probe:
    that check makes it healthy, degraded or unhealthy, and no later
    history of calls brings it back to unknown. *)
Theorem status_known_for_good
  (history : list Step) (now : Time.Time) (hm hm' : HealthMonitor)
  (probe : Time.Time -> option error) :
  healthCheckFunc hm = Some probe ->
  steps history (performHealthCheck now hm) = Some hm' ->
  status (performHealthCheck now hm) <> HealthUnknown /\
  status hm' <> HealthUnknown.
Proof.
  intros Hp Hsteps.
  assert (H0 : status (performHealthCheck now hm) <> HealthUnknown).
  { unfold performHealthCheck. rewrite Hp.
    rewrite HealthProps.updateStatus_status. apply statusFor_known. }
  split; [exact H0|].
  revert Hsteps H0. generalize (performHealthCheck now hm).
  induction history as [|s history IH]; intros h Hsteps Hknown.
  - cbn in Hsteps. injection Hsteps as <-. exact Hknown.
  - cbn [steps] in Hsteps.
    destruct (step s h) as [h1|] eqn:E; [|discriminate].
    apply (IH h1 Hsteps). exact (step_keeps_known s h h1 E Hknown).
Qed.

Lemma status_known_for_good_witness :
  status (performHealthCheck 10
            (SetHealthCheckFunc Examples.probe_ok Examples.two_failures))
    <> HealthUnknown /\
  status (RecordMessageFailed
            (performHealthCheck 10
               (SetHealthCheckFunc Examples.probe_ok Examples.two_failures)))
    <> HealthUnknown.
Proof.
  apply (status_known_for_good [StRecord RecMessageFailed] 10
           (SetHealthCheckFunc Examples.probe_ok Examples.two_failures)
           _ Examples.probe_ok); reflexivity.
Defined.

(** *** The window over a history of samples *)

Lemma lastn_lastn_app {A : Type} (n : nat) (a b : list A) :
  lastn n (lastn n a ++ b) = lastn n (a ++ b).
Proof.
  unfold lastn.
  set (k := (List.length a - n)%nat).
  set (c := List.skipn k a).
  assert (Hc : List.length c = (List.length a - k)%nat)
    by (subst c; apply List.length_skipn).
  assert (Hk : List.length (List.firstn k a) = k)
    by (rewrite List.length_firstn; subst k; lia).
  rewrite (List.length_app a b), (List.length_app c b), Hc.
  replace (a ++ b) with (List.firstn k a ++ (c ++ b))
    by (rewrite List.app_assoc; subst c; rewrite List.firstn_skipn;
        reflexivity).
  rewrite (List.skipn_app (List.length a + List.length b - n)), Hk.
  rewrite (List.skipn_all2 (List.firstn k a)) by (rewrite Hk; subst k; lia).
  cbn [List.app]. f_equal. subst k. lia.
Qed.

Lemma lastn_all {A : Type} (n : nat) (l : list A) :
  (List.length l <= n)%nat -> lastn n l = l.
Proof.
  intros H. unfold lastn.
  replace (List.length l - n)%nat with 0%nat by lia. reflexivity.
Qed.

(** One call of [RecordLatency] on a monitor with a positive capacity. *)
Lemma RecordLatency_window (latency : Time.Duration) (hm : HealthMonitor) :
  0 < maxLatencySamples hm ->
  exists hm',
    RecordLatency latency hm = Some hm' /\
    latencyWindow hm' =
      lastn (Z.to_nat (maxLatencySamples hm)) (latencyWindow hm ++ [latency]) /\
    maxLatencySamples hm' = maxLatencySamples hm /\
    CurrentLatency (metrics hm') = latency /\
    AverageLatency (metrics hm') =
      Z.quot (GoInt.wrap (sumZ (latencyWindow hm')))
             (Z.of_nat (List.length (latencyWindow hm'))).
Proof.
  intros Hmax. unfold RecordLatency.
  rewrite HealthProps.trimWindow_lastn by lia.
  set (w := lastn (Z.to_nat (maxLatencySamples hm)) (latencyWindow hm ++ [latency])).
  assert (Hpos : (0 < List.length w)%nat).
  { subst w. rewrite HealthProps.lastn_length, List.length_app.
    cbn [List.length]. lia. }
  unfold GoInt.div.
  replace (Z.of_nat (List.length w) =? 0) with false
    by (symmetry; apply Z.eqb_neq; lia).
  rewrite HealthProps.totalLatency_wrap.
  rewrite (wrap_id (Z.quot _ _))
    by (apply HealthProps.quot_in_range; [apply wrap_in_range | lia]).
  eexists. split; [reflexivity|]. repeat split.
Qed.

Lemma recordLatencies_cons (x : Time.Duration) (rest : list Time.Duration)
  (hm : HealthMonitor) :
  recordLatencies (x :: rest) hm =
    match RecordLatency x hm with
    | None => None
    | Some hm1 => recordLatencies rest hm1
    end.
Proof. reflexivity. Qed.

(** Recording any series of samples on a monitor with a positive
    capacity, whose window is within it, never panics, and the window
    afterwards holds the last [maxLatencySamples] entries of the old
    window followed by the samples: the most recent ones, in order of
    arrival. *)
Theorem window_keeps_most_recent_samples
  (samples : list Time.Duration) (hm : HealthMonitor) :
  0 < maxLatencySamples hm ->
  Z.of_nat (List.length (latencyWindow hm)) <= maxLatencySamples hm ->
  exists hm',
    recordLatencies samples hm = Some hm' /\
    latencyWindow hm' =
      lastn (Z.to_nat (maxLatencySamples hm)) (latencyWindow hm ++ samples) /\
    Z.of_nat (List.length (latencyWindow hm')) <= maxLatencySamples hm /\
    maxLatencySamples hm' = maxLatencySamples hm /\
    (samples <> [] ->
       CurrentLatency (metrics hm') = List.last samples 0).
Proof.
  revert hm. induction samples as [|x rest IH]; intros hm Hmax Hlen.
  - exists hm. split; [reflexivity|]. rewrite List.app_nil_r.
    rewrite lastn_all by lia. repeat split; try assumption. congruence.
  - rewrite recordLatencies_cons.
    destruct (RecordLatency_window x hm Hmax)
      as (hm1 & Hr & Hw & Hm & Hcur & _).
    rewrite Hr.
    assert (Hlen1 : Z.of_nat (List.length (latencyWindow hm1))
                    <= maxLatencySamples hm1).
    { rewrite Hw, Hm, HealthProps.lastn_length. lia. }
    destruct (IH hm1) as (hm' & Hr' & Hw' & Hl' & Hm' & Hcur');
      [lia | exact Hlen1 |].
    exists hm'. split; [exact Hr'|].
    rewrite Hm in *. repeat split; try assumption.
    + rewrite Hw', Hw, lastn_lastn_app, <- List.app_assoc. reflexivity.
    + intros _. destruct rest as [|y rest].
      * cbn in Hr'. injection Hr' as <-. exact Hcur.
      * rewrite Hcur' by discriminate. reflexivity.
Qed.

Lemma window_keeps_most_recent_samples_witness :
  exists hm',
    recordLatencies [5; 6; 7] (NewHealthMonitor Supervisor.second) = Some hm' /\
    latencyWindow hm' = lastn 100 ([] ++ [5; 6; 7]) /\
    Z.of_nat (List.length (latencyWindow hm')) <= 100 /\
    maxLatencySamples hm' = 100 /\
    ([5; 6; 7] <> [] -> CurrentLatency (metrics hm') = 7).
Proof.
  apply (window_keeps_most_recent_samples [5; 6; 7]
           (NewHealthMonitor Supervisor.second)).
  - cbn. lia.
  - cbn. lia.
Defined.

Lemma sumZ_bounds (lo hi : Z) (w : list Z) :
  List.Forall (fun x => lo <= x <= hi) w ->
  Z.of_nat (List.length w) * lo <= sumZ w <= Z.of_nat (List.length w) * hi.
Proof.
  induction 1 as [|x w Hx _ IH]; [cbn; lia|].
  cbn [sumZ List.fold_right List.length] in *. fold (sumZ w). nia.
Qed.

Lemma quot_between (lo hi s n : Z) :
  0 < n -> n * lo <= s <= n * hi -> lo <= Z.quot s n <= hi.
Proof.
  intros Hn Hs.
  pose proof (Z.quot_rem' s n) as Hqr.
  destruct (Z.le_gt_cases 0 s) as [Hpos|Hneg].
  - pose proof (Z.rem_bound_pos s n Hpos Hn). nia.
  - pose proof (Z.rem_bound_pos (- s) n ltac:(lia) Hn) as Hr.
    rewrite Z.rem_opp_l in Hr by lia. nia.
Qed.

(** The average latency lies between the smallest and the largest sample
    retained, whenever their sum fits in 64 bits. *)
Theorem average_between_extremes
  (hm hm' : HealthMonitor) (latency lo hi : Time.Duration) :
  RecordLatency latency hm = Some hm' ->
  List.Forall (fun x => lo <= x <= hi) (latencyWindow hm') ->
  GoInt.in_range (sumZ (latencyWindow hm')) ->
  lo <= AverageLatency (metrics hm') <= hi.
Proof.
  intros Hr Hall Hfit.
  unfold RecordLatency in Hr.
  destruct (trimWindow _ _) as [w|] eqn:Hw; [|discriminate].
  unfold GoInt.div in Hr.
  destruct (Z.of_nat (List.length w) =? 0) eqn:Hz; [discriminate|].
  injection Hr as <-.
  cbn [latencyWindow metrics set_metrics set_latencyWindow set_latencies
       AverageLatency] in *.
  apply Z.eqb_neq in Hz.
  rewrite HealthProps.totalLatency_wrap, (wrap_id _ Hfit).
  pose proof (sumZ_bounds lo hi w Hall) as Hs.
  assert (Hq : lo <= Z.quot (sumZ w) (Z.of_nat (List.length w)) <= hi)
    by (apply quot_between; lia).
  rewrite wrap_id; [exact Hq|].
  apply HealthProps.quot_in_range; [exact Hfit | lia].
Qed.

Lemma average_between_extremes_witness :
  exists hm',
    RecordLatency 40 Examples.window_of_three = Some hm' /\
    20 <= AverageLatency (metrics hm') <= 40.
Proof.
  eassert (Hr : RecordLatency 40 Examples.window_of_three = Some _)
    by reflexivity.
  eexists. split; [exact Hr|].
  apply (average_between_extremes _ _ 40 20 40 Hr).
  - repeat constructor; cbv; discriminate.
  - vm_compute. split; discriminate.
Defined.

(** [RecordLatency] panics exactly when the capacity of the window is
    zero (division by the length of an empty window) or negative (slice
    bounds out of range); with the constructed capacity of 100 it never
    does. *)
Theorem RecordLatency_panics_iff_no_capacity
  (latency : Time.Duration) (hm : HealthMonitor) :
  (RecordLatency latency hm = None <-> maxLatencySamples hm <= 0) /\
  RecordLatency latency (NewHealthMonitor (checkInterval hm)) <> None.
Proof.
  split.
  - split.
    + intros Hnone.
      destruct (Z.le_gt_cases (maxLatencySamples hm) 0) as [H|H]; [exact H|].
      destruct (RecordLatency_window latency hm ltac:(lia)) as (hm' & Hr & _).
      congruence.
    + intros Hle. unfold RecordLatency, trimWindow.
      rewrite List.length_app. cbn [List.length]. cbv zeta.
      replace (Z.of_nat (List.length (latencyWindow hm) + 1) >? maxLatencySamples hm)
        with true by (symmetry; apply Z.gtb_lt; lia).
      destruct (maxLatencySamples hm <? 0) eqn:Hneg; [reflexivity|].
      apply Z.ltb_ge in Hneg.
      assert (H0 : maxLatencySamples hm = 0) by lia. rewrite H0.
      rewrite Z.sub_0_r, Nat2Z.id.
      replace (List.length (latencyWindow hm) + 1)%nat
        with (List.length (latencyWindow hm ++ [latency]))
        by (rewrite List.length_app; reflexivity).
      rewrite List.skipn_all. reflexivity.
  - destruct (RecordLatency_window latency (NewHealthMonitor (checkInterval hm)))
      as (hm' & Hr & _); [cbn; lia|].
    rewrite Hr. discriminate.
Qed.

(** *** What holds of every monitor *)

Lemma wrap_add_r (x y : Z) : GoInt.wrap (x + GoInt.wrap y) = GoInt.wrap (x + y).
Proof. rewrite Z.add_comm, wrap_add_l. f_equal. lia. Qed.

Lemma step_asConstructed (ci : Time.Duration) (s : Step)
  (hm : HealthMonitor) :
  asConstructed ci hm ->
  exists hm', step s hm = Some hm' /\ asConstructed ci hm'.
Proof.
  unfold asConstructed. intros (Hci & Hu & Hd & Hmax & Hlen & Htot).
  destruct s as [r | latency | now | fn | ]; cbn [step].
  - eexists. split; [reflexivity|].
    destruct r;
      cbn [record RecordMessageSent RecordMessageReceived RecordMessageFailed
           RecordReconnectAttempt RecordConnectionEstablished
           RecordConnectionLost RecordAuthentication
           set_metrics metrics checkInterval unhealthyThreshold
           degradedThreshold maxLatencySamples latencyWindow
           TotalMessages SentMessages ReceivedMessages];
      repeat apply conj; try assumption.
    + rewrite Htot. unfold GoInt.incr, GoInt.add.
      rewrite !wrap_add_l. f_equal. lia.
    + rewrite Htot. unfold GoInt.incr, GoInt.add.
      rewrite wrap_add_l, wrap_add_r. f_equal. lia.
  - destruct (RecordLatency_window latency hm) as (hm' & Hr & Hw & Hm & _);
      [lia|].
    exists hm'. split; [exact Hr|].
    unfold RecordLatency in Hr.
    destruct (trimWindow _ _); [|discriminate].
    destruct (GoInt.div _ _); [|discriminate].
    injection Hr as <-.
    cbn [set_metrics set_latencyWindow set_latencies metrics checkInterval
         unhealthyThreshold degradedThreshold maxLatencySamples latencyWindow
         TotalMessages SentMessages ReceivedMessages] in *.
    repeat apply conj; try assumption.
    rewrite Hw, HealthProps.lastn_length. lia.
  - eexists. split; [reflexivity|].
    unfold performHealthCheck.
    destruct (healthCheckFunc hm) as [probe|];
      [|repeat apply conj; assumption].
    unfold updateStatus.
    destruct (HealthStatus_eqb _ _); destruct (probe now);
      cbn [set_metrics metrics checkInterval unhealthyThreshold
           degradedThreshold maxLatencySamples latencyWindow probeFailed
           set_ConsecutiveErrors TotalMessages SentMessages ReceivedMessages];
      repeat apply conj; assumption.
  - eexists. split; [reflexivity|]. repeat apply conj; assumption.
  - eexists. split; [reflexivity|]. repeat apply conj; assumption.
Qed.

(** Whatever is done to a monitor made by [NewHealthMonitor] - events,
    latencies, checks, setters, in any number and order - nothing panics,
    the thresholds stay 5 and 3 and the capacity 100, the window never
    holds more than 100 samples, and the count of all messages is the
    count of sent plus received ones (failed messages are not in it). *)
Theorem constructed_monitor_stays_consistent
  (ci : Time.Duration) (history : list Step) :
  exists hm,
    steps history (NewHealthMonitor ci) = Some hm /\ asConstructed ci hm.
Proof.
  assert (H : forall h, asConstructed ci h ->
                exists hm, steps history h = Some hm /\ asConstructed ci hm).
  { induction history as [|s history IH]; intros h Hh.
    - exists h. split; [reflexivity | exact Hh].
    - destruct (step_asConstructed ci s h Hh) as (h1 & Hs & Hh1).
      cbn [steps]. rewrite Hs. apply IH. exact Hh1. }
  apply H. unfold asConstructed. cbn. repeat split; lia.
Qed.

Lemma step_reconnectsWithin (n : Z) (s : Step) (hm hm' : HealthMonitor) :
  step s hm = Some hm' ->
  n < GoInt.max_int ->
  reconnectsWithin n hm -> reconnectsWithin (n + 1) hm'.
Proof.
  unfold reconnectsWithin. intros Hstep Hn ((H0 & H1) & H2).
  assert (Hi1 : GoInt.incr (ReconnectAttempts (metrics hm))
                = ReconnectAttempts (metrics hm) + 1)
    by (apply incr_exact; unfold GoInt.min_int; lia).
  assert (Hi2 : GoInt.incr (SuccessfulReconnects (metrics hm))
                = SuccessfulReconnects (metrics hm) + 1)
    by (apply incr_exact; unfold GoInt.min_int; lia).
  destruct s as [r | latency | now | fn | ]; cbn [step] in Hstep.
  - injection Hstep as <-.
    destruct r as [t | t | | t [|] | t | | b];
      cbn [record RecordMessageSent RecordMessageReceived RecordMessageFailed
           RecordReconnectAttempt RecordConnectionEstablished
           RecordConnectionLost RecordAuthentication
           set_metrics metrics SuccessfulReconnects ReconnectAttempts];
      rewrite ?Hi1, ?Hi2; lia.
  - unfold RecordLatency in Hstep.
    destruct (trimWindow _ _); [|discriminate].
    destruct (GoInt.div _ _); [|discriminate].
    injection Hstep as <-.
    cbn [set_metrics set_latencies metrics SuccessfulReconnects
         ReconnectAttempts]. lia.
  - injection Hstep as <-. unfold performHealthCheck.
    destruct (healthCheckFunc hm) as [probe|]; [|lia].
    rewrite HealthProps.updateStatus_metrics.
    destruct (probe now);
      cbn [set_metrics metrics probeFailed set_ConsecutiveErrors
           SuccessfulReconnects ReconnectAttempts]; lia.
  - injection Hstep as <-. cbn. lia.
  - injection Hstep as <-. cbn. lia.
Qed.

(** On a monitor made by [NewHealthMonitor], after a history that an
    [int] can count, the successful reconnects never exceed the reconnect
    attempts, and neither exceeds the number of steps taken. *)
Theorem successful_reconnects_within_attempts
  (ci : Time.Duration) (history : list Step) (hm : HealthMonitor) :
  Z.of_nat (List.length history) <= GoInt.max_int ->
  steps history (NewHealthMonitor ci) = Some hm ->
  0 <= SuccessfulReconnects (metrics hm) <= ReconnectAttempts (metrics hm) /\
  ReconnectAttempts (metrics hm) <= Z.of_nat (List.length history).
Proof.
  intros Hlen Hsteps.
  assert (H : forall l h n,
             reconnectsWithin n h ->
             0 <= n ->
             n + Z.of_nat (List.length l) <= GoInt.max_int ->
             steps l h = Some hm ->
             reconnectsWithin (n + Z.of_nat (List.length l)) hm).
  { induction l as [|s l IH]; intros h n Hh Hn0 Hn Hs.
    - cbn in Hs. injection Hs as <-. cbn [List.length]. rewrite Z.add_0_r.
      exact Hh.
    - cbn [steps] in Hs. destruct (step s h) as [h1|] eqn:E; [|discriminate].
      cbn [List.length] in Hn |- *.
      replace (n + Z.of_nat (S (List.length l)))
        with (n + 1 + Z.of_nat (List.length l)) by lia.
      apply (IH h1); [|lia|lia|exact Hs].
      apply (step_reconnectsWithin n s h h1 E); [lia | exact Hh]. }
  apply (H history (NewHealthMonitor ci) 0); try lia; try exact Hsteps.
  unfold reconnectsWithin. cbn. lia.
Qed.

Lemma successful_reconnects_within_attempts_witness :
  let history := [StRecord (RecReconnectAttempt 1 false);
                  StRecord (RecReconnectAttempt 2 true)] in
  exists hm,
    steps history (NewHealthMonitor Supervisor.second) = Some hm /\
    0 <= SuccessfulReconnects (metrics hm) <= ReconnectAttempts (metrics hm) /\
    ReconnectAttempts (metrics hm) <= 2.
Proof.
  intros history.
  eassert (Hs : steps history (NewHealthMonitor Supervisor.second) = Some _)
    by reflexivity.
  eexists. split; [exact Hs|].
  apply (successful_reconnects_within_attempts Supervisor.second history _).
  - unfold GoInt.max_int. cbn. lia.
  - exact Hs.
Defined.

End HealthHistories.

(** ** ReconnectionManager: the budget of attempts *)

Module ReconnectionBudget.
Import Reconnection.

Lemma incrementTimes_fields (k : nat) (r : ReconnectionManager) :
  enabled (incrementTimes k r) = enabled r /\
  maxAttempts (incrementTimes k r) = maxAttempts r /\
  delay (incrementTimes k r) = delay r /\
  backoffFunc (incrementTimes k r) = backoffFunc r /\
  (GoInt.min_int <= attempts r ->
   attempts r + Z.of_nat k <= GoInt.max_int ->
   attempts (incrementTimes k r) = attempts r + Z.of_nat k).
Proof.
  induction k as [|k IH].
  - cbn. repeat split. intros. lia.
  - change (incrementTimes (S k) r)
      with (IncrementAttempts (incrementTimes k r)).
    destruct IH as (I1 & I2 & I3 & I4 & I5).
    cbn [IncrementAttempts enabled maxAttempts delay backoffFunc attempts].
    repeat split; try assumption.
    intros Hlo Hhi. rewrite I5 by lia. rewrite incr_exact by lia. lia.
Qed.

(** After [Reset], [k] attempts later: reconnection is still wanted
    exactly when it is enabled and [k] is below [maxAttempts] - so an
    enabled manager allows [maxAttempts] attempts and then stops, and
    none at all for [maxAttempts <= 0] - and the next back-off is the
    back-off function at [k], or the fixed delay.  A successful
    connection ([Reset]) gives the whole budget back, and disabling
    switches reconnection off at any count. *)
Theorem attempts_budget (r : ReconnectionManager) (k : nat) :
  Z.of_nat k <= GoInt.max_int ->
  let r' := incrementTimes k (Reset r) in
  attempts r' = Z.of_nat k /\
  (ShouldReconnect r' = true <->
     enabled r = true /\ Z.of_nat k < maxAttempts r) /\
  NextBackoff r' =
    match backoffFunc r with
    | Some f => f (Z.of_nat k)
    | None => delay r
    end /\
  (ShouldReconnect (Reset r') = true <->
     enabled r = true /\ 0 < maxAttempts r) /\
  ShouldReconnect (SetEnabled false r') = false.
Proof.
  intros Hk r'. subst r'.
  destruct (incrementTimes_fields k (Reset r)) as (E1 & E2 & E3 & E4 & E5).
  cbn [Reset enabled maxAttempts delay backoffFunc attempts] in *.
  assert (Ha : attempts (incrementTimes k (Reset r)) = Z.of_nat k)
    by (rewrite E5; unfold GoInt.min_int; lia).
  split; [exact Ha|].
  split.
  { unfold ShouldReconnect. rewrite E1, E2, Ha, andb_true_iff, Z.ltb_lt.
    reflexivity. }
  split.
  { unfold NextBackoff. rewrite E3, E4, Ha. reflexivity. }
  split.
  { unfold ShouldReconnect.
    cbn [Reset enabled maxAttempts attempts].
    rewrite E1, E2, andb_true_iff, Z.ltb_lt. reflexivity. }
  reflexivity.
Qed.

Lemma attempts_budget_witness :
  let r := {| enabled := true; attempts := 7; maxAttempts := 3;
              delay := 1000; backoffFunc := Some (fun n => 100 * 2 ^ n) |} in
  ShouldReconnect (incrementTimes 2 (Reset r)) = true /\
  ShouldReconnect (incrementTimes 3 (Reset r)) = false /\
  NextBackoff (incrementTimes 2 (Reset r)) = 400.
Proof.
  intros r.
  destruct (attempts_budget r 2) as (_ & H2 & B2 & _);
    [unfold GoInt.max_int; cbn; lia|].
  destruct (attempts_budget r 3) as (_ & H3 & _);
    [unfold GoInt.max_int; cbn; lia|].
  split; [apply H2; split; [reflexivity | cbn; lia]|].
  split; [|exact B2].
  apply Bool.not_true_is_false. intros E.
  apply H3 in E. cbn in E. lia.
Defined.

End ReconnectionBudget.
